(** * A shallow embedding of [seir/model.py]

    The multi-compartment SEIR model of [src/seir/model.py], written as Rocq
    functions, and the properties its specification states about it.

    Numbers.  Python floats and numpy [float64] entries are read as exact
    rationals ([Q]); equalities between computed numbers are stated with
    [Qeq] ([==]).  Rounding is therefore outside the model.  Division by
    zero, which numpy answers with [inf]/[nan] and a warning, is [Qinv 0 = 0]
    here; the statements below compare results built with the same
    division and do not rest on that value.

    Errors.  Every Python exception the code can raise on the modelled paths
    is a constructor of [exn]; a method returns [result A]. *)

From Stdlib Require Import String.
From Stdlib Require Import List ZArith QArith Qfield Lia Bool Sorted.
Import ListNotations.
Open Scope Q_scope.

(** ** Exceptions and the error monad *)

Inductive exn : Set :=
| AssertionError   (* a failed [assert] *)
| ValueError       (* numpy: shapes that do not broadcast, ambiguous truth value *)
| NameError        (* an unbound name *)
| AttributeError   (* an attribute the object does not have *)
| TypeError        (* a value of the wrong type: [None] called, a float as a shape *)
| IndexError.      (* an index past the end of an axis *)

Inductive result (A : Type) : Type :=
| Ok (a : A)
| Raise (e : exn).
Arguments Ok {A} a.
Arguments Raise {A} e.

Definition bind {A B : Type} (c : result A) (k : A -> result B) : result B :=
  match c with
  | Ok a => k a
  | Raise e => Raise e
  end.

Declare Scope py_scope.
Delimit Scope py_scope with py.
Notation "x <- c ;; k" := (bind c (fun x => k))
  (at level 61, c at next level, right associativity) : py_scope.
Notation "' p <- c ;; k" := (bind c (fun x => let p := x in k))
  (at level 61, p pattern, c at next level, right associativity) : py_scope.
Notation "'assert' b ;; k" := (if b then k else Raise AssertionError)
  (at level 61, b at next level, right associativity) : py_scope.
Open Scope py_scope.

Fixpoint mapM {A B : Type} (f : A -> result B) (l : list A) : result (list B) :=
  match l with
  | [] => Ok []
  | a :: l' => b <- f a ;; bs <- mapM f l' ;; Ok (b :: bs)
  end.

(** ** Values

    A keyword argument typed [Union[int, float, np.ndarray]] is a Python
    [int], a Python [float] or a one-dimensional [float64] array. *)

Inductive num : Type :=
| PyInt (z : Z)
| PyFloat (q : Q)
| NdArray (v : list Q).

(** A two-dimensional array, by rows (all rows of one length). *)
Definition matrix : Type := list (list Q).

(** Compartment labels are opaque ([List[Any]]): a name such as ['All'] or
    an age band such as [(1, 5)]. *)
Inductive label : Type :=
| Name (s : string)
| Band (lo hi : Z).

(** ** The part of numpy the model uses *)

Module np.

Definition ones (n : nat) : list Q := repeat 1 n.
Definition zeros (n : nat) : list Q := repeat 0 n.
Definition ones2 (r c : nat) : matrix := repeat (ones c) r.

Definition sum (v : list Q) : Q := fold_right Qplus 0 v.

Fixpoint zip_with (f : Q -> Q -> Q) (xs ys : list Q) : list Q :=
  match xs, ys with
  | x :: xs', y :: ys' => f x y :: zip_with f xs' ys'
  | _, _ => []
  end.

(** A binary ufunc on two one-dimensional arrays: equal lengths go
    elementwise, a length-one operand is stretched, anything else does not
    broadcast. *)
Definition broadcast (f : Q -> Q -> Q) (xs ys : list Q) : result (list Q) :=
  if (length xs =? length ys)%nat then Ok (zip_with f xs ys)
  else match xs, ys with
       | [x], _ => Ok (map (f x) ys)
       | _, [y] => Ok (map (fun x => f x y) xs)
       | _, _ => Raise ValueError
       end.

(** The same ufunc between a (T x n) array and a one-dimensional array,
    which numpy aligns with the last axis. *)
Definition broadcast_rows (f : Q -> Q -> Q) (M : matrix) (v : list Q)
  : result matrix :=
  mapM (fun row => broadcast f row v) M.

(** The value of a Python scalar; an array has none. *)
Definition scalar (x : num) : option Q :=
  match x with
  | PyInt z => Some (inject_Z z)
  | PyFloat q => Some q
  | NdArray _ => None
  end.

(** [np.multiply(x, v)] for a scalar-or-array [x] and an array [v]. *)
Definition multiply (x : num) (v : list Q) : result (list Q) :=
  match x with
  | PyInt z => Ok (map (Qmult (inject_Z z)) v)
  | PyFloat q => Ok (map (Qmult q) v)
  | NdArray u => broadcast Qmult u v
  end.

(** [v - x] for an array [v]. *)
Definition subtract (v : list Q) (x : num) : result (list Q) :=
  match x with
  | PyInt z => Ok (map (fun t => t - inject_Z z) v)
  | PyFloat q => Ok (map (fun t => t - q) v)
  | NdArray u => broadcast Qminus v u
  end.

(** [v += x]: the result must have the shape of [v]. *)
Definition iadd (v : list Q) (x : num) : result (list Q) :=
  match x with
  | PyInt z => Ok (map (fun a => a + inject_Z z) v)
  | PyFloat q => Ok (map (fun a => a + q) v)
  | NdArray u =>
      if (length u =? length v)%nat then Ok (zip_with Qplus v u)
      else match u with
           | [d] => Ok (map (fun a => a + d) v)
           | _ => Raise ValueError
           end
  end.

Definition shape0 (M : matrix) : nat := length M.
Definition shape1 (M : matrix) : nat :=
  match M with
  | [] => 0%nat
  | row :: _ => length row
  end.

Definition dot (u v : list Q) : Q := sum (zip_with Qmult u v).
Definition col (j : nat) (M : matrix) : list Q := map (fun row => nth j row 0) M.

(** [v @ M]. *)
Definition vecmat (v : list Q) (M : matrix) : result (list Q) :=
  if (length v =? shape0 M)%nat
  then Ok (map (fun j => dot v (col j M)) (seq 0 (shape1 M)))
  else Raise ValueError.

(** [M @ v]. *)
Definition matvec (M : matrix) (v : list Q) : result (list Q) :=
  if (shape1 M =? length v)%nat
  then Ok (map (fun row => dot row v) M)
  else Raise ValueError.

(** [bool(M)], as [if M:] asks it: an array of one element has the truth
    value of that element, an array of several has none, and neither has an
    empty array (numpy answered [False] with a deprecation warning before it
    made that an error too). *)
Definition truth (M : matrix) : result bool :=
  match concat M with
  | [] => Raise ValueError
  | [x] => Ok (negb (Qeq_bool x 0))
  | _ => Raise ValueError
  end.

(** [np.split(Y, 4)]: four equal blocks, or an error. *)
Definition split4 (Y : list Q)
  : result (list Q * list Q * list Q * list Q) :=
  let n := (length Y / 4)%nat in
  if (length Y mod 4 =? 0)%nat
  then Ok (firstn n Y,
           firstn n (skipn n Y),
           firstn n (skipn (2 * n) Y),
           skipn (3 * n) Y)
  else Raise ValueError.

(** [np.split(M, 4, axis=-1)]: every row is cut in four. *)
Definition split4_rows (M : matrix)
  : result (matrix * matrix * matrix * matrix) :=
  rows <- mapM split4 M ;;
  Ok (map (fun r => fst (fst (fst r))) rows,
      map (fun r => snd (fst (fst r))) rows,
      map (fun r => snd (fst r)) rows,
      map (fun r => snd r) rows).

(** [np.cumsum(M, axis=0)]: running sums down the rows. *)
Fixpoint cumsum_from (acc : list Q) (M : matrix) : matrix :=
  match M with
  | [] => []
  | row :: M' =>
      let acc' := zip_with Qplus acc row in
      acc' :: cumsum_from acc' M'
  end.

Definition cumsum (M : matrix) : matrix :=
  match M with
  | [] => []
  | row :: M' => row :: cumsum_from row M'
  end.

(** [np.ones(d)] for a duration [d] as the caller gave it: an [int] is a
    length, a [float] or a [float64] array is not a shape. *)
Definition ones_of (d : num) : result (list Q) :=
  match d with
  | PyInt z => if (z <? 0)%Z then Raise ValueError else Ok (ones (Z.to_nat z))
  | PyFloat _ => Raise TypeError
  | NdArray _ => Raise TypeError
  end.

(** [M[:, i]].  An array without rows has columns without entries,
    whatever its width. *)
Definition column (i : nat) (M : matrix) : result (list Q) :=
  match M with
  | [] => Ok []
  | _ => if (i <? shape1 M)%nat then Ok (col i M) else Raise IndexError
  end.

(** Entry [m] of the full discrete convolution of [a] and [v]:
    the sum of [a[m - i] * v[i]] over the [i] for which both exist. *)
Definition convolve_full_at (a v : list Q) (m : nat) : Q :=
  sum (map (fun i => nth (m - i) a 0 * nth i v 0)
           (filter (fun i => (i <=? m)%nat && (m - i <? length a)%nat)
                   (seq 0 (length v)))).

(** [np.convolve(a, v, mode='same')]: neither operand may be empty, the
    longer one is taken as the signal, and the output is the part of the
    full convolution, as long as the signal, that starts [(len(v) - 1) // 2]
    entries in. *)
Definition same_part (a v : list Q) : list Q :=
  let '(a, v) := if (length a <? length v)%nat then (v, a) else (a, v) in
  let off := ((length v - 1) / 2)%nat in
  map (fun k => convolve_full_at a v (k + off)) (seq 0 (length a)).

Definition convolve_same (a v : list Q) : result (list Q) :=
  match a, v with
  | [], _ | _, [] => Raise ValueError
  | _, _ => Ok (same_part a v)
  end.

(** [np.stack(cols, axis=-1)] of one-dimensional arrays of one length. *)
Definition stack (cols : list (list Q)) : matrix :=
  map (fun k => map (fun c => nth k c 0) cols)
      (seq 0 (length (hd [] cols))).

End np.

(** ** The model object *)

Record SEIR : Type := {
  compartments : list label;
  num_compartments : nat;
  incubation_period : list Q;
  infectious_period : list Q;
  initial_R0 : Q;
  hospitalization_probability : list Q;
  hospitalization_duration : num;
  hospitalization_lag_from_onset : num;
  icu_probability : list Q;
  icu_duration : num;
  icu_lag_from_onset : num;
  death_probability : list Q;
  death_lag_from_onset : num;
  population : list Q;
  infectivity_matrix : matrix;
  restrictions_function : option (Q -> num + matrix);
  imported_cases_function : option (Q -> num * num * num);
  Y0 : option (list Q);
  (* [self.SEIR_solution]: [None], or the closure over the dense output
     [solution.sol] of the solver, kept here as that dense output *)
  solution : option (Q -> list Q)
}.

(** The keyword arguments of [SEIR.__init__]. *)
Record Config : Type := {
  arg_incubation_period : num;
  arg_infectious_period : num;
  arg_initial_R0 : Q;
  arg_hospitalization_probability : num;
  arg_hospitalization_duration : num;
  arg_hospitalization_lag_from_onset : num;
  arg_icu_probability : num;
  arg_icu_duration : num;
  arg_icu_lag_from_onset : num;
  arg_death_probability : num;
  arg_death_lag_from_onset : num;
  arg_population : num;
  arg_compartments : option (list label);
  arg_contacts_matrix : option matrix;
  arg_restrictions_function : option (Q -> num + matrix);
  arg_imported_cases_function : option (Q -> num * num * num)
}.

(** [SEIR._fix_size], with [self.num_compartments] as [n]. *)
Definition _fix_size (n : nat) (x : num) : result (list Q) :=
  match x with
  | PyInt z => Ok (map (fun o => o * inject_Z z) (np.ones n))
  | PyFloat q => Ok (map (fun o => o * q) (np.ones n))
  | NdArray v => assert (length v =? n)%nat ;; Ok v
  end.

(** [SEIR._compute_infectivity_matrix], reading [self.infectious_period],
    [self.initial_R0] and [self.population]. *)
Definition normalization (infectious : list Q) (R0 : Q) (pop : list Q)
    (contacts_matrix : matrix) : result (list Q) :=
  pc <- np.vecmat pop contacts_matrix ;;
  Ok (map (fun p => 1 / p * R0 * np.sum pop / np.sum pc) infectious).

Definition _compute_infectivity_matrix (infectious : list Q) (R0 : Q)
    (pop : list Q) (contacts_matrix : matrix) : result matrix :=
  nrm <- normalization infectious R0 pop contacts_matrix ;;
  np.broadcast_rows (fun c x => x * c) contacts_matrix nrm.

(** The compartments an instance ends up with: a single one named ['All']
    when none (or an empty list) was given. *)
Definition compartments_of (c : Config) : list label :=
  match arg_compartments c with
  | Some (l :: ls) => l :: ls
  | _ => [Name "All"]
  end.

(** The contact matrix [__init__] goes on with ([if contacts_matrix:]). *)
Definition contacts_of (n : nat) (cm : option matrix) : result matrix :=
  match cm with
  | None => Ok (np.ones2 n n)
  | Some M =>
      given <- np.truth M ;;
      if given : bool
      then assert (np.shape0 M =? n)%nat ;;
           assert (np.shape1 M =? n)%nat ;;
           Ok M
      else Ok (np.ones2 n n)
  end.

(** [SEIR.__init__]. *)
Definition __init__ (c : Config) : result SEIR :=
  let comps := compartments_of c in
  let n := length comps in
  incubation <- _fix_size n (arg_incubation_period c) ;;
  infectious <- _fix_size n (arg_infectious_period c) ;;
  hosp_p <- _fix_size n (arg_hospitalization_probability c) ;;
  icu_p <- _fix_size n (arg_icu_probability c) ;;
  death_p <- _fix_size n (arg_death_probability c) ;;
  _ <- match arg_population c with
       | PyInt _ | PyFloat _ => assert (n =? 1)%nat ;; Ok tt
       | NdArray v => assert (length v =? n)%nat ;; Ok tt
       end ;;
  pop <- _fix_size n (arg_population c) ;;
  contacts_matrix <- contacts_of n (arg_contacts_matrix c) ;;
  infectivity <- _compute_infectivity_matrix infectious (arg_initial_R0 c)
                   pop contacts_matrix ;;
  Ok {| compartments := comps;
        num_compartments := n;
        incubation_period := incubation;
        infectious_period := infectious;
        initial_R0 := arg_initial_R0 c;
        hospitalization_probability := hosp_p;
        hospitalization_duration := arg_hospitalization_duration c;
        hospitalization_lag_from_onset := arg_hospitalization_lag_from_onset c;
        icu_probability := icu_p;
        icu_duration := arg_icu_duration c;
        icu_lag_from_onset := arg_icu_lag_from_onset c;
        death_probability := death_p;
        death_lag_from_onset := arg_death_lag_from_onset c;
        population := pop;
        infectivity_matrix := infectivity;
        restrictions_function := arg_restrictions_function c;
        imported_cases_function := arg_imported_cases_function c;
        Y0 := None;
        solution := None |}.

(** The body of [SEIR.__call__] below the choice of the infectivity matrix. *)
Definition rates (self : SEIR) (infectivity : matrix) (t : Q) (Y : list Q)
  : result (list Q) :=
  ' (Sa, Ea, Ia, Ra) <- np.split4 Y ;;
  s_frac <- np.broadcast Qdiv Sa (population self) ;;
  force <- np.matvec infectivity Ia ;;
  dS_dt <- np.broadcast Qmult (map Qopp s_frac) force ;;
  e_out <- np.broadcast Qdiv Ea (incubation_period self) ;;
  dE_dt <- np.broadcast Qminus (map Qopp dS_dt) e_out ;;
  e_in <- np.broadcast Qdiv Ea (incubation_period self) ;;
  i_out <- np.broadcast Qdiv Ia (infectious_period self) ;;
  dI_dt <- np.broadcast Qminus e_in i_out ;;
  dR_dt <- np.broadcast Qdiv Ia (infectious_period self) ;;
  match imported_cases_function self with
  | Some imported =>
      let '(DS, DE, DI) := imported t in
      dS_dt <- np.iadd dS_dt DS ;;
      dE_dt <- np.iadd dE_dt DE ;;
      dI_dt <- np.iadd dI_dt DI ;;
      Ok (dS_dt ++ dE_dt ++ dI_dt ++ dR_dt)
  | None => Ok (dS_dt ++ dE_dt ++ dI_dt ++ dR_dt)
  end.

(** [SEIR.__call__]: dY/dt.  The guarded branch reads the bare name
    [restrictions_function], which is bound neither in the method nor in the
    module. *)
Definition __call__ (self : SEIR) (t : Q) (Y : list Q) : result (list Q) :=
  infectivity <- match restrictions_function self with
                 | Some _ => Raise NameError
                 | None => Ok (infectivity_matrix self)
                 end ;;
  rates self infectivity t Y.

Definition with_Y0 (self : SEIR) (y : list Q) : SEIR :=
  {| compartments := compartments self;
     num_compartments := num_compartments self;
     incubation_period := incubation_period self;
     infectious_period := infectious_period self;
     initial_R0 := initial_R0 self;
     hospitalization_probability := hospitalization_probability self;
     hospitalization_duration := hospitalization_duration self;
     hospitalization_lag_from_onset := hospitalization_lag_from_onset self;
     icu_probability := icu_probability self;
     icu_duration := icu_duration self;
     icu_lag_from_onset := icu_lag_from_onset self;
     death_probability := death_probability self;
     death_lag_from_onset := death_lag_from_onset self;
     population := population self;
     infectivity_matrix := infectivity_matrix self;
     restrictions_function := restrictions_function self;
     imported_cases_function := imported_cases_function self;
     Y0 := Some y;
     solution := solution self |}.

Definition with_solution (self : SEIR) (sol : Q -> list Q) : SEIR :=
  {| compartments := compartments self;
     num_compartments := num_compartments self;
     incubation_period := incubation_period self;
     infectious_period := infectious_period self;
     initial_R0 := initial_R0 self;
     hospitalization_probability := hospitalization_probability self;
     hospitalization_duration := hospitalization_duration self;
     hospitalization_lag_from_onset := hospitalization_lag_from_onset self;
     icu_probability := icu_probability self;
     icu_duration := icu_duration self;
     icu_lag_from_onset := icu_lag_from_onset self;
     death_probability := death_probability self;
     death_lag_from_onset := death_lag_from_onset self;
     population := population self;
     infectivity_matrix := infectivity_matrix self;
     restrictions_function := restrictions_function self;
     imported_cases_function := imported_cases_function self;
     Y0 := Y0 self;
     solution := Some sol |}.

(** One of the three inputs of [set_initial_state]: a fraction of the
    population, or a raw count.  A raw scalar goes to [self._fix_sizes], a
    method the class does not have (it has [_fix_size]). *)
Definition initial_block (self : SEIR) (x : num) (probabilities : bool)
  : result (list Q) :=
  if probabilities then np.multiply x (population self)
  else match x with
       | PyInt _ | PyFloat _ => Raise AttributeError
       | NdArray v => assert (length v =? num_compartments self)%nat ;; Ok v
       end.

(** [SEIR.set_initial_state]. *)
Definition set_initial_state (self : SEIR)
    (population_susceptible population_exposed population_infected : num)
    (probabilities : bool) : result SEIR :=
  S0 <- initial_block self population_susceptible probabilities ;;
  E0 <- initial_block self population_exposed probabilities ;;
  I0 <- initial_block self population_infected probabilities ;;
  let R0 := np.zeros (num_compartments self) in
  Ok (with_Y0 self (S0 ++ E0 ++ I0 ++ R0)).

(** [SEIR.simulate].  The integrator is scipy's [solve_ivp], a collaborator
    outside the repository: whatever it is, it gets the derivative law, the
    horizon and the initial state and, when it succeeds, hands back a dense
    output.  Before [set_initial_state] the initial state is [None], which
    [solve_ivp] refuses as a state that is not one-dimensional. *)
Section Simulate.

Variable solve_ivp :
  (Q -> list Q -> result (list Q)) -> Q -> list Q -> result (Q -> list Q).

Definition simulate (self : SEIR) (days_to_simulate : Q) : result SEIR :=
  match Y0 self with
  | None => Raise ValueError
  | Some y0 =>
      sol <- solve_ivp (__call__ self) days_to_simulate y0 ;;
      Ok (with_solution self sol)
  end.

End Simulate.

(** The rows the closure [SEIR_solution] returns when it returns: the
    initial state for every negative query time, then the dense output at
    the others. *)
Definition rows_of (sol : Q -> list Q) (y0 : list Q) (time : list Q) : matrix :=
  let postime_mask := map (Qle_bool 0) time in
  let SEIR := map sol (filter (Qle_bool 0) time) in
  let INI := repeat y0 (length time
                        - length (filter (fun b : bool => b) postime_mask)) in
  INI ++ SEIR.

(** The closure [SEIR_solution] that [simulate] stores in the instance; it
    reads [self.Y0] when it is called.  Before [simulate] the attribute is
    [None], and calling it is a [TypeError].  The dense output of scipy is
    asked for all the non-negative times at once and raises [ValueError]
    when there are none (it stacks one result per time, and there is
    nothing to stack); [np.concatenate] raises [ValueError] when the rows
    of the dense output do not have the length of the initial state. *)
Definition SEIR_solution (self : SEIR) (time : list Q) : result matrix :=
  match solution self, Y0 self with
  | Some sol, Some y0 =>
      match filter (Qle_bool 0) time with
      | [] => Raise ValueError
      | asked =>
          if forallb (fun row => (length row =? length y0)%nat) (map sol asked)
          then Ok (rows_of sol y0 time)
          else Raise ValueError
      end
  | _, _ => Raise TypeError
  end.

(** What [evaluate_solution] returns. *)
Record Outcome : Type := {
  out_S : matrix;
  out_E : matrix;
  out_I : matrix;
  out_R : matrix;
  H_active_cases : matrix;
  ICU_active_cases : matrix;
  deaths : matrix
}.

(** One boxcar-convolved series per compartment, stacked. *)
Definition active_cases (n : nat) (new_cases_a_day : matrix) (window : list Q)
  : result matrix :=
  cols <- mapM (fun i => c <- np.column i new_cases_a_day ;;
                         np.convolve_same c window) (seq 0 n) ;;
  Ok (np.stack cols).

(** [SEIR.evaluate_solution]. *)
Definition evaluate_solution (self : SEIR) (time : list Q) : result Outcome :=
  SEIR <- SEIR_solution self time ;;
  ' (St, Et, It, Rt) <- np.split4_rows SEIR ;;
  I_new_cases_a_day <- np.broadcast_rows Qdiv Et (incubation_period self) ;;
  let Icumulative := np.cumsum I_new_cases_a_day in
  (* hospitalized people for each day *)
  time_h <- np.subtract time (hospitalization_lag_from_onset self) ;;
  SEIR_h <- SEIR_solution self time_h ;;
  ' (Shl, Ehl, Ihl, Rhl) <- np.split4_rows SEIR_h ;;
  onset_h <- np.broadcast_rows Qdiv Ehl (incubation_period self) ;;
  H_new_cases_a_day <- np.broadcast_rows (fun a p => p * a) onset_h
                         (hospitalization_probability self) ;;
  Hwindow <- np.ones_of (hospitalization_duration self) ;;
  H_active <- active_cases (num_compartments self) H_new_cases_a_day Hwindow ;;
  (* people in ICU for each day: block [2], and [Hwindow] again *)
  time_icu <- np.subtract time (icu_lag_from_onset self) ;;
  SEIR_icu_lag <- SEIR_solution self time_icu ;;
  ' (_, _, E_icu_lag, _) <- np.split4_rows SEIR_icu_lag ;;
  onset_icu <- np.broadcast_rows Qdiv E_icu_lag (incubation_period self) ;;
  ICU_new_cases_a_day <- np.broadcast_rows (fun a p => p * a) onset_icu
                           (icu_probability self) ;;
  ICUwindow <- np.ones_of (icu_duration self) ;;
  ICU_active <- active_cases (num_compartments self) ICU_new_cases_a_day Hwindow ;;
  (* total number of deaths: block [1] *)
  time_death <- np.subtract time (death_lag_from_onset self) ;;
  SEIR_death_lag <- SEIR_solution self time_death ;;
  ' (_, E_death_lag, _, _) <- np.split4_rows SEIR_death_lag ;;
  onset_death <- np.broadcast_rows Qdiv E_death_lag (incubation_period self) ;;
  DEATH_new_cases_a_day <- np.broadcast_rows (fun a p => p * a) onset_death
                             (death_probability self) ;;
  Ok {| out_S := St; out_E := Et; out_I := It; out_R := Rt;
        H_active_cases := H_active;
        ICU_active_cases := ICU_active;
        deaths := np.cumsum DEATH_new_cases_a_day |}.

(** ** Configurations used below *)

(** [np.arange(0, n, 1)]. *)
Definition arange (n : nat) : list Q :=
  map (fun k => inject_Z (Z.of_nat k)) (seq 0 n).

(** The end-to-end example of the specification: one compartment of a
    million people. *)
Definition example_config : Config :=
  {| arg_incubation_period := PyInt 3;
     arg_infectious_period := PyInt 7;
     arg_initial_R0 := 23 # 10;
     arg_hospitalization_probability := PyFloat (1 # 100);
     arg_hospitalization_duration := PyInt 21;
     arg_hospitalization_lag_from_onset := PyInt 6;
     arg_icu_probability := PyFloat (1 # 1000);
     arg_icu_duration := PyInt 7;
     arg_icu_lag_from_onset := PyInt 21;
     arg_death_probability := PyFloat (1 # 10);
     arg_death_lag_from_onset := PyInt 27;
     arg_population := PyFloat 1000000;
     arg_compartments := None;
     arg_contacts_matrix := None;
     arg_restrictions_function := None;
     arg_imported_cases_function := None |}.

(** The example with the initial fractions S = 0.99, E = 0.005, I = 0.005. *)
Definition example_setup : result SEIR :=
  self <- __init__ example_config ;;
  set_initial_state self (PyFloat (99 # 100)) (PyFloat (5 # 1000))
    (PyFloat (5 # 1000)) true.

(** A configuration with other choices for some keyword arguments. *)
Definition with_groups (c : Config) (groups : list label) (pop : num)
    (infectious : num) (cm : option matrix) : Config :=
  {| arg_incubation_period := arg_incubation_period c;
     arg_infectious_period := infectious;
     arg_initial_R0 := arg_initial_R0 c;
     arg_hospitalization_probability := arg_hospitalization_probability c;
     arg_hospitalization_duration := arg_hospitalization_duration c;
     arg_hospitalization_lag_from_onset := arg_hospitalization_lag_from_onset c;
     arg_icu_probability := arg_icu_probability c;
     arg_icu_duration := arg_icu_duration c;
     arg_icu_lag_from_onset := arg_icu_lag_from_onset c;
     arg_death_probability := arg_death_probability c;
     arg_death_lag_from_onset := arg_death_lag_from_onset c;
     arg_population := pop;
     arg_compartments := Some groups;
     arg_contacts_matrix := cm;
     arg_restrictions_function := arg_restrictions_function c;
     arg_imported_cases_function := arg_imported_cases_function c |}.

Definition with_functions (c : Config)
    (restrict : option (Q -> num + matrix))
    (imported : option (Q -> num * num * num)) : Config :=
  {| arg_incubation_period := arg_incubation_period c;
     arg_infectious_period := arg_infectious_period c;
     arg_initial_R0 := arg_initial_R0 c;
     arg_hospitalization_probability := arg_hospitalization_probability c;
     arg_hospitalization_duration := arg_hospitalization_duration c;
     arg_hospitalization_lag_from_onset := arg_hospitalization_lag_from_onset c;
     arg_icu_probability := arg_icu_probability c;
     arg_icu_duration := arg_icu_duration c;
     arg_icu_lag_from_onset := arg_icu_lag_from_onset c;
     arg_death_probability := arg_death_probability c;
     arg_death_lag_from_onset := arg_death_lag_from_onset c;
     arg_population := arg_population c;
     arg_compartments := arg_compartments c;
     arg_contacts_matrix := arg_contacts_matrix c;
     arg_restrictions_function := restrict;
     arg_imported_cases_function := imported |}.

(** The two age bands of the repository's own demonstration. *)
Definition two_bands : list label := [Band 1 5; Band 5 10].

(** Entries of computed arrays, reduced to lowest terms for display. *)
Definition lowest_terms (M : matrix) : matrix := map (map Qred) M.

(** ** What the documentation says of the restriction function

    "At each timestep the [restrictions_function] is used to augment the
    infectivity rate matrix by a Hadamard product from the function's
    output": the derivative law with [self.restrictions_function(t)] in the
    place of the unbound name. *)

Definition hadamard (r : num + matrix) (M : matrix) : result matrix :=
  match r with
  | inl (PyInt z) => Ok (map (map (Qmult (inject_Z z))) M)
  | inl (PyFloat q) => Ok (map (map (Qmult q)) M)
  | inl (NdArray u) => np.broadcast_rows (fun m x => x * m) M u
  | inr R =>
      if (np.shape0 R =? np.shape0 M)%nat && (np.shape1 R =? np.shape1 M)%nat
      then Ok (map (fun rows => np.zip_with Qmult (fst rows) (snd rows))
                   (combine R M))
      else Raise ValueError
  end.

Definition documented_call (self : SEIR) (t : Q) (Y : list Q)
  : result (list Q) :=
  infectivity <- match restrictions_function self with
                 | Some restrict => hadamard (restrict t) (infectivity_matrix self)
                 | None => Ok (infectivity_matrix self)
                 end ;;
  rates self infectivity t Y.

(** ** What the specification says of construction

    "scalar inputs are broadcast to length N at construction time". *)

Definition broadcast_to (n : nat) (x : num) : list Q :=
  match x with
  | PyInt z => repeat (1 * inject_Z z) n
  | PyFloat q => repeat (1 * q) n
  | NdArray v => v
  end.

(** A scalar, or a vector of [n] entries. *)
Definition scalar_or_sized (n : nat) (x : num) : bool :=
  match x with
  | NdArray v => (length v =? n)%nat
  | _ => true
  end.

(** The population [__init__] lets through: a vector of [n] entries, or a
    scalar when there is one compartment. *)
Definition population_sized (n : nat) (x : num) : bool :=
  match x with
  | NdArray v => (length v =? n)%nat
  | _ => (n =? 1)%nat
  end.

Definition sizes_accepted (c : Config) : bool :=
  let n := length (compartments_of c) in
  scalar_or_sized n (arg_incubation_period c)
  && scalar_or_sized n (arg_infectious_period c)
  && scalar_or_sized n (arg_hospitalization_probability c)
  && scalar_or_sized n (arg_icu_probability c)
  && scalar_or_sized n (arg_death_probability c)
  && population_sized n (arg_population c).

(** The per-compartment vectors two instances hold are the same. *)
Definition same_vectors (a b : SEIR) : Prop :=
  num_compartments a = num_compartments b
  /\ incubation_period a = incubation_period b
  /\ infectious_period a = infectious_period b
  /\ hospitalization_probability a = hospitalization_probability b
  /\ icu_probability a = icu_probability b
  /\ death_probability a = death_probability b
  /\ population a = population b
  /\ infectivity_matrix a = infectivity_matrix b.

(** ** What the specification says of the infectivity matrix *)

Definition entry (i j : nat) (M : matrix) : Q := nth j (nth i M []) 0.

(** "the population-weighted sum over (population . ContactMatrix)". *)
Definition contact_throughput (pop : list Q) (C : matrix) : Q :=
  np.sum (map (fun j => np.dot pop (np.col j C)) (seq 0 (np.shape1 C))).

(** The factor the code puts on column [j] of the contact matrix. *)
Definition column_factor (self : SEIR) (C : matrix) (j : nat) : Q :=
  1 / nth j (infectious_period self) 0 * initial_R0 self
  * np.sum (population self) / contact_throughput (population self) C.

(** ** What the specification says of the solution

    "queries at t<0 return the InitialState unchanged"; at the other times
    the dense output answers. *)

Definition extended (sol : Q -> list Q) (y0 : list Q) (t : Q) : list Q :=
  if Qlt_le_dec t 0 then y0 else sol t.

(** ** What the specification says of the derivative law

    The state vector is the concatenation of four blocks of N entries. *)

Definition S_block (n : nat) (Y : list Q) : list Q := firstn n Y.
Definition E_block (n : nat) (Y : list Q) : list Q := firstn n (skipn n Y).
Definition I_block (n : nat) (Y : list Q) : list Q := firstn n (skipn (2 * n) Y).
Definition R_block (n : nat) (Y : list Q) : list Q := skipn (3 * n) Y.

Section DerivativeLaw.

Variable self : SEIR.
Variable Y : list Q.
Let n := num_compartments self.

(** dS_i/dt = -(S_i / population_i) . (InfectivityMatrix row i . I-block) *)
Definition dS (i : nat) : Q :=
  - (nth i (S_block n Y) 0 / nth i (population self) 0)
  * np.dot (nth i (infectivity_matrix self) []) (I_block n Y).

(** dE_i/dt = -dS_i/dt - E_i / incubation_period_i *)
Definition dE (i : nat) : Q :=
  - dS i - nth i (E_block n Y) 0 / nth i (incubation_period self) 0.

(** dI_i/dt = E_i / incubation_period_i - I_i / infectious_period_i *)
Definition dI (i : nat) : Q :=
  nth i (E_block n Y) 0 / nth i (incubation_period self) 0
  - nth i (I_block n Y) 0 / nth i (infectious_period self) 0.

(** dR_i/dt = I_i / infectious_period_i *)
Definition dR (i : nat) : Q :=
  nth i (I_block n Y) 0 / nth i (infectious_period self) 0.

Definition derivative_law : list Q :=
  map dS (seq 0 n) ++ map dE (seq 0 n) ++ map dI (seq 0 n) ++ map dR (seq 0 n).

End DerivativeLaw.

(** The four rates of compartment [i] in a rate vector, added up. *)
Definition rates_total (n : nat) (dY : list Q) (i : nat) : Q :=
  nth i dY 0 + nth (n + i) dY 0 + nth (2 * n + i) dY 0 + nth (3 * n + i) dY 0.

Definition with_imported (self : SEIR) (imported : Q -> num * num * num) : SEIR :=
  {| compartments := compartments self;
     num_compartments := num_compartments self;
     incubation_period := incubation_period self;
     infectious_period := infectious_period self;
     initial_R0 := initial_R0 self;
     hospitalization_probability := hospitalization_probability self;
     hospitalization_duration := hospitalization_duration self;
     hospitalization_lag_from_onset := hospitalization_lag_from_onset self;
     icu_probability := icu_probability self;
     icu_duration := icu_duration self;
     icu_lag_from_onset := icu_lag_from_onset self;
     death_probability := death_probability self;
     death_lag_from_onset := death_lag_from_onset self;
     population := population self;
     infectivity_matrix := infectivity_matrix self;
     restrictions_function := restrictions_function self;
     imported_cases_function := Some imported;
     Y0 := Y0 self;
     solution := solution self |}.

(** ** The instances the class can produce

    An instance comes out of [__init__] and goes through
    [set_initial_state] and [simulate]. *)

Inductive constructed : SEIR -> Prop :=
| by_init (c : Config) (self : SEIR) :
    __init__ c = Ok self -> constructed self
| by_set_initial_state (self self' : SEIR) (s e i : num) (p : bool) :
    constructed self -> set_initial_state self s e i p = Ok self' ->
    constructed self'
| by_simulate solver (self self' : SEIR) (days : Q) :
    constructed self -> simulate solver self days = Ok self' ->
    constructed self'.

(** Every per-compartment vector has N entries and the infectivity matrix is
    N x N. *)
Definition shaped (self : SEIR) : Prop :=
  let n := num_compartments self in
  Forall (fun v => length v = n)
    [incubation_period self; infectious_period self;
     hospitalization_probability self; icu_probability self;
     death_probability self; population self]
  /\ length (infectivity_matrix self) = n
  /\ Forall (fun row => length row = n) (infectivity_matrix self)
  /\ (1 <= n)%nat.

(** ** What the specification says of the occupancy series

    "boxcar convolution, width = hospitalization_duration, centered
    alignment, applied to the series [hospitalization_probability_i .
    F_i(t - hospitalization_lag_i)]", with F_i = E_i / incubation_period_i;
    "Active ICU(t) = identical construction using icu_probability_i,
    icu_lag_i, and a boxcar window of width icu_duration_i".  The
    construction, as [evaluate_solution] writes it for the hospitalizations,
    with the probability, the lag and the duration left open. *)

Definition occupancy (self : SEIR) (probability : list Q) (lag duration : num)
    (time : list Q) : result matrix :=
  shifted <- np.subtract time lag ;;
  rows <- SEIR_solution self shifted ;;
  ' (_, E_lag, _, _) <- np.split4_rows rows ;;
  onset <- np.broadcast_rows Qdiv E_lag (incubation_period self) ;;
  new_cases_a_day <- np.broadcast_rows (fun a p => p * a) onset probability ;;
  window <- np.ones_of duration ;;
  active_cases (num_compartments self) new_cases_a_day window.

Definition documented_ICU_active_cases (self : SEIR) (time : list Q)
  : result matrix :=
  occupancy self (icu_probability self) (icu_lag_from_onset self)
    (icu_duration self) time.

(** The series [probability_i . block_i / incubation_period_i], one row per
    row of the solution. *)
Definition onset_series (self : SEIR) (probability : list Q)
    (block : list Q -> list Q) (rows : matrix) : matrix :=
  map (fun row =>
         np.zip_with (fun a p => p * a)
           (np.zip_with Qdiv (block row) (incubation_period self))
           probability)
      rows.

(** The boxcar-convolved columns of a series, stacked. *)
Definition boxcar (n : nat) (series : matrix) (window : list Q) : matrix :=
  np.stack (map (fun i => np.same_part (np.col i series) window) (seq 0 n)).

(** [time - lag] for a scalar lag. *)
Definition shifted (time : list Q) (lag : Q) : list Q :=
  map (fun t => t - lag) time.

(** The raw state of the example at the start, and the exposed count of the
    one compartment in a row of the solution. *)
Definition exposed (row : list Q) : Q := nth 0 (E_block 1 row) 0.

(** A solver whose dense output stays at the initial state. *)
Definition constant_solver (f : Q -> list Q -> result (list Q)) (days : Q)
    (y0 : list Q) : result (Q -> list Q) :=
  Ok (fun _ => y0).

(** Some query time lies at or after [lag]: the query [time - lag] then asks
    the dense output of the solver for one time at least. *)
Definition reaches (time : list Q) (lag : Q) : Prop :=
  Exists (fun t => lag <= t) time.

(** Entry [i] of row [k] of a series. *)
Definition at_day (k i : nat) (series : matrix) : Q := entry k i series.

(** The example with a contact matrix of its own. *)
Definition example_with_contact_value : Config :=
  {| arg_incubation_period := PyInt 3;
     arg_infectious_period := PyInt 7;
     arg_initial_R0 := 23 # 10;
     arg_hospitalization_probability := PyFloat (1 # 100);
     arg_hospitalization_duration := PyInt 21;
     arg_hospitalization_lag_from_onset := PyInt 6;
     arg_icu_probability := PyFloat (1 # 1000);
     arg_icu_duration := PyInt 7;
     arg_icu_lag_from_onset := PyInt 21;
     arg_death_probability := PyFloat (1 # 10);
     arg_death_lag_from_onset := PyInt 27;
     arg_population := PyFloat 1000000;
     arg_compartments := None;
     arg_contacts_matrix := Some [[5]];
     arg_restrictions_function := None;
     arg_imported_cases_function := None |}.

(** A configuration with other durations. *)
Definition with_durations (c : Config) (hospital icu : num) : Config :=
  {| arg_incubation_period := arg_incubation_period c;
     arg_infectious_period := arg_infectious_period c;
     arg_initial_R0 := arg_initial_R0 c;
     arg_hospitalization_probability := arg_hospitalization_probability c;
     arg_hospitalization_duration := hospital;
     arg_hospitalization_lag_from_onset := arg_hospitalization_lag_from_onset c;
     arg_icu_probability := arg_icu_probability c;
     arg_icu_duration := icu;
     arg_icu_lag_from_onset := arg_icu_lag_from_onset c;
     arg_death_probability := arg_death_probability c;
     arg_death_lag_from_onset := arg_death_lag_from_onset c;
     arg_population := arg_population c;
     arg_compartments := arg_compartments c;
     arg_contacts_matrix := arg_contacts_matrix c;
     arg_restrictions_function := arg_restrictions_function c;
     arg_imported_cases_function := arg_imported_cases_function c |}.

(** Construction, the initial fractions of the example, and a simulation of
    200 days by the solver that stays at the initial state. *)
Definition simulated (c : Config) : result SEIR :=
  self <- __init__ c ;;
  self <- set_initial_state self (PyFloat (99 # 100)) (PyFloat (5 # 1000))
            (PyFloat (5 # 1000)) true ;;
  simulate constant_solver self 200.

(** A solver whose dense output moves away from the initial state: every
    entry grows by [t] at time [t]. *)
Definition drifting_solver (f : Q -> list Q -> result (list Q)) (days : Q)
    (y0 : list Q) : result (Q -> list Q) :=
  Ok (fun t => map (Qplus t) y0).

(** * Properties *)

(** ** The error monad *)

Lemma bind_Ok {A B : Type} (c : result A) (k : A -> result B) (b : B) :
  bind c k = Ok b -> exists a, c = Ok a /\ k a = Ok b.
Proof.
  destruct c as [a | e]; simpl; intros H; [ exists a; auto | discriminate ].
Qed.

Lemma bind_Raise {A B : Type} (c : result A) (k : A -> result B) (e : exn) :
  c = Raise e -> bind c k = Raise e.
Proof. intros ->. reflexivity. Qed.

(** Peel one successful step off a chain of binds in hypothesis [H]. *)
Ltac step H :=
  let a := fresh "a" in
  let E := fresh "E" in
  apply bind_Ok in H; destruct H as (a & E & H).

(** ** The restriction function (claim C2) *)

Lemma call_Ok_unrestricted (self : SEIR) (t : Q) (Y dY : list Q) :
  __call__ self t Y = Ok dY -> restrictions_function self = None.
Proof.
  unfold __call__. destruct (restrictions_function self); [ discriminate | auto ].
Qed.

Lemma call_restricted_raises (self : SEIR) (t : Q) (Y : list Q) :
  restrictions_function self <> None -> __call__ self t Y = Raise NameError.
Proof.
  unfold __call__. destruct (restrictions_function self); [ reflexivity | congruence ].
Qed.

(** C2, at the failing input.  The example model with a restriction function
    that returns 0 at every time: every evaluation of the derivative law
    raises [NameError], at the initial state as anywhere else, where the law
    as documented returns no new transmission (dS/dt = 0, no inflow into E)
    and the natural decay of E and I. *)
Theorem restriction_function_is_never_applied :
  let config := with_functions example_config (Some (fun _ => inl (PyInt 0))) None in
  let y0 := [990000; 5000; 5000; 0] in
  (exists self, __init__ config = Ok self
     /\ (forall t Y, __call__ self t Y = Raise NameError)
     /\ exists dY, documented_call self 1 y0 = Ok dY
          /\ map Qred dY = [0; - (5000 # 3); 20000 # 21; 5000 # 7]).
Proof.
  intros config y0.
  destruct (__init__ config) as [self | e] eqn:E; [ | vm_compute in E; discriminate ].
  exists self. split; [ reflexivity | ]. split.
  - intros t Y. apply call_restricted_raises.
    vm_compute in E. injection E as <-. discriminate.
  - vm_compute in E. injection E as <-.
    eexists. split; vm_compute; reflexivity.
Qed.

(** ** The contact matrix (claim C4) *)

Lemma contacts_of_default (n : nat) : contacts_of n None = Ok (np.ones2 n n).
Proof. reflexivity. Qed.

Lemma contacts_of_several (n : nat) (M : matrix) :
  (2 <= length (concat M))%nat -> contacts_of n (Some M) = Raise ValueError.
Proof.
  intros H. unfold contacts_of, np.truth.
  destruct (concat M) as [ | x [ | y l ] ]; simpl in H; try lia. reflexivity.
Qed.

Lemma contacts_of_accepted (n : nat) (cm : option matrix) (M : matrix) :
  contacts_of n cm = Ok M ->
  M = np.ones2 n n
  \/ (cm = Some M /\ np.truth M = Ok true /\ np.shape0 M = n /\ np.shape1 M = n).
Proof.
  destruct cm as [M' | ]; simpl.
  - intros H. step H. destruct a.
    + destruct (np.shape0 M' =? n)%nat eqn:E0; [ | discriminate ].
      destruct (np.shape1 M' =? n)%nat eqn:E1; [ | discriminate ].
      injection H as <-. right.
      apply Nat.eqb_eq in E0, E1. auto.
    + injection H as <-. auto.
  - intros H. injection H as <-. auto.
Qed.

(** C4, at the failing input.  Two compartments and the 2 x 2 all-ones
    contact matrix, which is nonnegative and of the right shape:
    construction raises [ValueError], because [if contacts_matrix:] asks the
    truth value of an array of four entries.  Leaving the matrix out gives the
    all-ones matrix, and so does, without any error, the wrongly shaped
    1 x 1 zero matrix. *)
Theorem contact_matrix_of_right_shape_is_refused :
  let config := with_groups example_config two_bands
                  (NdArray [2500000; 1000000]) (PyInt 7) in
  __init__ (config (Some [[1; 1]; [1; 1]])) = Raise ValueError
  /\ contacts_of 2 None = Ok [[1; 1]; [1; 1]]
  /\ (exists self, __init__ (config None) = Ok self
        /\ __init__ (config (Some [[0]])) = Ok self).
Proof.
  intros config. split; [ | split ].
  - vm_compute. reflexivity.
  - reflexivity.
  - destruct (__init__ (config None)) as [self | e] eqn:E;
      [ | vm_compute in E; discriminate ].
    exists self. split; [ reflexivity | ].
    rewrite <- E. vm_compute. reflexivity.
Qed.

(** ** The initial state (claim C5) *)

Lemma initial_block_raw_scalar (self : SEIR) (x : num) :
  np.scalar x <> None -> initial_block self x false = Raise AttributeError.
Proof. destruct x; simpl; congruence. Qed.

Lemma set_initial_state_R_block (self self' : SEIR) (s e i : num) (p : bool) :
  set_initial_state self s e i p = Ok self' ->
  exists S0 E0 I0,
    Y0 self' = Some (S0 ++ E0 ++ I0 ++ repeat 0 (num_compartments self)).
Proof.
  unfold set_initial_state. intros H.
  step H. step H. step H. injection H as <-.
  eexists _, _, _. reflexivity.
Qed.

Lemma set_initial_state_raw_vectors (self : SEIR) (s e i : list Q) :
  set_initial_state self (NdArray s) (NdArray e) (NdArray i) false =
  if ((length s =? num_compartments self) && (length e =? num_compartments self)
      && (length i =? num_compartments self))%nat
  then Ok (with_Y0 self (s ++ e ++ i ++ np.zeros (num_compartments self)))
  else Raise AssertionError.
Proof.
  unfold set_initial_state, initial_block.
  destruct (length s =? _)%nat; simpl; [ | reflexivity ].
  destruct (length e =? _)%nat; simpl; [ | reflexivity ].
  destruct (length i =? _)%nat; simpl; reflexivity.
Qed.

(** C5, at the failing input.  The example model and the raw counts
    990000, 5000, 5000 as scalars: [set_initial_state] raises
    [AttributeError] (it calls [self._fix_sizes], and the method is
    [_fix_size]).  With the probabilities flag, a vector of three fractions
    for the one compartment is not rejected either: it is stretched against
    the population and the state stored has ten entries. *)
Theorem raw_scalar_counts_are_refused :
  exists self, __init__ example_config = Ok self
    /\ set_initial_state self (PyInt 990000) (PyInt 5000) (PyInt 5000) false
       = Raise AttributeError
    /\ exists self',
         set_initial_state self (NdArray [1 # 2; 1 # 4; 1 # 8])
           (NdArray [1 # 100; 1 # 100; 1 # 100])
           (NdArray [1 # 100; 1 # 100; 1 # 100]) true = Ok self'
         /\ num_compartments self' = 1%nat
         /\ option_map (@length Q) (Y0 self') = Some 10%nat.
Proof.
  destruct (__init__ example_config) as [self | e] eqn:E;
    [ | vm_compute in E; discriminate ].
  exists self. split; [ reflexivity | ]. split; [ reflexivity | ].
  vm_compute in E. injection E as <-.
  eexists. split; [ vm_compute; reflexivity | ]. split; reflexivity.
Qed.

(** ** What the constructor stores *)

Lemma fix_size_spec (n : nat) (x : num) :
  _fix_size n x =
  if scalar_or_sized n x then Ok (broadcast_to n x) else Raise AssertionError.
Proof.
  destruct x as [z | q | v]; simpl; unfold np.ones;
    rewrite ?map_repeat; reflexivity.
Qed.

Lemma broadcast_to_length (n : nat) (x : num) :
  scalar_or_sized n x = true -> length (broadcast_to n x) = n.
Proof.
  destruct x; simpl; intros H; rewrite ?repeat_length; auto.
  now apply Nat.eqb_eq.
Qed.

Lemma population_sized_scalar_or_sized (n : nat) (x : num) :
  population_sized n x = true -> scalar_or_sized n x = true.
Proof. destruct x; simpl; auto. Qed.

(** What a successful construction has done. *)
Lemma init_Ok (c : Config) (self : SEIR) :
  __init__ c = Ok self ->
  let n := length (compartments_of c) in
  sizes_accepted c = true
  /\ (exists C, contacts_of n (arg_contacts_matrix c) = Ok C
        /\ _compute_infectivity_matrix (broadcast_to n (arg_infectious_period c))
             (arg_initial_R0 c) (broadcast_to n (arg_population c)) C
           = Ok (infectivity_matrix self))
  /\ num_compartments self = n
  /\ incubation_period self = broadcast_to n (arg_incubation_period c)
  /\ infectious_period self = broadcast_to n (arg_infectious_period c)
  /\ hospitalization_probability self
     = broadcast_to n (arg_hospitalization_probability c)
  /\ icu_probability self = broadcast_to n (arg_icu_probability c)
  /\ death_probability self = broadcast_to n (arg_death_probability c)
  /\ population self = broadcast_to n (arg_population c)
  /\ initial_R0 self = arg_initial_R0 c
  /\ restrictions_function self = arg_restrictions_function c
  /\ imported_cases_function self = arg_imported_cases_function c.
Proof.
  intros H n. unfold __init__ in H. fold n in H.
  rewrite !fix_size_spec in H. unfold sizes_accepted. fold n.
  destruct (scalar_or_sized n (arg_incubation_period c)); [ | discriminate ].
  destruct (scalar_or_sized n (arg_infectious_period c)); [ | discriminate ].
  destruct (scalar_or_sized n (arg_hospitalization_probability c)); [ | discriminate ].
  destruct (scalar_or_sized n (arg_icu_probability c)); [ | discriminate ].
  destruct (scalar_or_sized n (arg_death_probability c)); [ | discriminate ].
  simpl in H.
  assert (P : population_sized n (arg_population c) = true).
  { destruct (arg_population c); simpl in *;
      match goal with |- ?b = true => destruct b end;
      (reflexivity || discriminate). }
  rewrite P.
  assert (U : match arg_population c with
              | NdArray v => if (length v =? n)%nat then Ok tt else Raise AssertionError
              | _ => if (n =? 1)%nat then Ok tt else Raise AssertionError
              end = Ok tt).
  { destruct (arg_population c); simpl in P; rewrite P; reflexivity. }
  rewrite U in H. simpl in H.
  rewrite (population_sized_scalar_or_sized _ _ P) in H. simpl in H.
  step H. step H. injection H as <-. simpl.
  repeat split; try reflexivity. exists a. auto.
Qed.

(** A size the construction does not let through stops it at an assertion. *)
Lemma init_sizes_refused (c : Config) :
  sizes_accepted c = false -> __init__ c = Raise AssertionError.
Proof.
  unfold sizes_accepted, __init__.
  set (n := length (compartments_of c)). rewrite !fix_size_spec.
  destruct (scalar_or_sized n (arg_incubation_period c)); [ | reflexivity ].
  destruct (scalar_or_sized n (arg_infectious_period c)); [ | reflexivity ].
  destruct (scalar_or_sized n (arg_hospitalization_probability c)); [ | reflexivity ].
  destruct (scalar_or_sized n (arg_icu_probability c)); [ | reflexivity ].
  destruct (scalar_or_sized n (arg_death_probability c)); [ | reflexivity ].
  simpl. intros P.
  destruct (arg_population c); simpl in *; rewrite P; reflexivity.
Qed.

(** Durations and lags are kept as the caller gave them, whatever their
    form: a duration of three entries for one compartment goes through. *)
Lemma init_keeps_durations_and_lags (c : Config) (self : SEIR) :
  __init__ c = Ok self ->
  hospitalization_duration self = arg_hospitalization_duration c
  /\ hospitalization_lag_from_onset self = arg_hospitalization_lag_from_onset c
  /\ icu_duration self = arg_icu_duration c
  /\ icu_lag_from_onset self = arg_icu_lag_from_onset c
  /\ death_lag_from_onset self = arg_death_lag_from_onset c.
Proof.
  unfold __init__. intros H. do 9 step H. injection H as <-.
  repeat split.
Qed.

Lemma set_initial_state_same_vectors (self self' : SEIR) (s e i : num) (p : bool) :
  set_initial_state self s e i p = Ok self' -> same_vectors self self'.
Proof.
  unfold set_initial_state. intros H.
  step H. step H. step H. injection H as <-.
  repeat split.
Qed.

Lemma simulate_same_vectors solver (self self' : SEIR) (days : Q) :
  simulate solver self days = Ok self' -> same_vectors self self'.
Proof.
  unfold simulate. destruct (Y0 self); [ | discriminate ].
  intros H. step H. injection H as <-. repeat split.
Qed.

(** ** Lists and arrays *)

Lemma zip_with_length f (xs ys : list Q) :
  length (np.zip_with f xs ys) = Nat.min (length xs) (length ys).
Proof.
  revert ys. induction xs as [ | x xs IH]; intros [ | y ys]; simpl; auto.
Qed.

Lemma zip_with_nth f (xs ys : list Q) (i : nat) :
  (i < length xs)%nat -> (i < length ys)%nat ->
  nth i (np.zip_with f xs ys) 0 = f (nth i xs 0) (nth i ys 0).
Proof.
  revert ys i. induction xs as [ | x xs IH]; intros [ | y ys] [ | i]; simpl;
    intros Hx Hy; try lia; auto.
  apply IH; lia.
Qed.

Lemma broadcast_same f (xs ys : list Q) :
  length xs = length ys -> np.broadcast f xs ys = Ok (np.zip_with f xs ys).
Proof.
  intros H. unfold np.broadcast. rewrite H, Nat.eqb_refl. reflexivity.
Qed.

Lemma mapM_Ok_map {A B : Type} (f : A -> result B) (g : A -> B) (l : list A) :
  Forall (fun x => f x = Ok (g x)) l -> mapM f l = Ok (map g l).
Proof.
  induction 1 as [ | x l Hx _ IH]; simpl; [ reflexivity | ].
  rewrite Hx. simpl. rewrite IH. reflexivity.
Qed.

Lemma broadcast_rows_same f (M : matrix) (v : list Q) :
  Forall (fun row => length row = length v) M ->
  np.broadcast_rows f M v = Ok (map (fun row => np.zip_with f row v) M).
Proof.
  intros H. apply mapM_Ok_map.
  eapply Forall_impl; [ | exact H ]. intros row Hr. now apply broadcast_same.
Qed.

Lemma nth_map_rows {B : Type} (g : list Q -> B) (d : B) (M : matrix) (i : nat) :
  (i < length M)%nat -> nth i (map g M) d = g (nth i M []).
Proof.
  intros H. rewrite (nth_indep _ d (g [])); [ apply map_nth | ].
  now rewrite length_map.
Qed.

Lemma nth_map_in {A : Type} (g : A -> Q) (d : A) (l : list A) (i : nat) :
  (i < length l)%nat -> nth i (map g l) 0 = g (nth i l d).
Proof.
  intros H. rewrite (nth_indep _ 0 (g d)); [ apply map_nth | ].
  now rewrite length_map.
Qed.

Lemma ones2_shape (n : nat) :
  length (np.ones2 n n) = n
  /\ Forall (fun row => length row = n) (np.ones2 n n).
Proof.
  unfold np.ones2, np.ones. rewrite repeat_length. split; [ reflexivity | ].
  apply Forall_forall. intros row Hr. apply repeat_spec in Hr. subst.
  apply repeat_length.
Qed.

(** The contact matrix the construction goes on with is N x N. *)
Lemma contacts_of_shape (n : nat) (cm : option matrix) (C : matrix) :
  contacts_of n cm = Ok C ->
  length C = n /\ Forall (fun row => length row = n) C.
Proof.
  intros H. apply contacts_of_accepted in H.
  destruct H as [-> | (-> & T & H0 & H1)]; [ apply ones2_shape | ].
  split; [ exact H0 | ].
  assert (L : (length (concat C) <= 1)%nat).
  { unfold np.truth in T. destruct (concat C) as [ | x [ | y l ] ]; simpl; try lia.
    discriminate. }
  destruct C as [ | row C ]; [ constructor | ].
  unfold np.shape0, np.shape1 in *. simpl in *.
  rewrite length_app in L.
  destruct C as [ | row' C ]; [ repeat constructor; lia | simpl in *; lia ].
Qed.

(** ** Construction, sizes accepted and refused (claim C3) *)

(** With sizes it lets through and a contact matrix it goes on with, the
    construction succeeds. *)
Lemma init_accepts (c : Config) (C : matrix) :
  sizes_accepted c = true ->
  contacts_of (length (compartments_of c)) (arg_contacts_matrix c) = Ok C ->
  exists self, __init__ c = Ok self.
Proof.
  intros A HC. unfold sizes_accepted in A.
  unfold __init__. set (n := length (compartments_of c)) in *.
  repeat (apply andb_prop in A; destruct A as [A ?]).
  pose proof (population_sized_scalar_or_sized _ _ ltac:(eassumption)) as P.
  assert (Hpop : length (broadcast_to n (arg_population c)) = n)
    by now apply broadcast_to_length.
  assert (Hinf : length (broadcast_to n (arg_infectious_period c)) = n)
    by now apply broadcast_to_length.
  rewrite !fix_size_spec.
  repeat match goal with H : scalar_or_sized _ _ = true |- _ =>
    rewrite H; clear H end.
  cbn [bind].
  assert (U : match arg_population c with
              | NdArray v => assert (length v =? n)%nat ;; Ok tt
              | _ => assert (n =? 1)%nat ;; Ok tt
              end = Ok tt).
  { destruct (arg_population c); simpl in *;
      match goal with H : _ = true |- _ => rewrite H end; reflexivity. }
  rewrite U. cbn [bind]. rewrite HC. cbn [bind].
  destruct (contacts_of_shape _ _ _ HC) as (HlC & Hrows).
  unfold _compute_infectivity_matrix, normalization, np.vecmat, np.shape0.
  rewrite Hpop, HlC, Nat.eqb_refl. cbn [bind].
  rewrite broadcast_rows_same.
  2:{ eapply Forall_impl; [ | exact Hrows ]. intros row Hr. simpl in Hr.
      rewrite length_map. congruence. }
  cbn [bind]. eexists. reflexivity.
Qed.

(** C3, as the code has it.  Incubation period, infectious period and the
    three probabilities each take a scalar or a vector of N entries; the
    population takes a vector of N entries, or a scalar when N = 1.  Any
    other size stops the construction at an assertion; with these sizes,
    and a contact matrix the construction goes on with (the omitted one
    among them), it succeeds.  When the construction succeeds, each of the
    six is stored as a vector of N entries, a vector as it was given and a
    scalar repeated N times, and neither [set_initial_state] nor [simulate]
    changes what is stored. *)
Theorem parameters_normalised_at_construction (c : Config) :
  let n := length (compartments_of c) in
  (sizes_accepted c = false -> __init__ c = Raise AssertionError)
  /\ (sizes_accepted c = true ->
      forall C, contacts_of n (arg_contacts_matrix c) = Ok C ->
      exists self, __init__ c = Ok self)
  /\ (forall self, __init__ c = Ok self ->
        num_compartments self = n
        /\ incubation_period self = broadcast_to n (arg_incubation_period c)
        /\ infectious_period self = broadcast_to n (arg_infectious_period c)
        /\ hospitalization_probability self
           = broadcast_to n (arg_hospitalization_probability c)
        /\ icu_probability self = broadcast_to n (arg_icu_probability c)
        /\ death_probability self = broadcast_to n (arg_death_probability c)
        /\ population self = broadcast_to n (arg_population c)
        /\ Forall (fun v => length v = n)
             [incubation_period self; infectious_period self;
              hospitalization_probability self; icu_probability self;
              death_probability self; population self])
  /\ (forall self s e i p self',
        set_initial_state self s e i p = Ok self' -> same_vectors self self')
  /\ (forall solver self days self',
        simulate solver self days = Ok self' -> same_vectors self self').
Proof.
  intros n. split; [ | split; [ | split; [ | split ] ] ].
  - apply init_sizes_refused.
  - intros A C HC. now apply (init_accepts c C).
  - intros self H. apply init_Ok in H. fold n in H.
    destruct H as (A & _ & Hn & Hinc & Hinf & Hh & Hicu & Hd & Hp & _).
    unfold sizes_accepted in A. fold n in A.
    repeat (apply andb_prop in A; destruct A as [A ?]).
    rewrite Hinc, Hinf, Hh, Hicu, Hd, Hp.
    repeat split; auto.
    repeat constructor; apply broadcast_to_length; auto.
    now apply population_sized_scalar_or_sized.
  - intros. eapply set_initial_state_same_vectors; eauto.
  - intros. eapply simulate_same_vectors; eauto.
Qed.

(** Two age bands, with the population and the infectious period given as
    vectors of two entries and the incubation period as the scalar 3: the
    construction goes through, the two vectors are stored as they were
    given and the scalar is stored twice. *)
Lemma parameters_normalised_example :
  let config := with_groups example_config two_bands
                  (NdArray [2500000; 1000000]) (NdArray [7; 14]) None in
  sizes_accepted config = true
  /\ exists self, __init__ config = Ok self
       /\ population self = [2500000; 1000000]
       /\ infectious_period self = [7; 14]
       /\ incubation_period self = [1 * inject_Z 3; 1 * inject_Z 3].
Proof.
  intros config.
  assert (A : sizes_accepted config = true) by reflexivity.
  split; [ exact A | ].
  destruct (parameters_normalised_at_construction config)
    as (_ & Haccepts & Hstored & _).
  destruct (Haccepts A (np.ones2 2 2) eq_refl) as (self & E).
  exists self. split; [ exact E | ].
  destruct (Hstored self E) as (_ & Hinc & Hinf & _ & _ & _ & Hp & _).
  rewrite Hp, Hinf, Hinc. repeat split; reflexivity.
Defined.

(** C3 as stated fails: with two compartments a scalar population, like
    every other scalar here, should be taken and repeated twice, and the
    construction stops at [assert self.num_compartments == 1]. *)
Lemma scalar_population_needs_one_compartment :
  let config := with_groups example_config two_bands (PyFloat 1000000)
                  (PyInt 7) None in
  scalar_or_sized 2 (arg_population config) = true
  /\ __init__ config = Raise AssertionError.
Proof. split; vm_compute; reflexivity. Qed.

(** ** The infectivity matrix (claim C9) *)

Lemma compute_infectivity_entries (infectious pop : list Q) (R0 : Q)
    (C M : matrix) (n : nat) :
  length infectious = n -> length pop = n ->
  length C = n -> Forall (fun row => length row = n) C ->
  _compute_infectivity_matrix infectious R0 pop C = Ok M ->
  forall i j, (i < n)%nat -> (j < n)%nat ->
    entry i j M =
    1 / nth j infectious 0 * R0 * np.sum pop / contact_throughput pop C
    * entry i j C.
Proof.
  intros Hi Hp HC Hrows H i j Hin Hjn.
  unfold _compute_infectivity_matrix, normalization, np.vecmat in H.
  unfold np.shape0 in H. rewrite Hp, HC, Nat.eqb_refl in H. simpl in H.
  rewrite broadcast_rows_same in H.
  2:{ eapply Forall_impl; [ | exact Hrows ]. intros row Hr. simpl in Hr.
      rewrite length_map. congruence. }
  injection H as <-. unfold entry.
  rewrite (nth_map_rows _ []) by lia.
  assert (Hrow : length (nth i C []) = n).
  { rewrite Forall_forall in Hrows. apply Hrows. apply nth_In. lia. }
  rewrite zip_with_nth by (rewrite ?length_map; lia).
  rewrite (nth_map_in _ 0) by lia.
  unfold contact_throughput, np.shape1.
  reflexivity.
Qed.

(** C9, as the code has it.  After a successful construction, entry [i][j]
    of the infectivity matrix is the contact entry [i][j] times
    (1 / infectious_period_j) . R0 . (total population)
    / (sum of population @ ContactMatrix): a factor that is the same down a
    column and changes from column to column with the infectious period.
    When every compartment has the same infectious period p (a scalar input,
    say), the factor is the one scalar (1 / p) . R0 . total / throughput and
    the matrix is that multiple of the contact matrix. *)
Theorem infectivity_matrix_scales_columns (c : Config) (self : SEIR) (C : matrix) :
  __init__ c = Ok self ->
  contacts_of (length (compartments_of c)) (arg_contacts_matrix c) = Ok C ->
  let n := num_compartments self in
  (forall i j, (i < n)%nat -> (j < n)%nat ->
     entry i j (infectivity_matrix self) = column_factor self C j * entry i j C)
  /\ (forall p, Forall (fun q => q == p) (infectious_period self) ->
      forall i j, (i < n)%nat -> (j < n)%nat ->
        entry i j (infectivity_matrix self) ==
        (1 / p * initial_R0 self * np.sum (population self)
         / contact_throughput (population self) C) * entry i j C).
Proof.
  intros Hinit HC n.
  pose proof (init_Ok _ _ Hinit) as (A & (C' & HC' & Hm) & Hn & _ & Hinf & _ & _ & _ & Hp & HR & _).
  rewrite HC in HC'. injection HC' as <-.
  unfold sizes_accepted in A.
  repeat (apply andb_prop in A; destruct A as [A ?]).
  destruct (contacts_of_shape _ _ _ HC) as (HlC & Hrows).
  assert (E : forall i j, (i < n)%nat -> (j < n)%nat ->
     entry i j (infectivity_matrix self) = column_factor self C j * entry i j C).
  { intros i j Hi Hj. unfold column_factor. rewrite Hinf, Hp, HR.
    unfold n in Hi, Hj. rewrite Hn in Hi, Hj.
    eapply (compute_infectivity_entries _ _ _ _ _ (length (compartments_of c)));
      eauto.
    - now apply broadcast_to_length.
    - apply broadcast_to_length. now apply population_sized_scalar_or_sized. }
  split; [ exact E | ].
  intros p Hall i j Hi Hj. rewrite (E i j Hi Hj). unfold column_factor.
  assert (Hj' : nth j (infectious_period self) 0 == p).
  { rewrite Forall_forall in Hall. apply Hall. apply nth_In.
    rewrite Hinf, broadcast_to_length by assumption. unfold n in Hj. congruence. }
  rewrite Hj'. reflexivity.
Qed.

(** In the example the single entry is (1 / 7) . 2.3 . 10^6 / 10^6. *)
Lemma infectivity_matrix_example :
  exists self, __init__ example_config = Ok self
    /\ Qred (entry 0 0 (infectivity_matrix self)) = 23 # 70.
Proof.
  destruct (__init__ example_config) as [self | e] eqn:E;
    [ | vm_compute in E; discriminate ].
  exists self. split; [ reflexivity | ].
  assert (HC : contacts_of (length (compartments_of example_config))
                 (arg_contacts_matrix example_config) = Ok [[1]])
    by reflexivity.
  destruct (infectivity_matrix_scales_columns example_config self [[1]] E HC)
    as (H & _).
  assert (N1 : num_compartments self = 1%nat).
  { vm_compute in E. injection E as <-. reflexivity. }
  rewrite H by (rewrite N1; lia).
  vm_compute in E. injection E as <-. vm_compute. reflexivity.
Defined.

(** C9 as stated fails: two compartments with infectious periods 7 and 14,
    homogeneous mixing.  The matrix built is [[a, b], [a, b]] with b = a / 2,
    and the all-ones contact matrix has no scalar multiple of that form. *)
Lemma infectivity_matrix_is_not_one_multiple :
  let config := with_groups example_config two_bands
                  (NdArray [2500000; 1000000]) (NdArray [7; 14]) None in
  exists self, __init__ config = Ok self
    /\ contacts_of 2 (arg_contacts_matrix config) = Ok (np.ones2 2 2)
    /\ lowest_terms (infectivity_matrix self)
       = [[23 # 140; 23 # 280]; [23 # 140; 23 # 280]]
    /\ ~ exists s, forall i j, (i < 2)%nat -> (j < 2)%nat ->
           entry i j (infectivity_matrix self) == s * entry i j (np.ones2 2 2).
Proof.
  intros config.
  destruct (__init__ config) as [self | e] eqn:E;
    [ | vm_compute in E; discriminate ].
  exists self. vm_compute in E. injection E as <-.
  split; [ reflexivity | ]. split; [ reflexivity | ].
  split; [ vm_compute; reflexivity | ].
  intros (s & H).
  pose proof (H 0%nat 0%nat ltac:(lia) ltac:(lia)) as H00.
  pose proof (H 0%nat 1%nat ltac:(lia) ltac:(lia)) as H01.
  unfold entry in H00, H01. simpl in H00, H01.
  rewrite <- H01 in H00. vm_compute in H00. discriminate.
Qed.

(** ** The solution at negative times (claim C6) *)

Lemma Qle_bool_neg (t : Q) : t < 0 -> Qle_bool 0 t = false.
Proof.
  intros H. destruct (Qle_bool 0 t) eqn:E; [ | reflexivity ].
  apply Qle_bool_iff in E. exfalso. exact (Qlt_not_le _ _ H E).
Qed.

Lemma Qle_bool_nonneg (t : Q) : 0 <= t -> Qle_bool 0 t = true.
Proof. apply Qle_bool_iff. Qed.

Lemma count_nonzero_mask (p : Q -> bool) (l : list Q) :
  length (filter (fun b : bool => b) (map p l)) = length (filter p l).
Proof.
  induction l as [ | t l IH]; simpl; [ reflexivity | ].
  destruct (p t); simpl; congruence.
Qed.

Lemma filter_length_le (p : Q -> bool) (l : list Q) :
  (length (filter p l) <= length l)%nat.
Proof.
  induction l as [ | t l IH]; simpl; [ lia | ]. destruct (p t); simpl; lia.
Qed.

Lemma all_nonneg_kept (l : list Q) :
  Forall (fun t => 0 <= t) l -> filter (Qle_bool 0) l = l.
Proof.
  induction 1 as [ | t l Ht _ IH]; simpl; [ reflexivity | ].
  rewrite (Qle_bool_nonneg _ Ht), IH. reflexivity.
Qed.

Lemma all_nonneg_extended sol y0 (l : list Q) :
  Forall (fun t => 0 <= t) l -> map (extended sol y0) l = map sol l.
Proof.
  induction 1 as [ | t l Ht _ IH]; simpl; [ reflexivity | ].
  rewrite IH. unfold extended at 1.
  destruct (Qlt_le_dec t 0) as [N | _]; [ | reflexivity ].
  exfalso. exact (Qlt_not_le _ _ N Ht).
Qed.

(** On ascending times the initial rows and the dense rows, put one after
    the other, are the rows in the order of the query. *)
Lemma initial_then_dense sol y0 (time : list Q) :
  StronglySorted Qle time ->
  repeat y0 (length time - length (filter (Qle_bool 0) time))
  ++ map sol (filter (Qle_bool 0) time)
  = map (extended sol y0) time.
Proof.
  induction 1 as [ | t l Hs IH Hall]; [ reflexivity | ].
  destruct (Qlt_le_dec t 0) as [N | P].
  - simpl filter. rewrite (Qle_bool_neg _ N). simpl length.
    pose proof (filter_length_le (Qle_bool 0) l).
    replace (S (length l) - length (filter (Qle_bool 0) l))%nat
      with (S (length l - length (filter (Qle_bool 0) l))) by lia.
    simpl. rewrite IH. unfold extended at 2.
    destruct (Qlt_le_dec t 0) as [_ | P]; [ reflexivity | ].
    exfalso. exact (Qlt_not_le _ _ N P).
  - assert (A : Forall (fun u => 0 <= u) (t :: l)).
    { constructor; [ exact P | ].
      eapply Forall_impl; [ | exact Hall ]. intros u Hu.
      eapply Qle_trans; eauto. }
    rewrite (all_nonneg_kept _ A), (all_nonneg_extended _ _ _ A), Nat.sub_diag.
    reflexivity.
Qed.

Lemma reaches_nonempty (time : list Q) (lag : Q) : reaches time lag -> time <> [].
Proof. intros H ->. inversion H. Qed.

Lemma reaches_asked (time : list Q) :
  reaches time 0 -> filter (Qle_bool 0) time <> [].
Proof.
  unfold reaches. induction 1 as [ t time Ht | t time _ IH ]; cbn [filter].
  - rewrite (Qle_bool_nonneg _ Ht). discriminate.
  - destruct (Qle_bool 0 t); [ discriminate | exact IH ].
Qed.

Lemma reaches_shifted (time : list Q) (lag : Q) :
  reaches time lag -> reaches (shifted time lag) 0.
Proof.
  unfold reaches, shifted. intros H. apply Exists_exists in H.
  destruct H as (t & Hin & Ht). apply Exists_exists.
  exists (t - lag). split; [ exact (in_map (fun u => u - lag) _ _ Hin) | ].
  apply (proj1 (Qle_minus_iff lag t)). exact Ht.
Qed.

(** With a time to ask the dense output for, and rows of the length of the
    initial state, the closure returns its rows. *)
Lemma SEIR_solution_Ok (self : SEIR) (sol : Q -> list Q) (y0 time : list Q) :
  solution self = Some sol -> Y0 self = Some y0 ->
  (forall t, length (sol t) = length y0) ->
  reaches time 0 ->
  SEIR_solution self time = Ok (rows_of sol y0 time).
Proof.
  intros Hs Hy Hl Hr. unfold SEIR_solution. rewrite Hs, Hy.
  pose proof (reaches_asked _ Hr) as Hne.
  destruct (filter (Qle_bool 0) time) as [ | t asked ] eqn:E; [ congruence | ].
  replace (forallb _ _) with true; [ reflexivity | ].
  symmetry. apply forallb_forall. intros row Hrow.
  apply in_map_iff in Hrow. destruct Hrow as (u & <- & _).
  apply Nat.eqb_eq, Hl.
Qed.

(** Without one, it raises. *)
Lemma SEIR_solution_all_negative (self : SEIR) (sol : Q -> list Q)
    (y0 time : list Q) :
  solution self = Some sol -> Y0 self = Some y0 ->
  Forall (fun t => t < 0) time ->
  SEIR_solution self time = Raise ValueError.
Proof.
  intros Hs Hy Hneg. unfold SEIR_solution. rewrite Hs, Hy.
  replace (filter (Qle_bool 0) time) with (@nil Q); [ reflexivity | ].
  symmetry. induction Hneg as [ | t time Ht _ IH ]; [ reflexivity | ].
  cbn [filter]. now rewrite (Qle_bool_neg _ Ht).
Qed.

(** No query time at or after 0: all of them are negative. *)
Lemma not_reaches_all_negative (time : list Q) :
  ~ reaches time 0 -> Forall (fun t => t < 0) time.
Proof.
  unfold reaches. intros H. apply Forall_Exists_neg in H.
  eapply Forall_impl; [ | exact H ]. intros t Ht. now apply Qnot_le_lt.
Qed.

(** A dense row of another length than the initial state cannot be put
    under the initial rows. *)
Lemma SEIR_solution_other_length (self : SEIR) (sol : Q -> list Q)
    (y0 time : list Q) (t : Q) :
  solution self = Some sol -> Y0 self = Some y0 ->
  In t time -> 0 <= t -> length (sol t) <> length y0 ->
  SEIR_solution self time = Raise ValueError.
Proof.
  intros Hs Hy Hin Ht Hl. unfold SEIR_solution. rewrite Hs, Hy.
  assert (Hasked : In t (filter (Qle_bool 0) time))
    by (apply filter_In; split; [ exact Hin | now apply Qle_bool_nonneg ]).
  destruct (filter (Qle_bool 0) time) as [ | u asked ] eqn:E;
    [ reflexivity | ].
  destruct (forallb _ _) eqn:F; [ | reflexivity ].
  exfalso. apply Hl. apply Nat.eqb_eq.
  rewrite forallb_forall in F. apply F.
  exact (in_map sol _ _ Hasked).
Qed.

(** The query of an instance that holds a solution, on ascending times that
    reach the simulated interval. *)
Lemma solution_query_on_ascending_times
    (self : SEIR) (sol : Q -> list Q) (y0 : list Q) (time : list Q) :
  solution self = Some sol -> Y0 self = Some y0 ->
  (forall t, length (sol t) = length y0) ->
  reaches time 0 ->
  Sorted Qle time ->
  SEIR_solution self time = Ok (map (extended sol y0) time).
Proof.
  intros Hs Hy Hl Hr Hsorted.
  rewrite (SEIR_solution_Ok self sol y0 time Hs Hy Hl Hr).
  unfold rows_of. rewrite count_nonzero_mask.
  f_equal. apply initial_then_dense.
  apply Sorted_StronglySorted; [ | exact Hsorted ].
  intros a b c. apply Qle_trans.
Qed.

(** C6, as the code behaves.  After [simulate] has produced a solution from
    the initial state [Y0], a query on ascending times all of which are
    negative is an error: the closure raises [ValueError], where the claim
    has it return [Y0] for each.  When one query time at least is not
    negative (and the dense output has the length of the state), the query
    returns one row per time, in the order of the query: [Y0] itself where
    the time is negative, the dense output at that time where it is not. *)
Theorem solution_at_negative_times_only_raises
    solver (self self' : SEIR) (days : Q) (time : list Q) :
  simulate solver self days = Ok self' ->
  Sorted Qle time ->
  exists sol y0,
    Y0 self = Some y0
    /\ solver (__call__ self) days y0 = Ok sol
    /\ (Forall (fun t => t < 0) time ->
        SEIR_solution self' time = Raise ValueError)
    /\ (reaches time 0 -> (forall t, length (sol t) = length y0) ->
        exists rows,
          SEIR_solution self' time = Ok rows
          /\ length rows = length time
          /\ forall k, (k < length time)%nat ->
               (nth k time 0 < 0 -> nth k rows [] = y0)
               /\ (0 <= nth k time 0 -> nth k rows [] = sol (nth k time 0))).
Proof.
  intros Hsim Hsorted. unfold simulate in Hsim.
  destruct (Y0 self) as [y0 | ] eqn:Hy; [ | discriminate ].
  step Hsim. injection Hsim as <-. rename a into sol.
  exists sol, y0.
  split; [ reflexivity | ]. split; [ exact E | ]. split.
  - intros Hneg. now apply (SEIR_solution_all_negative _ sol y0).
  - intros Hr Hl. exists (map (extended sol y0) time).
    split; [ now apply solution_query_on_ascending_times | ].
    split; [ apply length_map | ].
    intros k Hk.
    rewrite (nth_indep _ [] (extended sol y0 0)) by now rewrite length_map.
    rewrite map_nth. unfold extended.
    destruct (Qlt_le_dec (nth k time 0) 0) as [N | P]; split; intros H;
      try reflexivity; exfalso;
      exact (Qlt_not_le _ _ ltac:(eassumption) ltac:(eassumption)).
Qed.

(** The example, simulated by a solver whose output drifts away from the
    initial state: asked for the days -2 and -1 the solution raises; asked
    for -2, -1, 0 and 1 it gives the initial state for day -2 and the state
    moved by 1 for day 1. *)
Lemma solution_at_negative_times_example :
  exists self self' y0 rows,
    example_setup = Ok self
    /\ simulate drifting_solver self 200 = Ok self'
    /\ Y0 self = Some y0
    /\ SEIR_solution self' [-2; -1] = Raise ValueError
    /\ SEIR_solution self' [-2; -1; 0; 1] = Ok rows
    /\ nth 0 rows [] = y0
    /\ nth 3 rows [] = map (Qplus 1) y0.
Proof.
  destruct example_setup as [self | e] eqn:E;
    [ | vm_compute in E; discriminate ].
  destruct (simulate drifting_solver self 200) as [self' | e] eqn:Es.
  2:{ vm_compute in E. injection E as <-. discriminate. }
  assert (Hs2 : Sorted Qle [-2; -1]).
  { repeat constructor; unfold Qle; simpl; lia. }
  assert (Hs4 : Sorted Qle [-2; -1; 0; 1]).
  { repeat constructor; unfold Qle; simpl; lia. }
  destruct (solution_at_negative_times_only_raises
              drifting_solver self self' 200 [-2; -1] Es Hs2)
    as (sol & y0 & Hy & Hsol & Hraise & _).
  destruct (solution_at_negative_times_only_raises
              drifting_solver self self' 200 [-2; -1; 0; 1] Es Hs4)
    as (sol' & y0' & Hy' & Hsol' & _ & Hrows).
  rewrite Hy in Hy'. injection Hy' as <-.
  rewrite Hsol in Hsol'. injection Hsol' as <-.
  unfold drifting_solver in Hsol. injection Hsol as <-.
  destruct Hrows as (rows & Hq & _ & Hk).
  { do 2 apply Exists_cons_tl. apply Exists_cons_hd. apply Qle_refl. }
  { intros t. apply length_map. }
  exists self, self', y0, rows.
  split; [ reflexivity | ]. split; [ exact Es | ]. split; [ exact Hy | ].
  split.
  { apply Hraise. repeat constructor. }
  split; [ exact Hq | ]. split.
  - apply (Hk 0%nat); [ simpl; lia | reflexivity ].
  - apply (Hk 3%nat); [ simpl; lia | unfold Qle; simpl; lia ].
Defined.

(** ** The shape of a constructed instance *)

Lemma compartments_of_nonempty (c : Config) :
  (1 <= length (compartments_of c))%nat.
Proof.
  unfold compartments_of. destruct (arg_compartments c) as [ [ | l ls ] | ];
    simpl; lia.
Qed.

Lemma compute_infectivity_shape (infectious pop : list Q) (R0 : Q)
    (C M : matrix) (n : nat) :
  length infectious = n -> length pop = n ->
  length C = n -> Forall (fun row => length row = n) C ->
  _compute_infectivity_matrix infectious R0 pop C = Ok M ->
  length M = n /\ Forall (fun row => length row = n) M.
Proof.
  intros Hi Hp HC Hrows H.
  unfold _compute_infectivity_matrix, normalization, np.vecmat in H.
  unfold np.shape0 in H. rewrite Hp, HC, Nat.eqb_refl in H. simpl in H.
  rewrite broadcast_rows_same in H.
  2:{ eapply Forall_impl; [ | exact Hrows ]. intros row Hr. simpl in Hr.
      rewrite length_map. congruence. }
  injection H as <-. rewrite length_map. split; [ exact HC | ].
  apply Forall_forall. intros row Hin. apply in_map_iff in Hin.
  destruct Hin as (r & <- & Hr). rewrite Forall_forall in Hrows.
  rewrite zip_with_length, length_map, (Hrows r Hr). lia.
Qed.

Lemma init_shaped (c : Config) (self : SEIR) :
  __init__ c = Ok self -> shaped self.
Proof.
  intros H.
  pose proof (init_Ok _ _ H)
    as (A & (C & HC & Hm) & Hn & Hinc & Hinf & Hh & Hicu & Hd & Hp & _).
  unfold sizes_accepted in A.
  repeat (apply andb_prop in A; destruct A as [A ?]).
  assert (Hlp : length (population self) = length (compartments_of c)).
  { rewrite Hp. apply broadcast_to_length.
    now apply population_sized_scalar_or_sized. }
  assert (Hli : length (infectious_period self) = length (compartments_of c)).
  { rewrite Hinf. now apply broadcast_to_length. }
  unfold shaped. rewrite Hn. split.
  - rewrite Hinc, Hh, Hicu, Hd.
    repeat constructor; try assumption; now apply broadcast_to_length.
  - destruct (contacts_of_shape _ _ _ HC) as (HlC & Hrows).
    rewrite <- Hinf, <- Hp in Hm.
    destruct (compute_infectivity_shape _ _ _ _ _ _ Hli Hlp HlC Hrows Hm).
    repeat split; auto. apply compartments_of_nonempty.
Qed.

Lemma same_vectors_shaped (a b : SEIR) :
  same_vectors a b -> shaped a -> shaped b.
Proof.
  unfold same_vectors, shaped.
  intros (-> & -> & -> & -> & -> & -> & -> & ->). auto.
Qed.

Lemma constructed_shaped (self : SEIR) : constructed self -> shaped self.
Proof.
  induction 1 as [ c self H | self self' s e i p _ IH H | solver self self' d _ IH H ].
  - eapply init_shaped; eauto.
  - eapply same_vectors_shaped; [ | exact IH ].
    eapply set_initial_state_same_vectors; eauto.
  - eapply same_vectors_shaped; [ | exact IH ].
    eapply simulate_same_vectors; eauto.
Qed.

(** ** Array facts for the derivative law *)

Lemma nth_map_seq (g : nat -> Q) (n i : nat) :
  (i < n)%nat -> nth i (map g (seq 0 n)) 0 = g i.
Proof.
  intros H. rewrite (nth_map_in g 0%nat) by now rewrite length_seq.
  rewrite seq_nth by assumption. reflexivity.
Qed.

Lemma list_eq_seq (l : list Q) (g : nat -> Q) (n : nat) :
  length l = n -> (forall i, (i < n)%nat -> nth i l 0 = g i) ->
  l = map g (seq 0 n).
Proof.
  intros Hl H. apply (nth_ext _ _ 0 0).
  - now rewrite length_map, length_seq.
  - intros i Hi. rewrite Hl in Hi. rewrite nth_map_seq by assumption. auto.
Qed.

Lemma zip_with_seq f (xs ys : list Q) (g : nat -> Q) (n : nat) :
  length xs = n -> length ys = n ->
  (forall i, (i < n)%nat -> f (nth i xs 0) (nth i ys 0) = g i) ->
  np.zip_with f xs ys = map g (seq 0 n).
Proof.
  intros Hx Hy H. apply list_eq_seq.
  - rewrite zip_with_length. lia.
  - intros i Hi. rewrite zip_with_nth by lia. auto.
Qed.

Lemma shape1_square (M : matrix) (n : nat) :
  length M = n -> Forall (fun row => length row = n) M -> np.shape1 M = n.
Proof.
  intros Hl Hr. destruct M as [ | row M ]; simpl in *; [ exact Hl | ].
  now inversion Hr.
Qed.

Lemma split4_blocks (Y : list Q) (n : nat) :
  length Y = (4 * n)%nat ->
  np.split4 Y = Ok (S_block n Y, E_block n Y, I_block n Y, R_block n Y)
  /\ length (S_block n Y) = n /\ length (E_block n Y) = n
  /\ length (I_block n Y) = n /\ length (R_block n Y) = n.
Proof.
  intros H. unfold np.split4. rewrite H.
  replace (4 * n)%nat with (n * 4)%nat by lia.
  rewrite Nat.Div0.mod_mul, Nat.div_mul by lia. simpl Nat.eqb. cbv iota.
  unfold S_block, E_block, I_block, R_block.
  rewrite !length_firstn, !length_skipn. repeat split; lia.
Qed.

(** ** The derivative law (claims C7 and C8) *)

(** The rates before any imported cases are added. *)
Lemma rates_closed (self : SEIR) (t : Q) (Y : list Q) :
  shaped self -> length Y = (4 * num_compartments self)%nat ->
  rates self (infectivity_matrix self) t Y =
  let n := num_compartments self in
  match imported_cases_function self with
  | Some imported =>
      let '(DS, DE, DI) := imported t in
      dS_dt <- np.iadd (map (dS self Y) (seq 0 n)) DS ;;
      dE_dt <- np.iadd (map (dE self Y) (seq 0 n)) DE ;;
      dI_dt <- np.iadd (map (dI self Y) (seq 0 n)) DI ;;
      Ok (dS_dt ++ dE_dt ++ dI_dt ++ map (dR self Y) (seq 0 n))
  | None => Ok (derivative_law self Y)
  end.
Proof.
  intros (Hvec & HlM & Hrows & _) HY. cbv zeta.
  set (n := num_compartments self) in *.
  assert (Hinc : length (incubation_period self) = n)
    by (rewrite Forall_forall in Hvec; apply Hvec; simpl; tauto).
  assert (Hinf : length (infectious_period self) = n)
    by (rewrite Forall_forall in Hvec; apply Hvec; simpl; tauto).
  assert (Hpop : length (population self) = n)
    by (rewrite Forall_forall in Hvec; apply Hvec; simpl; tauto).
  destruct (split4_blocks Y n HY) as (Hsplit & HS & HE & HI & HR).
  unfold rates. rewrite Hsplit. cbn [bind].
  rewrite (broadcast_same Qdiv (S_block n Y)) by congruence. cbn [bind].
  unfold np.matvec. rewrite (shape1_square _ n HlM Hrows), HI, Nat.eqb_refl.
  cbn [bind].
  assert (EdS : np.zip_with Qmult
                  (map Qopp (np.zip_with Qdiv (S_block n Y) (population self)))
                  (map (fun row => np.dot row (I_block n Y)) (infectivity_matrix self))
                = map (dS self Y) (seq 0 n)).
  { apply zip_with_seq.
    - rewrite length_map, zip_with_length. lia.
    - now rewrite length_map.
    - intros i Hi. unfold dS. fold n.
      rewrite (nth_map_in Qopp 0) by (rewrite zip_with_length; lia).
      rewrite zip_with_nth by lia.
      rewrite (nth_map_in _ []) by lia. reflexivity. }
  rewrite broadcast_same by (rewrite !length_map, zip_with_length; lia).
  cbn [bind]. rewrite EdS.
  rewrite (broadcast_same Qdiv (E_block n Y)) by congruence. cbn [bind].
  assert (EdE : np.zip_with Qminus (map Qopp (map (dS self Y) (seq 0 n)))
                  (np.zip_with Qdiv (E_block n Y) (incubation_period self))
                = map (dE self Y) (seq 0 n)).
  { apply zip_with_seq.
    - now rewrite !length_map, length_seq.
    - rewrite zip_with_length. lia.
    - intros i Hi. unfold dE. fold n.
      rewrite (nth_map_in Qopp 0) by now rewrite length_map, length_seq.
      rewrite nth_map_seq by assumption.
      rewrite zip_with_nth by lia. reflexivity. }
  rewrite broadcast_same
    by (rewrite !length_map, length_seq, zip_with_length; lia).
  cbn [bind]. rewrite EdE.
  rewrite (broadcast_same Qdiv (I_block n Y)) by congruence. cbn [bind].
  assert (EdI : np.zip_with Qminus
                  (np.zip_with Qdiv (E_block n Y) (incubation_period self))
                  (np.zip_with Qdiv (I_block n Y) (infectious_period self))
                = map (dI self Y) (seq 0 n)).
  { apply zip_with_seq.
    - rewrite zip_with_length. lia.
    - rewrite zip_with_length. lia.
    - intros i Hi. unfold dI. fold n.
      rewrite !zip_with_nth by lia. reflexivity. }
  rewrite broadcast_same by (rewrite !zip_with_length; lia).
  cbn [bind]. rewrite EdI.
  assert (EdR : np.zip_with Qdiv (I_block n Y) (infectious_period self)
                = map (dR self Y) (seq 0 n)).
  { apply zip_with_seq; try assumption.
    intros i Hi. reflexivity. }
  rewrite EdR. reflexivity.
Qed.

(** C7.  With no restriction function and no imported-cases function, the
    derivative law of a constructed instance returns, at every time and
    whatever the time, the four blocks
    dS_i = -(S_i / population_i) . (row i of the infectivity matrix . I),
    dE_i = -dS_i - E_i / incubation_period_i,
    dI_i = E_i / incubation_period_i - I_i / infectious_period_i,
    dR_i = I_i / infectious_period_i. *)
Theorem derivative_law_of_closed_system (self : SEIR) (t : Q) (Y : list Q) :
  constructed self ->
  restrictions_function self = None ->
  imported_cases_function self = None ->
  length Y = (4 * num_compartments self)%nat ->
  __call__ self t Y = Ok (derivative_law self Y).
Proof.
  intros Hc Hr Hi HY. unfold __call__. rewrite Hr. cbn [bind].
  rewrite rates_closed by (auto using constructed_shaped).
  cbv zeta. rewrite Hi. reflexivity.
Qed.

(** The law at the initial state of the example. *)
Lemma derivative_law_example :
  exists self, __init__ example_config = Ok self
    /\ __call__ self 0 [990000; 5000; 5000; 0]
       = Ok (derivative_law self [990000; 5000; 5000; 0])
    /\ map Qred (derivative_law self [990000; 5000; 5000; 0])
       = [- (11385 # 7); - (845 # 21); 20000 # 21; 5000 # 7].
Proof.
  destruct (__init__ example_config) as [self | e] eqn:E;
    [ | vm_compute in E; discriminate ].
  exists self. split; [ reflexivity | ].
  assert (N1 : num_compartments self = 1%nat /\ restrictions_function self = None
               /\ imported_cases_function self = None).
  { vm_compute in E. injection E as <-. repeat split. }
  destruct N1 as (N1 & Hr & Hi).
  split.
  - apply derivative_law_of_closed_system; auto.
    + eapply by_init; eauto.
    + rewrite N1. reflexivity.
  - vm_compute in E. injection E as <-. vm_compute. reflexivity.
Defined.

Lemma rates_total_blocks (n : nat) (A B C D : list Q) (i : nat) :
  length A = n -> length B = n -> length C = n -> (i < n)%nat ->
  rates_total n (A ++ B ++ C ++ D) i
  = nth i A 0 + nth i B 0 + nth i C 0 + nth i D 0.
Proof.
  intros HA HB HC Hi. unfold rates_total.
  rewrite (app_nth1 A) by lia.
  rewrite (app_nth2 A) by lia.
  replace (n + i - length A)%nat with i by lia.
  rewrite (app_nth1 B) by lia.
  rewrite (app_nth2 A) by lia. rewrite (app_nth2 B) by lia.
  replace (2 * n + i - length A - length B)%nat with i by lia.
  rewrite (app_nth1 C) by lia.
  rewrite (app_nth2 A) by lia. rewrite (app_nth2 B) by lia.
  rewrite (app_nth2 C) by lia.
  replace (3 * n + i - length A - length B - length C)%nat with i by lia.
  reflexivity.
Qed.

Lemma iadd_same (v u : list Q) :
  length u = length v -> np.iadd v (NdArray u) = Ok (np.zip_with Qplus v u).
Proof. intros H. simpl. rewrite H, Nat.eqb_refl. reflexivity. Qed.

Lemma closed_rates_cancel (self : SEIR) (Y : list Q) (i : nat) :
  dS self Y i + dE self Y i + dI self Y i + dR self Y i == 0.
Proof.
  unfold dE, dI, dR.
  set (s := dS self Y i).
  set (e := nth i (E_block _ Y) 0 / nth i (incubation_period self) 0).
  set (r := nth i (I_block _ Y) 0 / nth i (infectious_period self) 0).
  ring.
Qed.

(** C8.  For a constructed instance without restriction function, at every
    time and state vector: when no imported-cases function is configured,
    the derivative law returns rates whose four components add up to zero in
    every compartment; when one is configured and returns three vectors of N
    entries, they are added to the S, E and I rates, nothing is taken from
    any rate, and the components of compartment i add up to
    DS_i + DE_i + DI_i. *)
Theorem closed_rates_sum_to_zero (self : SEIR) (t : Q) (Y : list Q) :
  constructed self ->
  restrictions_function self = None ->
  length Y = (4 * num_compartments self)%nat ->
  let n := num_compartments self in
  match imported_cases_function self with
  | None =>
      exists dY, __call__ self t Y = Ok dY
        /\ length dY = (4 * n)%nat
        /\ forall i, (i < n)%nat -> rates_total n dY i == 0
  | Some imported =>
      forall DS DE DI,
        imported t = (NdArray DS, NdArray DE, NdArray DI) ->
        length DS = n -> length DE = n -> length DI = n ->
        exists dY, __call__ self t Y = Ok dY
          /\ dY = np.zip_with Qplus (map (dS self Y) (seq 0 n)) DS
                  ++ np.zip_with Qplus (map (dE self Y) (seq 0 n)) DE
                  ++ np.zip_with Qplus (map (dI self Y) (seq 0 n)) DI
                  ++ map (dR self Y) (seq 0 n)
          /\ forall i, (i < n)%nat ->
               rates_total n dY i == nth i DS 0 + nth i DE 0 + nth i DI 0
  end.
Proof.
  intros Hc Hr HY n.
  pose proof (rates_closed self t Y (constructed_shaped _ Hc) HY) as H.
  cbv zeta in H. fold n in H.
  unfold __call__. rewrite Hr. cbn [bind]. rewrite H. clear H.
  destruct (imported_cases_function self) as [imported | ].
  - intros DS DE DI Himp HlS HlE HlI. rewrite Himp.
    rewrite !iadd_same by (rewrite length_map, length_seq; assumption).
    cbn [bind]. eexists. split; [ reflexivity | ]. split; [ reflexivity | ].
    intros i Hi.
    rewrite rates_total_blocks
      by (rewrite ?zip_with_length, ?length_map, ?length_seq; lia).
    rewrite !zip_with_nth by (rewrite ?length_map, ?length_seq; lia).
    rewrite !nth_map_seq by assumption.
    pose proof (closed_rates_cancel self Y i) as Z.
    setoid_replace (dS self Y i + nth i DS 0 + (dE self Y i + nth i DE 0)
                    + (dI self Y i + nth i DI 0) + dR self Y i)
      with ((dS self Y i + dE self Y i + dI self Y i + dR self Y i)
            + (nth i DS 0 + nth i DE 0 + nth i DI 0)) by ring.
    rewrite Z. ring.
  - exists (derivative_law self Y). split; [ reflexivity | ].
    unfold derivative_law. fold n. split.
    + rewrite !length_app, !length_map, !length_seq. lia.
    + intros i Hi.
      rewrite rates_total_blocks by (rewrite ?length_map, ?length_seq; lia).
      rewrite !nth_map_seq by assumption.
      apply closed_rates_cancel.
Qed.

(** The example, closed and then with ten exposed people imported a day:
    the rates of the one compartment add up to 0 and to 10. *)
Lemma closed_rates_example :
  let y0 := [990000; 5000; 5000; 0] in
  let seeded := with_functions example_config None
                  (Some (fun _ => (NdArray [0], NdArray [10], NdArray [0]))) in
  (exists self dY, __init__ example_config = Ok self
     /\ __call__ self 0 y0 = Ok dY /\ rates_total 1 dY 0 == 0)
  /\ (exists self dY, __init__ seeded = Ok self
        /\ __call__ self 0 y0 = Ok dY /\ rates_total 1 dY 0 == 10).
Proof.
  intros y0 seeded. split.
  - destruct (__init__ example_config) as [self | e] eqn:E;
      [ | vm_compute in E; discriminate ].
    pose proof E as E'. vm_compute in E'. injection E' as <-.
    pose proof (closed_rates_sum_to_zero _ 0 y0 (by_init _ _ E) eq_refl eq_refl)
      as (dY & H & _ & Hz).
    eexists _, dY. split; [ reflexivity | ]. split; [ exact H | ].
    apply (Hz 0%nat). simpl. lia.
  - destruct (__init__ seeded) as [self | e] eqn:E;
      [ | vm_compute in E; discriminate ].
    pose proof E as E'. vm_compute in E'. injection E' as <-.
    pose proof (closed_rates_sum_to_zero _ 0 y0 (by_init _ _ E) eq_refl eq_refl)
      as H.
    simpl in H.
    destruct (H [0] [10] [0] eq_refl eq_refl eq_refl eq_refl) as (dY & Hc & _ & Hz).
    eexists _, dY. split; [ reflexivity | ]. split; [ exact Hc | ].
    rewrite (Hz 0%nat) by lia. reflexivity.
Defined.

(** ** What [evaluate_solution] computes *)

Lemma split4_rows_blocks (n : nat) (M : matrix) :
  Forall (fun row => length row = (4 * n)%nat) M ->
  np.split4_rows M
  = Ok (map (S_block n) M, map (E_block n) M, map (I_block n) M,
        map (R_block n) M).
Proof.
  intros H. unfold np.split4_rows.
  rewrite (mapM_Ok_map np.split4
             (fun r => (S_block n r, E_block n r, I_block n r, R_block n r))).
  - cbn [bind]. rewrite !map_map. reflexivity.
  - eapply Forall_impl; [ | exact H ]. intros row Hr.
    now destruct (split4_blocks row n Hr).
Qed.

Lemma rows_of_length sol y0 (time : list Q) :
  length (rows_of sol y0 time) = length time.
Proof.
  unfold rows_of.
  rewrite length_app, repeat_length, length_map, count_nonzero_mask.
  pose proof (filter_length_le (Qle_bool 0) time). lia.
Qed.

Lemma rows_of_shape sol y0 (time : list Q) (m : nat) :
  length y0 = m -> (forall t, length (sol t) = m) ->
  Forall (fun row => length row = m) (rows_of sol y0 time).
Proof.
  intros Hy Hs. unfold rows_of. apply Forall_app. split.
  - apply Forall_forall. intros row Hr. apply repeat_spec in Hr. now subst.
  - apply Forall_forall. intros row Hr. apply in_map_iff in Hr.
    destruct Hr as (t & <- & _). apply Hs.
Qed.

Lemma subtract_scalar (time : list Q) (lag : num) (x : Q) :
  np.scalar lag = Some x -> np.subtract time lag = Ok (shifted time x).
Proof.
  destruct lag; simpl; intros H; try discriminate; injection H as <-;
    reflexivity.
Qed.

Lemma onset_series_Ok (self : SEIR) (probability : list Q)
    (block : list Q -> list Q) (rows : matrix) (n : nat) :
  length (incubation_period self) = n -> length probability = n ->
  Forall (fun row => length (block row) = n) rows ->
  let onset := map (fun row => np.zip_with Qdiv (block row) (incubation_period self))
                   rows in
  np.broadcast_rows Qdiv (map block rows) (incubation_period self) = Ok onset
  /\ np.broadcast_rows (fun a p => p * a) onset probability
     = Ok (onset_series self probability block rows)
  /\ Forall (fun row => length row = n) (onset_series self probability block rows).
Proof.
  intros Hi Hp Hrows onset. split; [ | split ].
  - rewrite broadcast_rows_same; [ unfold onset; now rewrite map_map | ].
    apply Forall_forall. intros row Hr. apply in_map_iff in Hr.
    destruct Hr as (r & <- & Hr). rewrite Forall_forall in Hrows.
    rewrite (Hrows r Hr). congruence.
  - rewrite broadcast_rows_same;
      [ unfold onset, onset_series; now rewrite map_map | ].
    apply Forall_forall. intros row Hr. apply in_map_iff in Hr.
    destruct Hr as (r & <- & Hr). rewrite Forall_forall in Hrows.
    rewrite zip_with_length, (Hrows r Hr). lia.
  - apply Forall_forall. intros row Hr. apply in_map_iff in Hr.
    destruct Hr as (r & <- & Hr). rewrite Forall_forall in Hrows.
    rewrite !zip_with_length, (Hrows r Hr). lia.
Qed.

Lemma active_cases_Ok (n : nat) (M : matrix) (w : list Q) :
  M <> [] -> w <> [] -> Forall (fun row => length row = n) M ->
  active_cases n M w = Ok (boxcar n M w).
Proof.
  intros HM Hw Hrows. unfold active_cases, boxcar.
  rewrite (mapM_Ok_map _ (fun i => np.same_part (np.col i M) w)).
  - reflexivity.
  - apply Forall_forall. intros i Hi. apply in_seq in Hi.
    destruct M as [ | row M ]; [ congruence | ].
    unfold np.column. cbn [np.shape1].
    assert (Hr : length row = n) by now inversion Hrows.
    rewrite Hr. destruct (Nat.ltb_spec i n) as [ _ | ? ]; [ | lia ].
    cbn [bind]. unfold np.convolve_same.
    destruct w as [ | x w ]; [ congruence | ]. reflexivity.
Qed.

Lemma block_lengths (n : nat) (rows : matrix) :
  Forall (fun row => length row = (4 * n)%nat) rows ->
  Forall (fun row => length (E_block n row) = n) rows
  /\ Forall (fun row => length (I_block n row) = n) rows.
Proof.
  intros H. split; (eapply Forall_impl; [ | exact H ]); intros row Hr;
    now destruct (split4_blocks row n Hr) as (_ & _ & ? & ? & _).
Qed.

Lemma onset_series_nonempty (self : SEIR) probability block (rows : matrix) :
  rows <> [] -> onset_series self probability block rows <> [].
Proof. destruct rows; simpl; congruence. Qed.

Lemma rows_of_nonempty sol y0 (time : list Q) :
  time <> [] -> rows_of sol y0 time <> [].
Proof.
  intros H E. apply (f_equal (@length _)) in E.
  rewrite rows_of_length in E. destruct time; simpl in E; congruence.
Qed.

Lemma shifted_nonempty (time : list Q) (lag : Q) :
  time <> [] -> shifted time lag <> [].
Proof. destruct time; simpl; congruence. Qed.

Section Evaluate.

Variable self : SEIR.
Variable sol : Q -> list Q.
Variable y0 : list Q.
Let n := num_compartments self.

Hypothesis self_shaped : shaped self.
Hypothesis self_solution : solution self = Some sol.
Hypothesis self_Y0 : Y0 self = Some y0.
Hypothesis y0_length : length y0 = (4 * n)%nat.
Hypothesis sol_length : forall t, length (sol t) = (4 * n)%nat.

(** The construction of an occupancy series, step by step. *)
Lemma occupancy_computes (probability : list Q) (lag duration : num)
    (time : list Q) (l : Q) (w : list Q) :
  length probability = n ->
  np.scalar lag = Some l -> np.ones_of duration = Ok w -> w <> [] ->
  reaches time l ->
  occupancy self probability lag duration time
  = Ok (boxcar n (onset_series self probability (E_block n)
                    (rows_of sol y0 (shifted time l))) w).
Proof.
  intros Hp Hl Hw Hwne Hr.
  pose proof (reaches_nonempty _ _ Hr) as Ht.
  destruct self_shaped as (Hvec & _).
  assert (Hinc : length (incubation_period self) = n)
    by (rewrite Forall_forall in Hvec; apply Hvec; simpl; tauto).
  assert (Hlen : forall t, length (sol t) = length y0)
    by (intros t; rewrite y0_length; apply sol_length).
  unfold occupancy. rewrite (subtract_scalar _ _ _ Hl). cbn [bind].
  rewrite (SEIR_solution_Ok self sol y0 _ self_solution self_Y0 Hlen
             (reaches_shifted _ _ Hr)).
  cbn [bind].
  pose proof (rows_of_shape sol y0 (shifted time l) _ y0_length sol_length) as Hs.
  rewrite (split4_rows_blocks n _ Hs). cbn [bind].
  destruct (block_lengths n _ Hs) as (HE & _).
  destruct (onset_series_Ok self probability _ _ n Hinc Hp HE) as (E1 & E2 & F).
  rewrite E1. cbn [bind]. rewrite E2. cbn [bind]. rewrite Hw. cbn [bind].
  fold n. apply active_cases_Ok; auto.
  apply onset_series_nonempty, rows_of_nonempty, shifted_nonempty, Ht.
Qed.

(** What [evaluate_solution] returns on a nonempty query, for scalar lags
    and integer durations. *)
Lemma evaluate_solution_computes (time : list Q) (lh li ld : Q) (wh wi : list Q) :
  np.scalar (hospitalization_lag_from_onset self) = Some lh ->
  np.scalar (icu_lag_from_onset self) = Some li ->
  np.scalar (death_lag_from_onset self) = Some ld ->
  np.ones_of (hospitalization_duration self) = Ok wh -> wh <> [] ->
  np.ones_of (icu_duration self) = Ok wi ->
  Forall (reaches time) [0; lh; li; ld] ->
  evaluate_solution self time
  = Ok {| out_S := map (S_block n) (rows_of sol y0 time);
          out_E := map (E_block n) (rows_of sol y0 time);
          out_I := map (I_block n) (rows_of sol y0 time);
          out_R := map (R_block n) (rows_of sol y0 time);
          H_active_cases :=
            boxcar n (onset_series self (hospitalization_probability self)
                        (E_block n) (rows_of sol y0 (shifted time lh))) wh;
          ICU_active_cases :=
            boxcar n (onset_series self (icu_probability self)
                        (I_block n) (rows_of sol y0 (shifted time li))) wh;
          deaths :=
            np.cumsum (onset_series self (death_probability self)
                         (E_block n) (rows_of sol y0 (shifted time ld))) |}.
Proof.
  intros Hlh Hli Hld Hwh Hwhne Hwi Hreach.
  assert (R0 : reaches time 0) by (rewrite Forall_forall in Hreach; apply Hreach; simpl; tauto).
  assert (Rh : reaches time lh) by (rewrite Forall_forall in Hreach; apply Hreach; simpl; tauto).
  assert (Ri : reaches time li) by (rewrite Forall_forall in Hreach; apply Hreach; simpl; tauto).
  assert (Rd : reaches time ld) by (rewrite Forall_forall in Hreach; apply Hreach; simpl; tauto).
  pose proof (reaches_nonempty _ _ R0) as Ht.
  assert (Hlen : forall t, length (sol t) = length y0)
    by (intros t; rewrite y0_length; apply sol_length).
  assert (Q0 : SEIR_solution self time = Ok (rows_of sol y0 time)).
  { apply SEIR_solution_Ok; auto. }
  pose proof (SEIR_solution_Ok self sol y0 _ self_solution self_Y0 Hlen
                (reaches_shifted _ _ Rh)) as Qh.
  pose proof (SEIR_solution_Ok self sol y0 _ self_solution self_Y0 Hlen
                (reaches_shifted _ _ Ri)) as Qi.
  pose proof (SEIR_solution_Ok self sol y0 _ self_solution self_Y0 Hlen
                (reaches_shifted _ _ Rd)) as Qd.
  destruct self_shaped as (Hvec & _).
  assert (Hinc : length (incubation_period self) = n)
    by (rewrite Forall_forall in Hvec; apply Hvec; simpl; tauto).
  assert (Hhp : length (hospitalization_probability self) = n)
    by (rewrite Forall_forall in Hvec; apply Hvec; simpl; tauto).
  assert (Hip : length (icu_probability self) = n)
    by (rewrite Forall_forall in Hvec; apply Hvec; simpl; tauto).
  assert (Hdp : length (death_probability self) = n)
    by (rewrite Forall_forall in Hvec; apply Hvec; simpl; tauto).
  pose proof (fun time => rows_of_shape sol y0 time _ y0_length sol_length) as Hs.
  unfold evaluate_solution. rewrite Q0. cbn [bind].
  rewrite (split4_rows_blocks n _ (Hs time)). cbn [bind].
  destruct (block_lengths n _ (Hs time)) as (HE0 & _).
  destruct (onset_series_Ok self (np.ones n) _ _ n Hinc (repeat_length _ _) HE0)
    as (E0 & _).
  rewrite E0. cbn [bind]. clear E0.
  (* hospitalizations *)
  rewrite (subtract_scalar _ _ _ Hlh). cbn [bind]. rewrite Qh. cbn [bind].
  rewrite (split4_rows_blocks n _ (Hs _)). cbn [bind].
  destruct (block_lengths n _ (Hs (shifted time lh))) as (HEh & _).
  destruct (onset_series_Ok self _ _ _ n Hinc Hhp HEh) as (E1 & E2 & F).
  rewrite E1. cbn [bind]. rewrite E2. cbn [bind]. rewrite Hwh. cbn [bind].
  fold n. rewrite active_cases_Ok; auto.
  2:{ apply onset_series_nonempty, rows_of_nonempty, shifted_nonempty, Ht. }
  cbn [bind]. clear E1 E2 F.
  (* intensive care *)
  rewrite (subtract_scalar _ _ _ Hli). cbn [bind]. rewrite Qi. cbn [bind].
  rewrite (split4_rows_blocks n _ (Hs _)). cbn [bind].
  destruct (block_lengths n _ (Hs (shifted time li))) as (_ & HIi).
  destruct (onset_series_Ok self _ _ _ n Hinc Hip HIi) as (E1 & E2 & F).
  rewrite E1. cbn [bind]. rewrite E2. cbn [bind]. rewrite Hwi. cbn [bind].
  rewrite active_cases_Ok; auto.
  2:{ apply onset_series_nonempty, rows_of_nonempty, shifted_nonempty, Ht. }
  cbn [bind]. clear E1 E2 F.
  (* deaths *)
  rewrite (subtract_scalar _ _ _ Hld). cbn [bind]. rewrite Qd. cbn [bind].
  rewrite (split4_rows_blocks n _ (Hs _)). cbn [bind].
  destruct (block_lengths n _ (Hs (shifted time ld))) as (HEd & _).
  destruct (onset_series_Ok self _ _ _ n Hinc Hdp HEd) as (E1 & E2 & F).
  rewrite E1. cbn [bind]. rewrite E2. cbn [bind].
  reflexivity.
Qed.

End Evaluate.

(** ** Active ICU occupancy (claim C1) *)

Lemma example_setup_shaped (self : SEIR) (sol : Q -> list Q) :
  example_setup = Ok self ->
  shaped (with_solution self sol)
  /\ num_compartments self = 1%nat
  /\ exists y0, Y0 self = Some y0 /\ length y0 = 4%nat
                /\ map Qred y0 = [990000; 5000; 5000; 0].
Proof.
  intros H. vm_compute in H. injection H as <-.
  split; [ | split; [ reflexivity | ] ].
  - unfold shaped. simpl. repeat (split || constructor).
  - eexists. split; [ reflexivity | ]. split; reflexivity.
Qed.

Lemma arange_reaches (n k : nat) :
  (k < n)%nat -> reaches (arange n) (inject_Z (Z.of_nat k)).
Proof.
  intros H. apply Exists_exists. exists (inject_Z (Z.of_nat k)).
  split; [ | apply Qle_refl ].
  unfold arange.
  apply (in_map (fun j => inject_Z (Z.of_nat j)) (seq 0 n) k).
  apply in_seq. lia.
Qed.

Lemma nth_firstn_head {A} (n : nat) (l : list A) (d : A) :
  nth 0 (firstn (S n) l) d = nth 0 l d.
Proof. destruct l; reflexivity. Qed.

(** From day 27 on, every query of the example reaches the simulated
    interval: lags 6, 21 and 27. *)
Lemma example_queries_reach (n : nat) :
  (27 < n)%nat -> Forall (reaches (arange n)) [0; 6; 21; 27].
Proof.
  intros H. repeat apply Forall_cons; try apply Forall_nil.
  - apply (arange_reaches n 0). lia.
  - apply (arange_reaches n 6). lia.
  - apply (arange_reaches n 21). lia.
  - apply (arange_reaches n 27). lia.
Qed.

(** C1, at the failing input.  The example model, initial fractions 0.99,
    0.005, 0.005, any dense output of four entries per time, and the 28
    query times 0, 1, ..., 27, the shortest daily grid from day 0 on which
    every lagged query reaches the simulated interval.  On the first eleven
    days [evaluate_solution] returns as active ICU the onset series
    convolved with the 21-day hospitalization window: 55/3 at day 0, rising
    to 35 at day 10.  With the 7-day ICU window the series is 20/3 at day
    0 and stays at 35/3 from day 3 on.  The hospitalization series is the
    construction of the specification. *)
Theorem icu_series_uses_the_hospital_window (self : SEIR) (sol : Q -> list Q) :
  example_setup = Ok self ->
  (forall t, length (sol t) = 4%nat) ->
  exists out,
    evaluate_solution (with_solution self sol) (arange 28) = Ok out
    /\ firstn 11 (lowest_terms (ICU_active_cases out))
       = [[55 # 3]; [20]; [65 # 3]; [70 # 3]; [25]; [80 # 3]; [85 # 3]; [30];
          [95 # 3]; [100 # 3]; [35]]
    /\ (exists documented,
          documented_ICU_active_cases (with_solution self sol) (arange 28)
          = Ok documented
          /\ firstn 11 (lowest_terms documented)
             = [[20 # 3]; [25 # 3]; [10]; [35 # 3]; [35 # 3]; [35 # 3];
                [35 # 3]; [35 # 3]; [35 # 3]; [35 # 3]; [35 # 3]])
    /\ occupancy (with_solution self sol) (hospitalization_probability self)
         (hospitalization_lag_from_onset self) (hospitalization_duration self)
         (arange 28)
       = Ok (H_active_cases out).
Proof.
  intros Hsetup Hsol.
  destruct (example_setup_shaped self sol Hsetup) as (Hshaped & _ & _).
  vm_compute in Hsetup. injection Hsetup as <-.
  pose proof (example_queries_reach 28 ltac:(lia)) as Hreach.
  eexists. split; [ | split; [ | split ] ].
  - eapply (evaluate_solution_computes _ sol _ Hshaped eq_refl eq_refl eq_refl Hsol
              _ 6 21 27 (np.ones 21) (np.ones 7));
      first [ exact Hreach | reflexivity | discriminate ].
  - vm_compute. reflexivity.
  - eexists. split.
    + unfold documented_ICU_active_cases.
      eapply (occupancy_computes _ sol _ Hshaped eq_refl eq_refl eq_refl Hsol
                _ _ _ _ 21 (np.ones 7));
        first [ exact (arange_reaches 28 21 ltac:(lia)) | reflexivity
              | discriminate ].
    + vm_compute. reflexivity.
  - cbn [H_active_cases].
    eapply (occupancy_computes _ sol _ Hshaped eq_refl eq_refl eq_refl Hsol
              _ _ _ _ 6 (np.ones 21));
      first [ exact (arange_reaches 28 6 ltac:(lia)) | reflexivity
            | discriminate ].
Qed.

(** The same with a dense output that drifts away from the initial
    state. *)
Lemma icu_series_example :
  let sol := fun t : Q => map (Qplus t) [990000; 5000; 5000; 0] in
  exists self out,
    example_setup = Ok self
    /\ evaluate_solution (with_solution self sol) (arange 28) = Ok out
    /\ nth 0 (lowest_terms (ICU_active_cases out)) [] = [55 # 3]
    /\ exists documented,
         documented_ICU_active_cases (with_solution self sol) (arange 28)
         = Ok documented
         /\ nth 0 (lowest_terms documented) [] = [20 # 3].
Proof.
  intros sol.
  destruct example_setup as [self | e] eqn:E;
    [ | vm_compute in E; discriminate ].
  destruct (icu_series_uses_the_hospital_window self sol E (fun _ => eq_refl))
    as (out & Hev & Hicu & (documented & Hdoc & Hd) & _).
  exists self, out. split; [ reflexivity | ]. split; [ exact Hev | ].
  split.
  - rewrite <- (nth_firstn_head 10), Hicu. reflexivity.
  - exists documented. split; [ exact Hdoc | ].
    rewrite <- (nth_firstn_head 10), Hd. reflexivity.
Defined.

(** With other initial fractions (E = 0.004, I = 0.006) the second slip of
    the ICU series shows: it is built on block [2] of the solution, the
    infectious, and is 11 . 0.001 . 6000 / 3 = 22 at day 0; on the exposed
    it would be 11 . 0.001 . 4000 / 3. *)
Lemma icu_series_reads_the_infectious_block (self : SEIR) (sol : Q -> list Q) :
  (m <- __init__ example_config ;;
   set_initial_state m (PyFloat (99 # 100)) (PyFloat (4 # 1000))
     (PyFloat (6 # 1000)) true) = Ok self ->
  (forall t, length (sol t) = 4%nat) ->
  exists out,
    evaluate_solution (with_solution self sol) (arange 28) = Ok out
    /\ nth 0 (lowest_terms (ICU_active_cases out)) [] = [22].
Proof.
  intros Hsetup Hsol. vm_compute in Hsetup. injection Hsetup as <-.
  pose proof (example_queries_reach 28 ltac:(lia)) as Hreach.
  eexists. split.
  - match goal with
    | |- evaluate_solution ?s _ = _ =>
        assert (Hshaped : shaped s)
          by (unfold shaped; simpl; repeat (split || constructor));
        eapply (evaluate_solution_computes s sol _ Hshaped eq_refl eq_refl
                  eq_refl Hsol _ 6 21 27 (np.ones 21) (np.ones 7))
    end; first [ exact Hreach | reflexivity | discriminate ].
  - vm_compute. reflexivity.
Qed.

(** ** Day 0 of the end-to-end example (claim C10) *)

Lemma rows_of_negative_head sol y0 (t : Q) (time : list Q) :
  t < 0 -> rows_of sol y0 (t :: time) = y0 :: rows_of sol y0 time.
Proof.
  intros H. unfold rows_of. cbn [map filter length].
  rewrite (Qle_bool_neg _ H). cbn [filter].
  pose proof (filter_length_le (Qle_bool 0) time) as L.
  rewrite <- (count_nonzero_mask (Qle_bool 0)) in L.
  replace (S (length time)
           - length (filter (fun b : bool => b) (map (Qle_bool 0) time)))%nat
    with (S (length time
             - length (filter (fun b : bool => b) (map (Qle_bool 0) time))))
    by lia.
  reflexivity.
Qed.

Lemma stack_single_head (c : list Q) :
  c <> [] -> nth 0 (np.stack [c]) [] = [nth 0 c 0].
Proof. destruct c; [ congruence | reflexivity ]. Qed.

Lemma same_part_length (a v : list Q) :
  (length v <= length a)%nat -> length (np.same_part a v) = length a.
Proof.
  intros H. unfold np.same_part.
  destruct (Nat.ltb_spec (length a) (length v)); [ lia | ].
  now rewrite length_map, length_seq.
Qed.

Lemma same_part_head (a v : list Q) :
  (length v <= length a)%nat -> a <> [] ->
  nth 0 (np.same_part a v) 0 = np.convolve_full_at a v ((length v - 1) / 2).
Proof.
  intros H Ha. unfold np.same_part.
  destruct (Nat.ltb_spec (length a) (length v)); [ lia | ].
  destruct a; [ congruence | ]. reflexivity.
Qed.

Lemma onset_entry (row : list Q) (x p : Q) :
  length row = 4%nat ->
  nth 0 (np.zip_with (fun a p => p * a)
           (np.zip_with Qdiv (E_block 1 row) [x]) [p]) 0
  = p * (exposed row / x).
Proof.
  intros H. destruct row as [ | s [ | e [ | i [ | r [ | ] ] ] ] ];
    simpl in H; try discriminate. reflexivity.
Qed.

(** The example after any simulation whose dense output has four entries:
    [evaluate_solution] on the daily grid 0, 1, ..., 199 succeeds; the
    deaths at day 0 are the first term of the running sum, taken at time
    -27 and so from the initial state; the hospitalizations at day 0 are the
    sum of the first eleven terms of the lagged onset series, six of them
    from the initial state and five from the solution at days 0 to 4. *)
Lemma example_day_zero (self : SEIR) (sol : Q -> list Q) :
  example_setup = Ok self ->
  (forall t, length (sol t) = 4%nat) ->
  exists out,
    evaluate_solution (with_solution self sol) (arange 200) = Ok out
    /\ (exists d, nth 0 (deaths out) [] = [d] /\ d == 500 # 3)
    /\ (exists h, nth 0 (H_active_cases out) [] = [h]
          /\ h == 100 + (1 # 300)
                        * (exposed (sol 0) + exposed (sol 1) + exposed (sol 2)
                           + exposed (sol 3) + exposed (sol 4))).
Proof.
  intros Hsetup Hsol.
  destruct (example_setup_shaped self sol Hsetup) as (Hshaped & _ & _).
  vm_compute in Hsetup. injection Hsetup as <-.
  eexists. split; [ | split ].
  - eapply (evaluate_solution_computes _ sol _ Hshaped eq_refl eq_refl eq_refl Hsol
              _ 6 21 27 (np.ones 21) (np.ones 7));
      first [ exact (example_queries_reach 200 ltac:(lia)) | reflexivity
            | discriminate ].
  - cbn [deaths].
    match goal with |- context [rows_of sol ?y (shifted ?t ?l)] =>
      change (shifted t l) with ((0 - l) :: shifted (tl t) l) end.
    rewrite rows_of_negative_head by reflexivity.
    cbn [onset_series map np.cumsum nth].
    eexists. split.
    + cbn. reflexivity.
    + vm_compute. reflexivity.
  - cbn [H_active_cases]. cbn [num_compartments with_solution].
    unfold boxcar. cbn [seq map].
    match goal with |- context [np.same_part ?a ?w] =>
      set (a0 := a); set (w0 := w) end.
    assert (Ha : length a0 = 200%nat).
    { unfold a0, np.col, onset_series, shifted.
      rewrite !length_map, rows_of_length, length_map. reflexivity. }
    assert (Hfirst : firstn 11 a0
                     = let c := (1 # 100) * ((5000000 # 1000) / 3) in
                       let f := fun t => (1 # 100) * (exposed (sol t) / 3) in
                       [c; c; c; c; c; c; f 0; f 1; f 2; f 3; f 4]).
    { unfold a0, np.col, onset_series. rewrite map_map, firstn_map.
      match goal with |- context [firstn 11 (rows_of sol ?y ?t)] =>
        replace (firstn 11 (rows_of sol y t))
          with (repeat y 6 ++ map sol (arange 5))
          by (vm_compute; reflexivity)
      end.
      cbn [repeat app arange seq map hospitalization_probability
           incubation_period with_solution].
      rewrite !onset_entry by (first [ apply Hsol | reflexivity ]).
      reflexivity. }
    rewrite stack_single_head.
    2:{ intros E. apply (f_equal (@length _)) in E.
        rewrite same_part_length in E by (rewrite Ha; unfold w0; simpl; lia).
        rewrite Ha in E. discriminate. }
    eexists. split; [ reflexivity | ].
    rewrite same_part_head by (rewrite ?Ha; unfold w0; simpl; try lia; intros ->; discriminate).
    unfold np.convolve_full_at. rewrite Ha.
    match goal with |- context [filter ?p ?l] =>
      let r := eval vm_compute in (filter p l) in change (filter p l) with r end.
    cbn [map np.sum fold_right].
    change ((length w0 - 1) / 2)%nat with 10%nat.
    cbn [Nat.sub].
    assert (Hn : forall k, (k < 11)%nat -> nth k a0 0 = nth k (firstn 11 a0) 0).
    { intros k Hk. rewrite <- (firstn_skipn 11 a0) at 1.
      apply app_nth1. rewrite length_firstn, Ha. lia. }
    rewrite !Hn by lia. rewrite Hfirst. unfold w0.
    cbn [nth np.ones repeat].
    field.
Qed.

Lemma simulate_example solver (self self' : SEIR) :
  example_setup = Ok self -> simulate solver self 200 = Ok self' ->
  exists sol, self' = with_solution self sol.
Proof.
  intros Hsetup Hsim.
  destruct (example_setup_shaped self (fun _ => []) Hsetup)
    as (_ & _ & (y0 & Hy & _)).
  unfold simulate in Hsim. rewrite Hy in Hsim. step Hsim.
  injection Hsim as <-. eexists. reflexivity.
Qed.

(** C10, as the code has it.  In the end-to-end example, simulated for 200
    days by a solver whose dense output has the four entries of the state,
    [evaluate_solution] on the daily grid from day 0 returns, at day 0,
    cumulative deaths 0.1 . 5000 / 3 = 500/3 and active hospitalizations
    100 + (E(0) + E(1) + E(2) + E(3) + E(4)) / 300, E(t) being the exposed
    count of the solution at day t. *)
Theorem example_outcomes_at_day_zero solver (self self' : SEIR) :
  example_setup = Ok self ->
  simulate solver self 200 = Ok self' ->
  (forall sol, solution self' = Some sol -> forall t, length (sol t) = 4%nat) ->
  exists sol out,
    solution self' = Some sol
    /\ evaluate_solution self' (arange 200) = Ok out
    /\ (exists d, nth 0 (deaths out) [] = [d] /\ d == 500 # 3)
    /\ (exists h, nth 0 (H_active_cases out) [] = [h]
          /\ h == 100 + (1 # 300)
                        * (exposed (sol 0) + exposed (sol 1) + exposed (sol 2)
                           + exposed (sol 3) + exposed (sol 4))).
Proof.
  intros Hsetup Hsim Hshape.
  destruct (simulate_example _ _ _ Hsetup Hsim) as (sol & ->).
  destruct (example_day_zero self sol Hsetup (Hshape sol eq_refl))
    as (out & Hev & Hd & Hh).
  exists sol, out. auto.
Qed.

(** With a solver whose dense output stays at the initial state: 500/3
    deaths and 550/3 hospitalizations at day 0. *)
Lemma example_outcomes_with_constant_solver :
  exists self self' out d h,
    example_setup = Ok self
    /\ simulate constant_solver self 200 = Ok self'
    /\ evaluate_solution self' (arange 200) = Ok out
    /\ nth 0 (deaths out) [] = [d] /\ d == 500 # 3
    /\ nth 0 (H_active_cases out) [] = [h] /\ h == 550 # 3.
Proof.
  destruct example_setup as [self | e] eqn:E;
    [ | vm_compute in E; discriminate ].
  destruct (simulate constant_solver self 200) as [self' | e] eqn:Es.
  2:{ vm_compute in E. injection E as <-. discriminate. }
  assert (Hshape : forall sol, solution self' = Some sol ->
                   forall t, length (sol t) = 4%nat).
  { vm_compute in E. injection E as <-. injection Es as <-.
    intros sol Hs t. injection Hs as <-. reflexivity. }
  destruct (example_outcomes_at_day_zero constant_solver self self' E Es Hshape)
    as (sol & out & Hs & Hev & (d & Hd & Hd') & (h & Hh & Hh')).
  exists self, self', out, d, h.
  repeat (split; [ first [ reflexivity | assumption ] | ]).
  rewrite Hh'.
  vm_compute in E. injection E as <-. injection Es as <-.
  injection Hs as <-. vm_compute. reflexivity.
Defined.

(** C10 as stated fails: whatever the solver, the cumulative deaths that
    [evaluate_solution] returns at day 0 of the example are not 0. *)
Lemma example_deaths_at_day_zero_are_not_zero :
  ~ exists solver self self' out,
      example_setup = Ok self
      /\ simulate solver self 200 = Ok self'
      /\ (forall sol, solution self' = Some sol ->
          forall t, length (sol t) = 4%nat)
      /\ evaluate_solution self' (arange 200) = Ok out
      /\ nth 0 (nth 0 (deaths out) []) 0 == 0.
Proof.
  intros (solver & self & self' & out & Hsetup & Hsim & Hshape & Hev & Hz).
  destruct (simulate_example _ _ _ Hsetup Hsim) as (sol & ->).
  destruct (example_day_zero self sol Hsetup (Hshape sol eq_refl))
    as (out' & Hev' & (d & Hd & Hd') & _).
  rewrite Hev in Hev'. injection Hev' as <-.
  rewrite Hd in Hz. cbn [nth] in Hz. rewrite Hz in Hd'.
  vm_compute in Hd'. discriminate.
Qed.

(** * More of the model *)

(** ** Instances and their shape *)

Lemma init_num_compartments (c : Config) (self : SEIR) :
  __init__ c = Ok self ->
  num_compartments self = length (compartments self)
  /\ compartments self = compartments_of c.
Proof.
  unfold __init__. intros H. do 9 step H. injection H as <-. split; reflexivity.
Qed.

(** X1.  Every instance that [__init__], [set_initial_state] and [simulate]
    can produce, in any order and number, has at least one compartment, as
    many as it has labels, its six per-compartment vectors have that many
    entries and its infectivity matrix is square of that size. *)
Theorem constructed_instances_keep_their_shape (self : SEIR) :
  constructed self ->
  shaped self /\ num_compartments self = length (compartments self).
Proof.
  intros H. split; [ now apply constructed_shaped | ].
  induction H as [ c self H | self self' s e i p _ IH H
                 | solver self self' d _ IH H ].
  - now apply init_num_compartments in H.
  - unfold set_initial_state in H. do 3 step H. injection H as <-. exact IH.
  - unfold simulate in H. destruct (Y0 self); [ | discriminate ].
    step H. injection H as <-. exact IH.
Qed.

Lemma example_setup_constructed (self : SEIR) :
  example_setup = Ok self -> constructed self.
Proof.
  unfold example_setup. intros H. step H.
  eapply by_set_initial_state; [ eapply by_init; exact E | exact H ].
Qed.

(** The example after its setup and a simulation. *)
Lemma constructed_example :
  exists self self',
    example_setup = Ok self
    /\ simulate constant_solver self 200 = Ok self'
    /\ shaped self' /\ num_compartments self' = 1%nat.
Proof.
  destruct example_setup as [self | e] eqn:E;
    [ | vm_compute in E; discriminate ].
  destruct (simulate constant_solver self 200) as [self' | e] eqn:Es.
  2:{ vm_compute in E. injection E as <-. discriminate. }
  exists self, self'. split; [ reflexivity | ]. split; [ exact Es | ].
  destruct (constructed_instances_keep_their_shape self') as (Hs & Hn).
  { eapply by_simulate; [ apply example_setup_constructed; exact E | exact Es ]. }
  split; [ exact Hs | ]. rewrite Hn.
  vm_compute in E. injection E as <-. injection Es as <-. reflexivity.
Defined.

(** ** The solution on times in any order *)

Lemma filter_negative_rows sol y0 (time : list Q) :
  map (extended sol y0) (filter (fun t => negb (Qle_bool 0 t)) time)
  = repeat y0 (length time - length (filter (Qle_bool 0) time)).
Proof.
  induction time as [ | t time IH ]; [ reflexivity | ].
  pose proof (filter_length_le (Qle_bool 0) time) as L.
  cbn [filter]. destruct (Qle_bool 0 t) eqn:Et; cbn [negb length].
  - rewrite IH. reflexivity.
  - cbn [map]. rewrite IH.
    replace (S (length time) - length (filter (Qle_bool 0) time))%nat
      with (S (length time - length (filter (Qle_bool 0) time))) by lia.
    cbn [repeat]. f_equal. unfold extended.
    destruct (Qlt_le_dec t 0) as [ _ | P ]; [ reflexivity | ].
    apply Qle_bool_nonneg in P. congruence.
Qed.

Lemma filter_nonneg_rows sol y0 (time : list Q) :
  map (extended sol y0) (filter (Qle_bool 0) time)
  = map sol (filter (Qle_bool 0) time).
Proof.
  apply all_nonneg_extended. apply Forall_forall. intros t Ht.
  apply filter_In in Ht. destruct Ht as (_ & Ht). now apply Qle_bool_iff.
Qed.

(** X2.  Whatever the order of the query times, the stored solution, when
    its dense rows have the length of the initial state, answers in one of
    two ways.  With a query time at or after 0 it returns the rows of all
    the negative times first (each the initial state) and then the rows of
    the other times, each group in the order of the query: the rows follow
    the query only when no negative time comes after a time that is not.
    With no such time (the empty query among them) it raises
    [ValueError]. *)
Theorem solution_rows_put_negative_times_first
    (self : SEIR) (sol : Q -> list Q) (y0 : list Q) (time : list Q) :
  solution self = Some sol -> Y0 self = Some y0 ->
  (forall t, length (sol t) = length y0) ->
  (reaches time 0 ->
   SEIR_solution self time
   = Ok (map (extended sol y0)
           (filter (fun t => negb (Qle_bool 0 t)) time
            ++ filter (Qle_bool 0) time)))
  /\ (~ reaches time 0 -> SEIR_solution self time = Raise ValueError).
Proof.
  intros Hs Hy Hl. split.
  - intros Hr. rewrite (SEIR_solution_Ok self sol y0 time Hs Hy Hl Hr).
    unfold rows_of. rewrite count_nonzero_mask, map_app.
    now rewrite filter_negative_rows, filter_nonneg_rows.
  - intros Hn. apply (SEIR_solution_all_negative self sol y0 time Hs Hy).
    now apply not_reaches_all_negative.
Qed.

(** The example, simulated by a solver whose output drifts away from the
    initial state.  Asked for day 1 and then day -1, it answers with the
    initial state first and the state of day 1 second; asked for nothing,
    or for day -1 alone, it raises. *)
Lemma solution_rows_example :
  exists self self' y0,
    example_setup = Ok self
    /\ simulate drifting_solver self 200 = Ok self'
    /\ Y0 self' = Some y0
    /\ SEIR_solution self' [1; -1] = Ok [y0; map (Qplus 1) y0]
    /\ SEIR_solution self' [] = Raise ValueError
    /\ SEIR_solution self' [-1] = Raise ValueError.
Proof.
  destruct example_setup as [self | e] eqn:E;
    [ | vm_compute in E; discriminate ].
  destruct (simulate drifting_solver self 200) as [self' | e] eqn:Es.
  2:{ vm_compute in E. injection E as <-. discriminate. }
  destruct (Y0 self') as [y0 | ] eqn:Hy.
  2:{ vm_compute in E. injection E as <-. injection Es as <-. discriminate. }
  assert (Hs : solution self' = Some (fun t => map (Qplus t) y0)).
  { vm_compute in E. injection E as <-. injection Es as <-.
    injection Hy as <-. reflexivity. }
  assert (Hl : forall t : Q, length (map (Qplus t) y0) = length y0)
    by (intros t; apply length_map).
  exists self, self', y0.
  split; [ reflexivity | ]. split; [ exact Es | ].
  split; [ exact Hy | ]. split; [ | split ].
  - destruct (solution_rows_put_negative_times_first self' _ y0 [1; -1] Hs Hy Hl)
      as (H & _).
    rewrite H; [ reflexivity | ].
    apply Exists_cons_hd. unfold Qle; simpl; lia.
  - destruct (solution_rows_put_negative_times_first self' _ y0 [] Hs Hy Hl)
      as (_ & H).
    apply H. intros C. inversion C.
  - destruct (solution_rows_put_negative_times_first self' _ y0 [-1] Hs Hy Hl)
      as (_ & H).
    apply H. intros C. inversion C as [ ? ? C0 | ? ? C0 ]; subst.
    + unfold Qle in C0; simpl in C0; lia.
    + inversion C0.
Defined.

(** X3.  Before a simulation has succeeded there is no solution to
    evaluate: on an instance fresh from [__init__], and on what
    [set_initial_state] makes of it, [evaluate_solution] raises [TypeError]
    for every query. *)
Theorem evaluate_solution_needs_a_simulation (c : Config) (self : SEIR)
    (time : list Q) :
  __init__ c = Ok self ->
  evaluate_solution self time = Raise TypeError
  /\ forall s e i p self',
       set_initial_state self s e i p = Ok self' ->
       evaluate_solution self' time = Raise TypeError.
Proof.
  intros H.
  assert (Hs : solution self = None).
  { unfold __init__ in H. do 9 step H. injection H as <-. reflexivity. }
  split.
  - unfold evaluate_solution, SEIR_solution. rewrite Hs. reflexivity.
  - intros s e i p self' H'. unfold set_initial_state in H'.
    do 3 step H'. injection H' as <-.
    unfold evaluate_solution, SEIR_solution. cbn [solution with_Y0].
    rewrite Hs. reflexivity.
Qed.

Lemma evaluate_solution_needs_a_simulation_example :
  exists self, example_setup = Ok self
    /\ evaluate_solution self (arange 200) = Raise TypeError.
Proof.
  destruct (__init__ example_config) as [m | e] eqn:E;
    [ | vm_compute in E; discriminate ].
  destruct (evaluate_solution_needs_a_simulation example_config m (arange 200) E)
    as (_ & H).
  destruct example_setup as [self | e] eqn:Es;
    [ | vm_compute in Es; discriminate ].
  exists self. split; [ reflexivity | ].
  unfold example_setup in Es. rewrite E in Es. cbn [bind] in Es.
  exact (H _ _ _ _ _ Es).
Defined.

(** ** The initial state *)

Lemma firstn_exact (a b : list Q) (n : nat) :
  length a = n -> firstn n (a ++ b) = a.
Proof.
  intros <-. rewrite firstn_app, Nat.sub_diag, firstn_all. cbn [firstn].
  apply app_nil_r.
Qed.

Lemma skipn_exact (a b : list Q) (n : nat) :
  length a = n -> skipn n (a ++ b) = b.
Proof.
  intros <-. rewrite skipn_app, Nat.sub_diag, skipn_all. reflexivity.
Qed.

Lemma split4_of_blocks (a b c d : list Q) (n : nat) :
  length a = n -> length b = n -> length c = n -> length d = n ->
  np.split4 (a ++ b ++ c ++ d) = Ok (a, b, c, d).
Proof.
  intros Ha Hb Hc Hd.
  assert (HY : length (a ++ b ++ c ++ d) = (4 * n)%nat)
    by (rewrite !length_app; lia).
  destruct (split4_blocks _ n HY) as (-> & _).
  unfold S_block, E_block, I_block, R_block.
  rewrite (firstn_exact a _ n Ha), (skipn_exact a _ n Ha).
  rewrite (firstn_exact b _ n Hb).
  replace (2 * n)%nat with (n + n)%nat by lia.
  replace (3 * n)%nat with (n + (n + n))%nat by lia.
  rewrite <- !skipn_skipn.
  rewrite !(skipn_exact a _ n Ha), !(skipn_exact b _ n Hb).
  rewrite (firstn_exact c _ n Hc), (skipn_exact c _ n Hc).
  reflexivity.
Qed.

(** X4.  Raw counts given as three vectors are stored as they are: when
    [set_initial_state] accepts them, the state it stores has 4N entries and
    splitting it in four, as the derivative law does, gives back the three
    vectors and N zeros for R. *)
Theorem raw_initial_state_round_trip (self self' : SEIR) (s e i : list Q) :
  set_initial_state self (NdArray s) (NdArray e) (NdArray i) false = Ok self' ->
  exists y0,
    Y0 self' = Some y0
    /\ length y0 = (4 * num_compartments self)%nat
    /\ np.split4 y0 = Ok (s, e, i, np.zeros (num_compartments self)).
Proof.
  rewrite set_initial_state_raw_vectors. intros H.
  destruct (length s =? _)%nat eqn:Hs; [ | discriminate ].
  destruct (length e =? _)%nat eqn:He; [ | discriminate ].
  destruct (length i =? _)%nat eqn:Hi; [ | discriminate ].
  apply Nat.eqb_eq in Hs, He, Hi. cbn [andb] in H. injection H as <-.
  eexists. split; [ reflexivity | ].
  assert (Hz : length (np.zeros (num_compartments self)) = num_compartments self)
    by apply repeat_length.
  split.
  - rewrite !length_app. lia.
  - now apply (split4_of_blocks _ _ _ _ (num_compartments self)).
Qed.

Lemma raw_initial_state_example :
  exists self self' y0,
    __init__ example_config = Ok self
    /\ set_initial_state self (NdArray [990000]) (NdArray [5000])
         (NdArray [5000]) false = Ok self'
    /\ Y0 self' = Some y0
    /\ np.split4 y0 = Ok ([990000], [5000], [5000], [0]).
Proof.
  destruct (__init__ example_config) as [self | e] eqn:E;
    [ | vm_compute in E; discriminate ].
  destruct (set_initial_state self (NdArray [990000]) (NdArray [5000])
              (NdArray [5000]) false) as [self' | e] eqn:Es.
  2:{ vm_compute in E. injection E as <-. discriminate. }
  destruct (raw_initial_state_round_trip _ _ _ _ _ Es) as (y0 & Hy & _ & Hsp).
  exists self, self', y0.
  split; [ reflexivity | ]. split; [ exact Es | ]. split; [ exact Hy | ].
  rewrite Hsp. vm_compute in E. injection E as <-. reflexivity.
Defined.

Lemma scalar_fraction_block (self : SEIR) (x : num) (f : Q) :
  np.scalar x = Some f ->
  initial_block self x true = Ok (map (Qmult f) (population self)).
Proof.
  destruct x; simpl; intros H; try discriminate; injection H as <-; reflexivity.
Qed.

(** X5.  Fractions given as scalars always go through, and the state they
    give has, in every compartment, S + E + I + R equal to the sum of the
    three fractions times the population of the compartment (its whole
    population when the fractions add up to 1), with R = 0. *)
Theorem initial_fractions_scale_the_population (self : SEIR) (s e i : num)
    (fs fe fi : Q) :
  constructed self ->
  np.scalar s = Some fs -> np.scalar e = Some fe -> np.scalar i = Some fi ->
  let n := num_compartments self in
  exists self' y0,
    set_initial_state self s e i true = Ok self'
    /\ Y0 self' = Some y0
    /\ length y0 = (4 * n)%nat
    /\ forall k, (k < n)%nat ->
         nth (3 * n + k) y0 0 = 0
         /\ rates_total n y0 k == (fs + fe + fi) * nth k (population self) 0.
Proof.
  intros Hc Hs He Hi n.
  destruct (constructed_shaped _ Hc) as (Hvec & _).
  assert (Hpop : length (population self) = n)
    by (rewrite Forall_forall in Hvec; apply Hvec; simpl; tauto).
  unfold set_initial_state.
  rewrite (scalar_fraction_block _ _ _ Hs), (scalar_fraction_block _ _ _ He),
    (scalar_fraction_block _ _ _ Hi). cbn [bind].
  eexists _, _. split; [ reflexivity | ]. split; [ reflexivity | ].
  fold n. unfold np.zeros. split.
  - rewrite !length_app, !length_map, repeat_length. lia.
  - intros k Hk. split.
    + rewrite !app_nth2 by (rewrite ?length_map; lia).
      rewrite !length_map, Hpop.
      replace (3 * n + k - n - n - n)%nat with k by lia.
      apply nth_repeat.
    + rewrite rates_total_blocks by (rewrite ?length_map; lia).
      rewrite !(nth_map_in _ 0) by lia. rewrite nth_repeat. ring.
Qed.

(** The example: 0.99 + 0.005 + 0.005 of a million people. *)
Lemma initial_fractions_example :
  exists self self' y0,
    __init__ example_config = Ok self
    /\ set_initial_state self (PyFloat (99 # 100)) (PyFloat (5 # 1000))
         (PyFloat (5 # 1000)) true = Ok self'
    /\ Y0 self' = Some y0
    /\ rates_total 1 y0 0 == 1000000.
Proof.
  destruct (__init__ example_config) as [self | e] eqn:E;
    [ | vm_compute in E; discriminate ].
  destruct (initial_fractions_scale_the_population self
              (PyFloat (99 # 100)) (PyFloat (5 # 1000)) (PyFloat (5 # 1000))
              (99 # 100) (5 # 1000) (5 # 1000)
              (by_init _ _ E) eq_refl eq_refl eq_refl)
    as (self' & y0 & Hs & Hy & _ & Hk).
  exists self, self', y0.
  split; [ reflexivity | ]. split; [ exact Hs | ]. split; [ exact Hy | ].
  assert (N1 : num_compartments self = 1%nat)
    by (vm_compute in E; injection E as <-; reflexivity).
  rewrite N1 in Hk. destruct (Hk 0%nat ltac:(lia)) as (_ & ->).
  vm_compute in E. injection E as <-. vm_compute. reflexivity.
Defined.

(** X6.  The stored solution reads the initial state of the instance when
    it is asked, not when it was computed: after a simulation, a new
    [set_initial_state] leaves the dense output of the old simulation in
    place.  On ascending times with one at or after 0, and when the new
    state has the length of the dense rows, the queries at negative times
    return the new state.  When a dense row that is asked for has another
    length than the new state, the query raises [ValueError]; so it does
    when all the times are negative. *)
Theorem later_initial_state_shows_at_negative_times
    solver (self self1 self2 : SEIR) (days : Q) (s e i : num) (p : bool)
    (time : list Q) :
  simulate solver self days = Ok self1 ->
  set_initial_state self1 s e i p = Ok self2 ->
  Sorted Qle time ->
  exists sol y0 y1,
    Y0 self = Some y0
    /\ solver (__call__ self) days y0 = Ok sol
    /\ Y0 self2 = Some y1
    /\ solution self2 = Some sol
    /\ (reaches time 0 -> (forall t, length (sol t) = length y1) ->
        SEIR_solution self2 time = Ok (map (extended sol y1) time))
    /\ (forall t, In t time -> 0 <= t -> length (sol t) <> length y1 ->
        SEIR_solution self2 time = Raise ValueError)
    /\ (Forall (fun t => t < 0) time ->
        SEIR_solution self2 time = Raise ValueError).
Proof.
  intros Hsim Hset Hsorted. unfold simulate in Hsim.
  destruct (Y0 self) as [y0 | ] eqn:Hy; [ | discriminate ].
  step Hsim. injection Hsim as <-. rename a into sol.
  unfold set_initial_state in Hset. do 3 step Hset. injection Hset as <-.
  eexists sol, y0, _. split; [ reflexivity | ]. split; [ exact E | ].
  split; [ reflexivity | ]. split; [ reflexivity | ].
  split; [ | split ].
  - intros Hr Hl. now apply solution_query_on_ascending_times.
  - intros t Hin Ht Hl.
    eapply (SEIR_solution_other_length _ sol _ time t);
      first [ reflexivity | eassumption ].
  - intros Hneg.
    eapply (SEIR_solution_all_negative _ sol _ time);
      first [ reflexivity | eassumption ].
Qed.

(** The example, simulated by a solver whose output drifts away from the
    initial state, then set to half susceptible, a quarter exposed and a
    quarter infectious: day -1 is the new state, day 1 the old solution.
    Set instead to three fractions each, a state of ten entries, the same
    query raises. *)
Lemma later_initial_state_example :
  exists self self1 self2 self3 rows,
    example_setup = Ok self
    /\ simulate drifting_solver self 200 = Ok self1
    /\ set_initial_state self1 (PyFloat (1 # 2)) (PyFloat (1 # 4))
         (PyFloat (1 # 4)) true = Ok self2
    /\ SEIR_solution self2 [-1; 1] = Ok rows
    /\ map (map Qred) rows
       = [[500000; 250000; 250000; 0]; [990001; 5001; 5001; 1]]
    /\ set_initial_state self1 (NdArray [1 # 2; 1 # 2; 1 # 2])
         (NdArray [1 # 4; 1 # 4; 1 # 4]) (NdArray [1 # 4; 1 # 4; 1 # 4]) true
       = Ok self3
    /\ SEIR_solution self3 [-1; 1] = Raise ValueError.
Proof.
  destruct example_setup as [self | e] eqn:E;
    [ | vm_compute in E; discriminate ].
  destruct (simulate drifting_solver self 200) as [self1 | e] eqn:Es.
  2:{ vm_compute in E. injection E as <-. discriminate. }
  destruct (set_initial_state self1 (PyFloat (1 # 2)) (PyFloat (1 # 4))
              (PyFloat (1 # 4)) true) as [self2 | e] eqn:Es2.
  2:{ vm_compute in E. injection E as <-. injection Es as <-. discriminate. }
  destruct (set_initial_state self1 (NdArray [1 # 2; 1 # 2; 1 # 2])
              (NdArray [1 # 4; 1 # 4; 1 # 4]) (NdArray [1 # 4; 1 # 4; 1 # 4])
              true) as [self3 | e] eqn:Es3.
  2:{ vm_compute in E. injection E as <-. injection Es as <-. discriminate. }
  assert (Hsorted : Sorted Qle [-1; 1]).
  { repeat constructor; unfold Qle; simpl; lia. }
  destruct (later_initial_state_shows_at_negative_times drifting_solver
              self self1 self2 200 _ _ _ _ [-1; 1] Es Es2 Hsorted)
    as (sol & y0 & y1 & Hy & Hsol & Hy1 & _ & Hq & _).
  destruct (later_initial_state_shows_at_negative_times drifting_solver
              self self1 self3 200 _ _ _ _ [-1; 1] Es Es3 Hsorted)
    as (sol' & y0' & y3 & Hy' & Hsol' & Hy3 & _ & _ & Hother & _).
  vm_compute in E. injection E as <-. injection Es as <-.
  injection Es2 as <-. injection Es3 as <-.
  injection Hy as <-. injection Hsol as <-. injection Hy1 as <-.
  injection Hy' as <-. injection Hsol' as <-. injection Hy3 as <-.
  eexists _, _, _, _, _.
  split; [ reflexivity | ]. split; [ reflexivity | ].
  split; [ reflexivity | ]. split; [ | split; [ | split ] ].
  - apply Hq; [ | intros t; reflexivity ].
    apply Exists_cons_tl, Exists_cons_hd. unfold Qle; simpl; lia.
  - vm_compute. reflexivity.
  - reflexivity.
  - apply (Hother 1); [ simpl; tauto | unfold Qle; simpl; lia | ].
    simpl. discriminate.
Defined.

(** ** The derivative law on other inputs *)

Lemma broadcast_raises f (xs ys : list Q) (e : exn) :
  np.broadcast f xs ys = Raise e -> e = ValueError.
Proof.
  unfold np.broadcast. destruct (length xs =? length ys)%nat; [ discriminate | ].
  destruct xs as [ | x [ | ] ]; destruct ys as [ | y [ | ] ]; try discriminate;
    intros H; injection H as <-; reflexivity.
Qed.

(** X7.  The derivative law takes state vectors of 4N entries and no
    others: on a constructed instance without restriction function, a state
    vector of any other length raises [ValueError] ([np.split] when the
    length is no multiple of 4, the broadcast against the population or the
    product with the infectivity matrix when it is). *)
Theorem derivative_law_rejects_other_lengths (self : SEIR) (t : Q) (Y : list Q) :
  constructed self ->
  restrictions_function self = None ->
  length Y <> (4 * num_compartments self)%nat ->
  __call__ self t Y = Raise ValueError.
Proof.
  intros Hc Hr HY.
  destruct (constructed_shaped _ Hc) as (_ & HlM & Hrows & _).
  unfold __call__. rewrite Hr. cbn [bind]. unfold rates, np.split4.
  destruct (length Y mod 4 =? 0)%nat eqn:Hmod; [ | reflexivity ].
  apply Nat.eqb_eq in Hmod. cbn [bind].
  set (k := (length Y / 4)%nat).
  assert (Hk : length Y = (4 * k)%nat).
  { unfold k. pose proof (Nat.div_mod_eq (length Y) 4). lia. }
  destruct (np.broadcast Qdiv (firstn k Y) (population self)) as [ s_frac | e ] eqn:Eb.
  2:{ apply broadcast_raises in Eb. subst e. reflexivity. }
  cbn [bind]. unfold np.matvec.
  rewrite (shape1_square _ _ HlM Hrows), length_firstn, length_skipn.
  destruct (Nat.eqb_spec (num_compartments self) (Nat.min k (length Y - 2 * k)));
    [ lia | reflexivity ].
Qed.

(** The example has one compartment: a state of eight entries is refused. *)
Lemma derivative_law_rejects_example :
  exists self, __init__ example_config = Ok self
    /\ __call__ self 0 [1; 2; 3; 4; 5; 6; 7; 8] = Raise ValueError.
Proof.
  destruct (__init__ example_config) as [self | e] eqn:E;
    [ | vm_compute in E; discriminate ].
  exists self. split; [ reflexivity | ].
  apply derivative_law_rejects_other_lengths.
  - eapply by_init; exact E.
  - vm_compute in E. injection E as <-. reflexivity.
  - vm_compute in E. injection E as <-. simpl. lia.
Defined.

(** X8.  An imported-cases function whose first vector has neither N
    entries nor one does not broadcast into the S rates: the derivative law
    raises [ValueError]. *)
Theorem imported_cases_of_other_length_raise (self : SEIR) (t : Q) (Y : list Q)
    imported (DS : list Q) (DE DI : num) :
  constructed self ->
  restrictions_function self = None ->
  imported_cases_function self = Some imported ->
  imported t = (NdArray DS, DE, DI) ->
  length Y = (4 * num_compartments self)%nat ->
  length DS <> num_compartments self -> length DS <> 1%nat ->
  __call__ self t Y = Raise ValueError.
Proof.
  intros Hc Hr Hi Himp HY Hn H1.
  unfold __call__. rewrite Hr. cbn [bind].
  rewrite (rates_closed self t Y (constructed_shaped _ Hc) HY).
  cbv zeta. rewrite Hi, Himp. cbn [np.iadd].
  rewrite length_map, length_seq.
  destruct (Nat.eqb_spec (length DS) (num_compartments self)); [ contradiction | ].
  destruct DS as [ | d [ | ] ]; simpl in H1; try reflexivity. lia.
Qed.

Lemma imported_cases_of_other_length_example :
  let seeded := with_functions example_config None
                  (Some (fun _ => (NdArray [1; 2], NdArray [0], NdArray [0]))) in
  exists self, __init__ seeded = Ok self
    /\ __call__ self 0 [990000; 5000; 5000; 0] = Raise ValueError.
Proof.
  intros seeded.
  destruct (__init__ seeded) as [self | e] eqn:E;
    [ | vm_compute in E; discriminate ].
  exists self. split; [ reflexivity | ].
  pose proof E as E'. vm_compute in E'. injection E' as <-.
  eapply (imported_cases_of_other_length_raise _ 0 _ _ [1; 2]);
    [ eapply by_init; exact E | reflexivity | reflexivity | reflexivity
    | reflexivity | simpl; lia | simpl; lia ].
Defined.

Lemma nth_all_zero (l : list Q) (i : nat) :
  Forall (fun q => q == 0) l -> nth i l 0 == 0.
Proof.
  intros H. revert i. induction H as [ | q l Hq _ IH ]; intros [ | i ]; simpl;
    auto; reflexivity.
Qed.

Lemma dot_all_zero (u v : list Q) :
  Forall (fun q => q == 0) v -> np.dot u v == 0.
Proof.
  intros H. revert u. unfold np.dot.
  induction H as [ | q v Hq _ IH ]; intros [ | x u ]; simpl; try reflexivity.
  rewrite Hq, IH. ring.
Qed.

(** X9.  A state without exposed and without infectious people is at rest:
    on a constructed instance with neither restriction nor imported cases,
    the derivative law returns the rate 0 for every entry, whatever the
    susceptible and removed counts. *)
Theorem disease_free_state_is_at_rest (self : SEIR) (t : Q) (Y : list Q) :
  constructed self ->
  restrictions_function self = None ->
  imported_cases_function self = None ->
  length Y = (4 * num_compartments self)%nat ->
  Forall (fun q => q == 0) (E_block (num_compartments self) Y) ->
  Forall (fun q => q == 0) (I_block (num_compartments self) Y) ->
  exists dY,
    __call__ self t Y = Ok dY
    /\ length dY = (4 * num_compartments self)%nat
    /\ Forall (fun q => q == 0) dY.
Proof.
  intros Hc Hr Hi HY HE HI.
  unfold __call__. rewrite Hr. cbn [bind].
  rewrite (rates_closed self t Y (constructed_shaped _ Hc) HY).
  cbv zeta. rewrite Hi. eexists. split; [ reflexivity | ].
  unfold derivative_law. split.
  - rewrite !length_app, !length_map, !length_seq. lia.
  - assert (ZS : forall k, dS self Y k == 0).
    { intros k. unfold dS. rewrite (dot_all_zero _ _ HI). ring. }
    assert (ZE : forall k, nth k (E_block (num_compartments self) Y) 0
                           / nth k (incubation_period self) 0 == 0).
    { intros k. unfold Qdiv. rewrite (nth_all_zero _ k HE). ring. }
    assert (ZI : forall k, nth k (I_block (num_compartments self) Y) 0
                           / nth k (infectious_period self) 0 == 0).
    { intros k. unfold Qdiv. rewrite (nth_all_zero _ k HI). ring. }
    apply Forall_app; split;
      [ | apply Forall_app; split; [ | apply Forall_app; split ] ];
      apply Forall_forall; intros q Hq; apply in_map_iff in Hq;
      destruct Hq as (k & <- & _).
    + apply ZS.
    + unfold dE. rewrite ZS, ZE. ring.
    + unfold dI. rewrite ZE, ZI. ring.
    + unfold dR. apply ZI.
Qed.

(** A million susceptible people and nobody else. *)
Lemma disease_free_example :
  exists self dY,
    __init__ example_config = Ok self
    /\ __call__ self 0 [1000000; 0; 0; 0] = Ok dY
    /\ Forall (fun q => q == 0) dY.
Proof.
  destruct (__init__ example_config) as [self | e] eqn:E;
    [ | vm_compute in E; discriminate ].
  pose proof E as E'. vm_compute in E'. injection E' as <-.
  destruct (disease_free_state_is_at_rest _ 0 [1000000; 0; 0; 0]
              (by_init _ _ E) eq_refl eq_refl eq_refl)
    as (dY & H & _ & Hz).
  - repeat constructor.
  - repeat constructor.
  - eexists _, dY. split; [ reflexivity | ]. split; [ exact H | exact Hz ].
Defined.

(** ** The infectivity matrix under homogeneous mixing *)

Lemma sum_all_equal (l : list Q) (c : Q) :
  Forall (fun q => q == c) l ->
  np.sum l == inject_Z (Z.of_nat (length l)) * c.
Proof.
  unfold np.sum. induction 1 as [ | q l Hq _ IH ].
  - simpl. ring.
  - cbn [fold_right length]. rewrite IH, Hq, Nat2Z.inj_succ.
    unfold Z.succ. rewrite inject_Z_plus. ring.
Qed.

Lemma dot_ones (v : list Q) : np.dot v (np.ones (length v)) == np.sum v.
Proof.
  unfold np.dot, np.sum, np.ones. induction v as [ | x v IH ]; simpl.
  - reflexivity.
  - fold (np.sum (np.zip_with Qmult v (repeat 1 (length v)))) in *.
    unfold np.sum in *. rewrite IH. ring.
Qed.

Lemma col_ones2 (n j : nat) : (j < n)%nat -> np.col j (np.ones2 n n) = np.ones n.
Proof.
  intros H. unfold np.col, np.ones2, np.ones.
  rewrite map_repeat. now rewrite nth_repeat_lt.
Qed.

Lemma contact_throughput_ones2 (pop : list Q) (n : nat) :
  length pop = n ->
  contact_throughput pop (np.ones2 n n) == inject_Z (Z.of_nat n) * np.sum pop.
Proof.
  intros Hp. unfold contact_throughput.
  rewrite (shape1_square _ n) by apply ones2_shape.
  rewrite (sum_all_equal _ (np.sum pop)).
  - now rewrite length_map, length_seq.
  - apply Forall_forall. intros q Hq. apply in_map_iff in Hq.
    destruct Hq as (j & <- & Hj). apply in_seq in Hj.
    rewrite col_ones2 by lia. rewrite <- Hp. apply dot_ones.
Qed.

Lemma init_infectivity_entries (c : Config) (self : SEIR) (C : matrix) :
  __init__ c = Ok self ->
  contacts_of (length (compartments_of c)) (arg_contacts_matrix c) = Ok C ->
  forall i j, (i < num_compartments self)%nat -> (j < num_compartments self)%nat ->
    entry i j (infectivity_matrix self) = column_factor self C j * entry i j C.
Proof.
  intros Hinit HC i j Hi Hj.
  pose proof (init_Ok _ _ Hinit)
    as (A & (C' & HC' & Hm) & Hn & _ & Hinf & _ & _ & _ & Hp & HR & _).
  rewrite HC in HC'. injection HC' as <-.
  unfold sizes_accepted in A.
  repeat (apply andb_prop in A; destruct A as [A ?]).
  destruct (contacts_of_shape _ _ _ HC) as (HlC & Hrows).
  unfold column_factor. rewrite Hinf, Hp, HR. rewrite Hn in Hi, Hj.
  eapply (compute_infectivity_entries _ _ _ _ _ (length (compartments_of c)));
    eauto.
  - now apply broadcast_to_length.
  - apply broadcast_to_length. now apply population_sized_scalar_or_sized.
Qed.

(** X10.  Without a contact matrix (homogeneous mixing) and with a total
    population that is not zero, entry [i][j] of the infectivity matrix is
    R0 / (N . infectious_period_j): it depends on the population neither in
    size nor in distribution. *)
Theorem homogeneous_mixing_infectivity (c : Config) (self : SEIR) :
  __init__ c = Ok self ->
  arg_contacts_matrix c = None ->
  ~ np.sum (population self) == 0 ->
  let n := num_compartments self in
  forall i j, (i < n)%nat -> (j < n)%nat ->
    entry i j (infectivity_matrix self)
    == 1 / nth j (infectious_period self) 0 * initial_R0 self
       / inject_Z (Z.of_nat n).
Proof.
  intros Hinit Hcm Hpop n i j Hi Hj.
  pose proof (init_Ok _ _ Hinit) as (_ & _ & Hn & _).
  destruct (init_shaped _ _ Hinit) as (Hvec & _ & _ & Hn1).
  assert (Hlp : length (population self) = n)
    by (rewrite Forall_forall in Hvec; apply Hvec; simpl; tauto).
  assert (HC : contacts_of (length (compartments_of c)) (arg_contacts_matrix c)
               = Ok (np.ones2 n n)).
  { rewrite Hcm. unfold n. rewrite Hn. reflexivity. }
  rewrite (init_infectivity_entries _ _ _ Hinit HC i j Hi Hj).
  unfold column_factor. rewrite (contact_throughput_ones2 _ n Hlp).
  assert (E1 : entry i j (np.ones2 n n) = 1).
  { unfold entry, np.ones2, np.ones. rewrite nth_repeat_lt by assumption.
    now rewrite nth_repeat_lt. }
  rewrite E1.
  set (a := 1 / nth j (infectious_period self) 0).
  assert (Hnz : ~ inject_Z (Z.of_nat n) == 0).
  { unfold Qeq. simpl. fold n in Hn1. lia. }
  field. split; assumption.
Qed.

(** The two age bands of the demonstration with infectious periods of 7 and
    14 days. *)
Lemma homogeneous_mixing_example :
  let config := with_groups example_config two_bands
                  (NdArray [2500000; 1000000]) (NdArray [7; 14]) None in
  exists self, __init__ config = Ok self
    /\ entry 0 1 (infectivity_matrix self) == 23 # 280.
Proof.
  intros config.
  destruct (__init__ config) as [self | e] eqn:E;
    [ | vm_compute in E; discriminate ].
  exists self. split; [ reflexivity | ].
  pose proof E as E'. vm_compute in E'. injection E' as <-.
  rewrite (homogeneous_mixing_infectivity config _ E eq_refl);
    [ reflexivity | discriminate | simpl; lia | simpl; lia ].
Defined.

(** X11.  With a single compartment the contact value cancels: whatever
    1 x 1 contact matrix the construction accepted, or none, the one entry
    of the infectivity matrix is R0 / infectious_period, provided the
    population is not zero. *)
Theorem single_compartment_infectivity (c : Config) (self : SEIR) :
  __init__ c = Ok self ->
  num_compartments self = 1%nat ->
  ~ nth 0 (population self) 0 == 0 ->
  entry 0 0 (infectivity_matrix self)
  == 1 / nth 0 (infectious_period self) 0 * initial_R0 self.
Proof.
  intros Hinit N1 Hpop.
  pose proof (init_Ok _ _ Hinit) as (_ & (C & HC & _) & Hn & _).
  destruct (init_shaped _ _ Hinit) as (Hvec & _).
  assert (Hlp : length (population self) = 1%nat).
  { rewrite <- N1. rewrite Forall_forall in Hvec. apply Hvec. simpl. tauto. }
  rewrite (init_infectivity_entries _ _ _ Hinit HC 0%nat 0%nat) by lia.
  rewrite <- Hn, N1 in HC.
  assert (HCx : exists x, C = [[x]] /\ ~ x == 0).
  { destruct (contacts_of_accepted _ _ _ HC) as [-> | (_ & T & H0 & H1)].
    - exists 1. split; [ reflexivity | discriminate ].
    - destruct C as [ | row [ | ] ]; try discriminate.
      destruct row as [ | x [ | ] ]; try discriminate.
      exists x. split; [ reflexivity | ].
      unfold np.truth in T. cbn in T. injection T as T.
      apply Qeq_bool_neq. now destruct (Qeq_bool x 0). }
  destruct HCx as (x & -> & Hx).
  unfold column_factor, contact_throughput.
  destruct (population self) as [ | q [ | ] ]; try discriminate.
  cbn [nth] in Hpop.
  cbn [np.shape1 length seq map np.col np.dot np.zip_with np.sum fold_right
       entry nth].
  set (a := 1 / nth 0 (infectious_period self) 0).
  field. split; assumption.
Qed.

(** The example with five daily contacts: 2.3 / 7 all the same. *)
Lemma single_compartment_example :
  exists self, __init__ example_with_contact_value = Ok self
    /\ entry 0 0 (infectivity_matrix self) == 23 # 70.
Proof.
  destruct (__init__ example_with_contact_value) as [self | e] eqn:E;
    [ | vm_compute in E; discriminate ].
  exists self. split; [ reflexivity | ].
  pose proof E as E'. vm_compute in E'. injection E' as <-.
  rewrite (single_compartment_infectivity _ _ E);
    [ reflexivity | reflexivity | discriminate ].
Defined.

(** ** The outcome series *)

Lemma same_part_length_max (a v : list Q) :
  length (np.same_part a v) = Nat.max (length a) (length v).
Proof.
  unfold np.same_part.
  destruct (Nat.ltb_spec (length a) (length v));
    rewrite length_map, length_seq; lia.
Qed.

Lemma boxcar_shape (n : nat) (series : matrix) (w : list Q) :
  (1 <= n)%nat ->
  length (boxcar n series w) = Nat.max (length series) (length w)
  /\ Forall (fun row => length row = n) (boxcar n series w).
Proof.
  intros Hn. unfold boxcar, np.stack. split.
  - rewrite length_map, length_seq.
    destruct n as [ | n ]; [ lia | ]. cbn [seq map hd].
    rewrite same_part_length_max. unfold np.col. now rewrite length_map.
  - apply Forall_forall. intros row Hr. apply in_map_iff in Hr.
    destruct Hr as (k & <- & _). now rewrite !length_map, length_seq.
Qed.

Lemma cumsum_from_length (acc : list Q) (M : matrix) :
  length (np.cumsum_from acc M) = length M.
Proof.
  revert acc. induction M as [ | row M IH ]; intros acc; simpl; auto.
Qed.

Lemma cumsum_length (M : matrix) : length (np.cumsum M) = length M.
Proof. destruct M; simpl; [ | rewrite cumsum_from_length ]; reflexivity. Qed.

Lemma cumsum_from_rows (n : nat) (acc : list Q) (M : matrix) :
  length acc = n -> Forall (fun row => length row = n) M ->
  Forall (fun row => length row = n) (np.cumsum_from acc M).
Proof.
  intros Ha H. revert acc Ha.
  induction H as [ | row M Hr _ IH ]; intros acc Ha; simpl; constructor.
  - rewrite zip_with_length. lia.
  - apply IH. rewrite zip_with_length. lia.
Qed.

Lemma cumsum_rows (n : nat) (M : matrix) :
  Forall (fun row => length row = n) M ->
  Forall (fun row => length row = n) (np.cumsum M).
Proof.
  intros H. destruct H as [ | row M Hr H ]; simpl; constructor; auto.
  now apply cumsum_from_rows.
Qed.

Lemma cumsum_from_step (acc : list Q) (M : matrix) (k : nat) :
  (S k < length M)%nat ->
  nth (S k) (np.cumsum_from acc M) []
  = np.zip_with Qplus (nth k (np.cumsum_from acc M) []) (nth (S k) M []).
Proof.
  revert acc k. induction M as [ | row M IH ]; intros acc k H; simpl in H;
    [ lia | ].
  cbn [np.cumsum_from]. cbn [nth].
  destruct k as [ | k ].
  - destruct M as [ | row' M ]; simpl in H; [ lia | ]. reflexivity.
  - rewrite IH by lia. reflexivity.
Qed.

Lemma cumsum_step (M : matrix) (k : nat) :
  (S k < length M)%nat ->
  nth (S k) (np.cumsum M) []
  = np.zip_with Qplus (nth k (np.cumsum M) []) (nth (S k) M []).
Proof.
  destruct M as [ | row M ]; intros H; simpl in H; [ lia | ].
  cbn [np.cumsum nth]. destruct k as [ | k ].
  - destruct M as [ | row' M ]; simpl in H; [ lia | ]. reflexivity.
  - rewrite cumsum_from_step by lia. reflexivity.
Qed.

Lemma nth_nonneg (l : list Q) (i : nat) :
  Forall (fun q => 0 <= q) l -> 0 <= nth i l 0.
Proof.
  intros H. revert i. induction H as [ | q l Hq _ IH ]; intros [ | i ]; simpl;
    auto; apply Qle_refl.
Qed.

Lemma firstn_nonneg (n : nat) (l : list Q) :
  Forall (fun q => 0 <= q) l -> Forall (fun q => 0 <= q) (firstn n l).
Proof.
  intros H. revert n. induction H as [ | q l Hq _ IH ]; intros [ | n ]; simpl;
    auto.
Qed.

Lemma skipn_nonneg (n : nat) (l : list Q) :
  Forall (fun q => 0 <= q) l -> Forall (fun q => 0 <= q) (skipn n l).
Proof.
  intros H. revert n. induction H as [ | q l Hq H IH ]; intros [ | n ]; simpl;
    auto.
Qed.

Section Outcomes.

Variable self : SEIR.
Variable sol : Q -> list Q.
Variable y0 : list Q.
Variable time : list Q.
Variables lh li ld : Q.
Let n := num_compartments self.

Hypothesis self_constructed : constructed self.
Hypothesis self_solution : solution self = Some sol.
Hypothesis self_Y0 : Y0 self = Some y0.
Hypothesis y0_length : length y0 = (4 * n)%nat.
Hypothesis sol_length : forall t, length (sol t) = (4 * n)%nat.
Hypothesis hospitalization_lag :
  np.scalar (hospitalization_lag_from_onset self) = Some lh.
Hypothesis icu_lag : np.scalar (icu_lag_from_onset self) = Some li.
Hypothesis death_lag : np.scalar (death_lag_from_onset self) = Some ld.

(** X12.  What [evaluate_solution] returns, for scalar lags, integer
    durations and query times that reach the simulated interval in each of
    the four queries: the four blocks of the solution at the query times;
    as active hospitalizations, the boxcar of the hospitalization window
    over hospitalization_probability . E(t - lag) / incubation_period; as
    active ICU, the boxcar of that same hospitalization window over
    icu_probability . I(t - icu_lag) / incubation_period, I being the
    infectious block; as deaths, the running sum of
    death_probability . E(t - death_lag) / incubation_period. *)
Theorem evaluate_solution_returns (wh wi : list Q) :
  np.ones_of (hospitalization_duration self) = Ok wh -> wh <> [] ->
  np.ones_of (icu_duration self) = Ok wi ->
  Forall (reaches time) [0; lh; li; ld] ->
  evaluate_solution self time
  = Ok {| out_S := map (S_block n) (rows_of sol y0 time);
          out_E := map (E_block n) (rows_of sol y0 time);
          out_I := map (I_block n) (rows_of sol y0 time);
          out_R := map (R_block n) (rows_of sol y0 time);
          H_active_cases :=
            boxcar n (onset_series self (hospitalization_probability self)
                        (E_block n) (rows_of sol y0 (shifted time lh))) wh;
          ICU_active_cases :=
            boxcar n (onset_series self (icu_probability self)
                        (I_block n) (rows_of sol y0 (shifted time li))) wh;
          deaths :=
            np.cumsum (onset_series self (death_probability self)
                         (E_block n) (rows_of sol y0 (shifted time ld))) |}.
Proof.
  intros Hwh Hne Hwi Hreach.
  apply (evaluate_solution_computes self sol y0 (constructed_shaped _ self_constructed)
           self_solution self_Y0 y0_length sol_length time lh li ld wh wi);
    auto.
Qed.

(** X13.  The sizes of the series returned: the four blocks and the deaths
    have one row per query time; the two occupancy series have as many rows
    as the longer of the query and the hospitalization window, so more rows
    than query times when the query is shorter than the window; every row
    of the occupancy series and of the deaths has N entries. *)
Theorem outcome_series_sizes (wh wi : list Q) :
  np.ones_of (hospitalization_duration self) = Ok wh -> wh <> [] ->
  np.ones_of (icu_duration self) = Ok wi ->
  Forall (reaches time) [0; lh; li; ld] ->
  exists out,
    evaluate_solution self time = Ok out
    /\ Forall (fun series => length series = length time)
         [out_S out; out_E out; out_I out; out_R out; deaths out]
    /\ Forall (fun series => length series = Nat.max (length time) (length wh))
         [H_active_cases out; ICU_active_cases out]
    /\ Forall (Forall (fun row => length row = n))
         [H_active_cases out; ICU_active_cases out; deaths out].
Proof.
  intros Hwh Hne Hwi Hreach.
  destruct (constructed_shaped _ self_constructed) as (Hvec & _ & _ & Hn1).
  assert (Hinc : length (incubation_period self) = n)
    by (rewrite Forall_forall in Hvec; apply Hvec; simpl; tauto).
  assert (Hdp : length (death_probability self) = n)
    by (rewrite Forall_forall in Hvec; apply Hvec; simpl; tauto).
  eexists. split.
  - apply (evaluate_solution_computes self sol y0
             (constructed_shaped _ self_constructed)
             self_solution self_Y0 y0_length sol_length time lh li ld wh wi);
      auto.
  - cbn [out_S out_E out_I out_R deaths H_active_cases ICU_active_cases].
    split; [ | split ].
    + repeat constructor;
        rewrite ?cumsum_length; unfold onset_series;
        rewrite !length_map, rows_of_length; unfold shifted;
        rewrite ?length_map; reflexivity.
    + apply Forall_cons; [ | apply Forall_cons; [ | apply Forall_nil ] ].
      * rewrite (proj1 (boxcar_shape _ _ _ Hn1)).
        unfold onset_series, shifted.
        now rewrite length_map, rows_of_length, length_map.
      * rewrite (proj1 (boxcar_shape _ _ _ Hn1)).
        unfold onset_series, shifted.
        now rewrite length_map, rows_of_length, length_map.
    + apply Forall_cons; [ apply boxcar_shape; exact Hn1 | ].
      apply Forall_cons; [ apply boxcar_shape; exact Hn1 | ].
      apply Forall_cons; [ | apply Forall_nil ].
      apply cumsum_rows.
      pose proof (rows_of_shape sol y0 (shifted time ld) _ y0_length sol_length)
        as Hs.
      destruct (block_lengths n _ Hs) as (HE & _).
      now destruct (onset_series_Ok self (death_probability self) _ _ n
                      Hinc Hdp HE) as (_ & _ & F).
Qed.

(** X14.  Cumulative deaths never go down from one row to the next, in any
    compartment, when the initial state and the solution are nonnegative
    and so are the death probabilities and the incubation periods. *)
Theorem cumulative_deaths_do_not_decrease (wh wi : list Q) :
  np.ones_of (hospitalization_duration self) = Ok wh -> wh <> [] ->
  np.ones_of (icu_duration self) = Ok wi ->
  Forall (reaches time) [0; lh; li; ld] ->
  Forall (fun q => 0 <= q) y0 ->
  (forall t, Forall (fun q => 0 <= q) (sol t)) ->
  Forall (fun q => 0 <= q) (death_probability self) ->
  Forall (fun q => 0 <= q) (incubation_period self) ->
  exists out,
    evaluate_solution self time = Ok out
    /\ forall k i, (S k < length time)%nat -> (i < n)%nat ->
         at_day k i (deaths out) <= at_day (S k) i (deaths out).
Proof.
  intros Hwh Hne Hwi Hreach Hy Hsol Hp Hinc0.
  destruct (constructed_shaped _ self_constructed) as (Hvec & _).
  assert (Hinc : length (incubation_period self) = n)
    by (rewrite Forall_forall in Hvec; apply Hvec; simpl; tauto).
  assert (Hdp : length (death_probability self) = n)
    by (rewrite Forall_forall in Hvec; apply Hvec; simpl; tauto).
  eexists. split.
  - apply (evaluate_solution_computes self sol y0
             (constructed_shaped _ self_constructed)
             self_solution self_Y0 y0_length sol_length time lh li ld wh wi);
      auto.
  - cbn [deaths]. fold n. intros k i Hk Hi.
    set (rows := rows_of sol y0 (shifted time ld)).
    set (D := onset_series self (death_probability self) (E_block n) rows).
    pose proof (rows_of_shape sol y0 (shifted time ld) _ y0_length sol_length)
      as Hs. fold rows in Hs.
    destruct (block_lengths n _ Hs) as (HE & _).
    destruct (onset_series_Ok self (death_probability self) _ _ n Hinc Hdp HE)
      as (_ & _ & F). fold D in F.
    assert (HlD : length D = length time).
    { unfold D, onset_series, rows, shifted.
      now rewrite length_map, rows_of_length, length_map. }
    assert (Hrow : forall j, (j < length D)%nat -> length (nth j D []) = n).
    { intros j Hj. rewrite Forall_forall in F. apply F. now apply nth_In. }
    assert (Hcrow : length (nth k (np.cumsum D) []) = n).
    { pose proof (cumsum_rows n D F) as Fc. rewrite Forall_forall in Fc.
      apply Fc. apply nth_In. rewrite cumsum_length. lia. }
    unfold at_day, entry.
    rewrite cumsum_step by lia.
    rewrite zip_with_nth by (rewrite ?Hcrow, ?Hrow; lia).
    assert (Hpos : 0 <= nth i (nth (S k) D []) 0).
    { unfold D, onset_series.
      rewrite (nth_map_rows _ []) by (unfold rows, shifted;
        rewrite rows_of_length, length_map; lia).
      set (row := nth (S k) rows []).
      assert (Hrn : Forall (fun q => 0 <= q) row).
      { assert (Hin : In row rows).
        { apply nth_In. unfold rows, shifted.
          rewrite rows_of_length, length_map. lia. }
        unfold rows, rows_of in Hin. apply in_app_or in Hin.
        destruct Hin as [Hin | Hin].
        - apply repeat_spec in Hin. now rewrite Hin.
        - apply in_map_iff in Hin. destruct Hin as (t & <- & _). apply Hsol. }
      assert (HlE : length (E_block n row) = n).
      { rewrite Forall_forall in HE. apply HE. apply nth_In.
        unfold rows, shifted. rewrite rows_of_length, length_map. lia. }
      rewrite zip_with_nth by (rewrite ?zip_with_length; lia).
      rewrite zip_with_nth by lia.
      apply Qmult_le_0_compat; [ now apply nth_nonneg | ].
      apply Qmult_le_0_compat.
      - apply nth_nonneg. unfold E_block.
        now apply firstn_nonneg, skipn_nonneg.
      - apply Qinv_le_0_compat. now apply nth_nonneg. }
    rewrite <- (Qplus_0_r (nth i (nth k (np.cumsum D) []) 0)) at 1.
    apply Qplus_le_r. exact Hpos.
Qed.

(** X15.  A duration has to be a Python [int]: with a [float] as
    hospitalization duration, or as ICU duration (whose window is built and
    then not used), [evaluate_solution] raises [TypeError]. *)
Theorem float_duration_raises (q : Q) :
  Forall (reaches time) [0; lh; li; ld] ->
  (hospitalization_duration self = PyFloat q ->
   evaluate_solution self time = Raise TypeError)
  /\ (forall wh, np.ones_of (hospitalization_duration self) = Ok wh ->
       wh <> [] ->
       icu_duration self = PyFloat q ->
       evaluate_solution self time = Raise TypeError).
Proof.
  intros Hreach.
  assert (Ht : time <> []).
  { apply (reaches_nonempty time 0). now inversion Hreach. }
  destruct (constructed_shaped _ self_constructed) as (Hvec & _).
  rewrite Forall_forall in Hvec.
  assert (Hinc : length (incubation_period self) = n) by (apply Hvec; simpl; tauto).
  assert (Hhp : length (hospitalization_probability self) = n)
    by (apply Hvec; simpl; tauto).
  assert (Hip : length (icu_probability self) = n) by (apply Hvec; simpl; tauto).
  pose proof (fun time => rows_of_shape sol y0 time _ y0_length sol_length) as Hs.
  assert (Hlen : forall t, length (sol t) = length y0)
    by (intros t; rewrite y0_length; apply sol_length).
  rewrite Forall_forall in Hreach.
  assert (Q0 : SEIR_solution self time = Ok (rows_of sol y0 time))
    by (apply SEIR_solution_Ok; auto; apply Hreach; simpl; tauto).
  assert (Qs : forall l, In l [lh; li; ld] ->
                 SEIR_solution self (shifted time l)
                 = Ok (rows_of sol y0 (shifted time l))).
  { intros l Hin. apply SEIR_solution_Ok; auto.
    apply reaches_shifted, Hreach. now right. }
  split.
  - intros Hd. unfold evaluate_solution. rewrite Q0. cbn [bind].
    rewrite (split4_rows_blocks n _ (Hs time)). cbn [bind].
    destruct (block_lengths n _ (Hs time)) as (HE0 & _).
    destruct (onset_series_Ok self (np.ones n) _ _ n Hinc (repeat_length _ _) HE0)
      as (E0 & _).
    rewrite E0. cbn [bind]. clear E0.
    rewrite (subtract_scalar _ _ _ hospitalization_lag). cbn [bind].
    rewrite (Qs lh) by (simpl; tauto). cbn [bind].
    rewrite (split4_rows_blocks n _ (Hs _)). cbn [bind].
    destruct (block_lengths n _ (Hs (shifted time lh))) as (HEh & _).
    destruct (onset_series_Ok self _ _ _ n Hinc Hhp HEh) as (E1 & E2 & F).
    rewrite E1. cbn [bind]. rewrite E2. cbn [bind].
    rewrite Hd. reflexivity.
  - intros wh Hwh Hne Hd. unfold evaluate_solution. rewrite Q0. cbn [bind].
    rewrite (split4_rows_blocks n _ (Hs time)). cbn [bind].
    destruct (block_lengths n _ (Hs time)) as (HE0 & _).
    destruct (onset_series_Ok self (np.ones n) _ _ n Hinc (repeat_length _ _) HE0)
      as (E0 & _).
    rewrite E0. cbn [bind]. clear E0.
    rewrite (subtract_scalar _ _ _ hospitalization_lag). cbn [bind].
    rewrite (Qs lh) by (simpl; tauto). cbn [bind].
    rewrite (split4_rows_blocks n _ (Hs _)). cbn [bind].
    destruct (block_lengths n _ (Hs (shifted time lh))) as (HEh & _).
    destruct (onset_series_Ok self _ _ _ n Hinc Hhp HEh) as (E1 & E2 & F).
    rewrite E1. cbn [bind]. rewrite E2. cbn [bind]. rewrite Hwh. cbn [bind].
    fold n. rewrite active_cases_Ok; auto.
    2:{ apply onset_series_nonempty, rows_of_nonempty, shifted_nonempty, Ht. }
    cbn [bind]. clear E1 E2 F.
    rewrite (subtract_scalar _ _ _ icu_lag). cbn [bind].
    rewrite (Qs li) by (simpl; tauto). cbn [bind].
    rewrite (split4_rows_blocks n _ (Hs _)). cbn [bind].
    destruct (block_lengths n _ (Hs (shifted time li))) as (_ & HIi).
    destruct (onset_series_Ok self _ _ _ n Hinc Hip HIi) as (E1 & E2 & F).
    rewrite E1. cbn [bind]. rewrite E2. cbn [bind].
    rewrite Hd. reflexivity.
Qed.

(** X16.  A hospitalization duration of zero days or less leaves no window
    to convolve with: [evaluate_solution] raises [ValueError]. *)
Theorem empty_window_raises (z : Z) :
  Forall (reaches time) [0; lh; li; ld] ->
  hospitalization_duration self = PyInt z -> (z <= 0)%Z ->
  evaluate_solution self time = Raise ValueError.
Proof.
  intros Hreach Hd Hz.
  assert (Ht : time <> []).
  { apply (reaches_nonempty time 0). now inversion Hreach. }
  destruct (constructed_shaped _ self_constructed) as (Hvec & _ & _ & Hn1).
  rewrite Forall_forall in Hvec.
  assert (Hinc : length (incubation_period self) = n) by (apply Hvec; simpl; tauto).
  assert (Hhp : length (hospitalization_probability self) = n)
    by (apply Hvec; simpl; tauto).
  pose proof (fun time => rows_of_shape sol y0 time _ y0_length sol_length) as Hs.
  assert (Hlen : forall t, length (sol t) = length y0)
    by (intros t; rewrite y0_length; apply sol_length).
  rewrite Forall_forall in Hreach.
  assert (Q0 : SEIR_solution self time = Ok (rows_of sol y0 time))
    by (apply SEIR_solution_Ok; auto; apply Hreach; simpl; tauto).
  assert (Qh : SEIR_solution self (shifted time lh)
               = Ok (rows_of sol y0 (shifted time lh))).
  { apply SEIR_solution_Ok; auto. apply reaches_shifted, Hreach. simpl; tauto. }
  unfold evaluate_solution. rewrite Q0. cbn [bind].
  rewrite (split4_rows_blocks n _ (Hs time)). cbn [bind].
  destruct (block_lengths n _ (Hs time)) as (HE0 & _).
  destruct (onset_series_Ok self (np.ones n) _ _ n Hinc (repeat_length _ _) HE0)
    as (E0 & _).
  rewrite E0. cbn [bind]. clear E0.
  rewrite (subtract_scalar _ _ _ hospitalization_lag). cbn [bind].
  rewrite Qh. cbn [bind].
  rewrite (split4_rows_blocks n _ (Hs _)). cbn [bind].
  destruct (block_lengths n _ (Hs (shifted time lh))) as (HEh & _).
  destruct (onset_series_Ok self _ _ _ n Hinc Hhp HEh) as (E1 & E2 & F).
  rewrite E1. cbn [bind]. rewrite E2. cbn [bind].
  rewrite Hd. cbn [np.ones_of].
  destruct (Z.ltb_spec z 0) as [ _ | Hz0 ]; [ reflexivity | ].
  replace z with 0%Z by lia. cbn [bind Z.to_nat np.ones repeat].
  set (series := onset_series _ _ _ _) in *.
  assert (Hser : series <> []).
  { apply onset_series_nonempty, rows_of_nonempty, shifted_nonempty, Ht. }
  unfold active_cases. fold n. destruct n as [ | m ] eqn:En; [ lia | ].
  cbn [seq mapM]. unfold np.column.
  destruct series as [ | row series' ]; [ congruence | ].
  cbn [np.shape1]. inversion F as [ | ? ? Hrow _ ]; subst.
  rewrite Hrow. cbn [Nat.ltb Nat.leb bind np.col map np.convolve_same].
  reflexivity.
Qed.

End Outcomes.

Lemma simulated_constructed (c : Config) (self : SEIR) :
  simulated c = Ok self -> constructed self.
Proof.
  unfold simulated. intros H. do 2 step H.
  eapply by_simulate; [ | exact H ].
  eapply by_set_initial_state; [ eapply by_init; exact E | exact E0 ].
Qed.

Lemma reaches_example : Forall (reaches [27; 28; 29]) [0; 6; 21; 27].
Proof.
  repeat (apply Forall_cons; [ apply Exists_cons_hd; unfold Qle; simpl; lia | ]).
  apply Forall_nil.
Qed.

(** The example asked for days 27, 28 and 29 after a simulation that stays
    at the initial state: 500/3 deaths a day. *)
Lemma evaluate_solution_returns_example :
  exists self out,
    simulated example_config = Ok self
    /\ evaluate_solution self [27; 28; 29] = Ok out
    /\ lowest_terms (deaths out) = [[500 # 3]; [1000 # 3]; [500]].
Proof.
  destruct (simulated example_config) as [self | e] eqn:E;
    [ | vm_compute in E; discriminate ].
  pose proof (simulated_constructed _ _ E) as Hc.
  vm_compute in E. injection E as <-.
  eexists _, _. split; [ reflexivity | ]. split.
  - eapply (evaluate_solution_returns _ _ _ [27; 28; 29] 6 21 27 Hc
              eq_refl eq_refl eq_refl (fun _ => eq_refl) eq_refl eq_refl eq_refl
              (np.ones 21) (np.ones 7) eq_refl _ eq_refl reaches_example).
  - vm_compute. reflexivity.
  Unshelve. discriminate.
Defined.

(** Three query times and a window of 21 days: 21 rows of occupancy. *)
Lemma outcome_series_sizes_example :
  exists self out,
    simulated example_config = Ok self
    /\ evaluate_solution self [27; 28; 29] = Ok out
    /\ length (H_active_cases out) = 21%nat
    /\ length (deaths out) = 3%nat.
Proof.
  destruct (simulated example_config) as [self | e] eqn:E;
    [ | vm_compute in E; discriminate ].
  pose proof (simulated_constructed _ _ E) as Hc.
  vm_compute in E. injection E as <-.
  assert (Hne : np.ones 21 <> []) by discriminate.
  destruct (outcome_series_sizes _ _ _ [27; 28; 29] 6 21 27 Hc
              eq_refl eq_refl eq_refl (fun _ => eq_refl) eq_refl eq_refl eq_refl
              (np.ones 21) (np.ones 7) eq_refl Hne eq_refl reaches_example)
    as (out & Hev & HT & HW & _).
  eexists _, out. split; [ reflexivity | ]. split; [ exact Hev | ].
  split.
  - inversion HW as [ | ? ? H _ ]. exact H.
  - rewrite Forall_forall in HT. apply HT. simpl. tauto.
Defined.

Lemma cumulative_deaths_example :
  exists self out,
    simulated example_config = Ok self
    /\ evaluate_solution self [27; 28; 29] = Ok out
    /\ at_day 0 0 (deaths out) <= at_day 1 0 (deaths out).
Proof.
  destruct (simulated example_config) as [self | e] eqn:E;
    [ | vm_compute in E; discriminate ].
  pose proof (simulated_constructed _ _ E) as Hc.
  vm_compute in E. injection E as <-.
  assert (Hne : np.ones 21 <> []) by discriminate.
  assert (Hpos : Forall (fun q => 0 <= q)
                   [99000000 # 100; 5000000 # 1000; 5000000 # 1000; 0]).
  { repeat constructor; unfold Qle; simpl; lia. }
  destruct (cumulative_deaths_do_not_decrease _ _ _ [27; 28; 29] 6 21 27 Hc
              eq_refl eq_refl eq_refl (fun _ => eq_refl) eq_refl eq_refl eq_refl
              (np.ones 21) (np.ones 7) eq_refl Hne eq_refl reaches_example
              Hpos (fun _ => Hpos))
    as (out & Hev & Hmono).
  - repeat constructor; unfold Qle; simpl; lia.
  - repeat constructor; unfold Qle; simpl; lia.
  - eexists _, out. split; [ reflexivity | ]. split; [ exact Hev | ].
    apply Hmono; simpl; lia.
Defined.

(** A hospitalization that lasts 21.0 days. *)
Lemma float_duration_example :
  exists self,
    simulated (with_durations example_config (PyFloat 21) (PyInt 7)) = Ok self
    /\ evaluate_solution self [27; 28; 29] = Raise TypeError.
Proof.
  destruct (simulated (with_durations example_config (PyFloat 21) (PyInt 7)))
    as [self | e] eqn:E; [ | vm_compute in E; discriminate ].
  pose proof (simulated_constructed _ _ E) as Hc.
  vm_compute in E. injection E as <-.
  eexists. split; [ reflexivity | ].
  apply (float_duration_raises _ _ _ [27; 28; 29] 6 21 27 Hc
           eq_refl eq_refl eq_refl (fun _ => eq_refl) eq_refl eq_refl 21
           reaches_example).
  reflexivity.
Defined.

(** A hospitalization that lasts no day at all. *)
Lemma empty_window_example :
  exists self,
    simulated (with_durations example_config (PyInt 0) (PyInt 7)) = Ok self
    /\ evaluate_solution self [27; 28; 29] = Raise ValueError.
Proof.
  destruct (simulated (with_durations example_config (PyInt 0) (PyInt 7)))
    as [self | e] eqn:E; [ | vm_compute in E; discriminate ].
  pose proof (simulated_constructed _ _ E) as Hc.
  vm_compute in E. injection E as <-.
  eexists. split; [ reflexivity | ].
  apply (empty_window_raises _ _ _ [27; 28; 29] 6 21 27 Hc
           eq_refl eq_refl eq_refl (fun _ => eq_refl) eq_refl 0
           reaches_example eq_refl).
  lia.
Defined.

Lemma convolve_one_day (a : list Q) (m : nat) :
  (m < length a)%nat -> np.convolve_full_at a [1] m == nth m a 0.
Proof.
  intros H. unfold np.convolve_full_at. cbn [length seq filter].
  destruct (Nat.ltb_spec (m - 0) (length a)) as [ _ | ? ]; [ | lia ].
  cbn [Nat.leb andb map np.sum fold_right nth].
  rewrite Nat.sub_0_r. ring.
Qed.

Lemma same_part_nth (a v : list Q) (k : nat) :
  (length v <= length a)%nat -> (k < length a)%nat ->
  nth k (np.same_part a v) 0
  = np.convolve_full_at a v (k + (length v - 1) / 2).
Proof.
  intros H Hk. unfold np.same_part.
  destruct (Nat.ltb_spec (length a) (length v)); [ lia | ].
  rewrite (nth_map_in _ 0%nat) by (rewrite length_seq; lia).
  now rewrite seq_nth.
Qed.

Lemma boxcar_one_day (n : nat) (series : matrix) (k i : nat) :
  Forall (fun row => length row = n) series ->
  (k < length series)%nat -> (i < n)%nat ->
  entry k i (boxcar n series [1]) == entry k i series.
Proof.
  intros Hrows Hk Hi. unfold entry, boxcar, np.stack.
  set (g := fun j => np.same_part (np.col j series) [1]).
  assert (Hcol : forall j, length (np.col j series) = length series)
    by (intros j; unfold np.col; apply length_map).
  assert (Hg : forall j, length (g j) = length series).
  { intros j. unfold g. rewrite same_part_length_max, Hcol. simpl.
    destruct series; simpl in *; lia. }
  assert (Hhd : length (hd [] (map g (seq 0 n))) = length series).
  { destruct n as [ | n ]; [ lia | ]. cbn [seq map hd]. apply Hg. }
  rewrite Hhd.
  rewrite (nth_indep _ [] (map (fun c => nth 0 c 0) (map g (seq 0 n))))
    by (rewrite length_map, length_seq; lia).
  rewrite (map_nth (fun k => map (fun c => nth k c 0) (map g (seq 0 n)))
             (seq 0 (length series)) 0%nat k).
  rewrite seq_nth by lia. cbn [Nat.add].
  rewrite map_map.
  rewrite (nth_map_in (fun j => nth k (g j) 0) 0%nat) by (rewrite length_seq; lia).
  rewrite seq_nth by lia. cbn [Nat.add].
  unfold g. rewrite same_part_nth by (rewrite Hcol; simpl; lia).
  change ((length [1] - 1) / 2)%nat with 0%nat. rewrite Nat.add_0_r.
  rewrite convolve_one_day by (rewrite Hcol; lia).
  unfold np.col. rewrite (nth_map_in _ []) by lia. reflexivity.
Qed.

(** X17.  With a hospitalization duration of one day the window does
    nothing: the active hospitalizations of a row and a compartment are the
    new cases of that row,
    hospitalization_probability_i . E_i / incubation_period_i, taken in the
    same row of the query lagged by the hospitalization lag. *)
Theorem one_day_window_keeps_new_cases
    (self : SEIR) (sol : Q -> list Q) (y0 time : list Q) (lh li ld : Q)
    (wi : list Q) :
  constructed self ->
  solution self = Some sol -> Y0 self = Some y0 ->
  length y0 = (4 * num_compartments self)%nat ->
  (forall t, length (sol t) = (4 * num_compartments self)%nat) ->
  np.scalar (hospitalization_lag_from_onset self) = Some lh ->
  np.scalar (icu_lag_from_onset self) = Some li ->
  np.scalar (death_lag_from_onset self) = Some ld ->
  hospitalization_duration self = PyInt 1 ->
  np.ones_of (icu_duration self) = Ok wi ->
  Forall (reaches time) [0; lh; li; ld] ->
  let n := num_compartments self in
  exists out,
    evaluate_solution self time = Ok out
    /\ forall k i, (k < length time)%nat -> (i < n)%nat ->
         at_day k i (H_active_cases out)
         == nth i (hospitalization_probability self) 0
            * (nth i (E_block n (nth k (rows_of sol y0 (shifted time lh)) [])) 0
               / nth i (incubation_period self) 0).
Proof.
  intros Hc Hsol Hy Hly Hls Hlh Hli Hld Hd Hwi Hreach n.
  destruct (constructed_shaped _ Hc) as (Hvec & _).
  assert (Hinc : length (incubation_period self) = n)
    by (rewrite Forall_forall in Hvec; apply Hvec; simpl; tauto).
  assert (Hhp : length (hospitalization_probability self) = n)
    by (rewrite Forall_forall in Hvec; apply Hvec; simpl; tauto).
  eexists. split.
  - apply (evaluate_solution_computes self sol y0 (constructed_shaped _ Hc)
             Hsol Hy Hly Hls time lh li ld [1] wi); auto.
    + rewrite Hd. reflexivity.
    + discriminate.
  - cbn [H_active_cases]. fold n. intros k i Hk Hi.
    set (rows := rows_of sol y0 (shifted time lh)).
    pose proof (rows_of_shape sol y0 (shifted time lh) _ Hly Hls) as Hs.
    fold rows in Hs.
    destruct (block_lengths n _ Hs) as (HE & _).
    destruct (onset_series_Ok self (hospitalization_probability self) _ _ n
                Hinc Hhp HE) as (_ & _ & F).
    assert (Hlr : length rows = length time).
    { unfold rows, shifted. now rewrite rows_of_length, length_map. }
    unfold at_day.
    rewrite boxcar_one_day; auto.
    2:{ unfold onset_series. rewrite length_map. lia. }
    unfold entry, onset_series.
    rewrite (nth_map_rows _ []) by lia.
    assert (HlE : length (E_block n (nth k rows [])) = n).
    { rewrite Forall_forall in HE. apply HE. apply nth_In. lia. }
    rewrite zip_with_nth by (rewrite ?zip_with_length; lia).
    rewrite zip_with_nth by lia. reflexivity.
Qed.

(** One day in hospital: 0.01 . 5000 / 3 active cases on each of the days
    27, 28 and 29. *)
Lemma one_day_window_example :
  exists self out,
    simulated (with_durations example_config (PyInt 1) (PyInt 7)) = Ok self
    /\ evaluate_solution self [27; 28; 29] = Ok out
    /\ at_day 1 0 (H_active_cases out) == 50 # 3.
Proof.
  destruct (simulated (with_durations example_config (PyInt 1) (PyInt 7)))
    as [self | e] eqn:E; [ | vm_compute in E; discriminate ].
  pose proof (simulated_constructed _ _ E) as Hc.
  vm_compute in E. injection E as <-.
  destruct (one_day_window_keeps_new_cases _ _ _ [27; 28; 29] 6 21 27 (np.ones 7)
              Hc eq_refl eq_refl eq_refl (fun _ => eq_refl) eq_refl eq_refl
              eq_refl eq_refl eq_refl reaches_example)
    as (out & Hev & Hday).
  eexists _, out. split; [ reflexivity | ]. split; [ exact Hev | ].
  rewrite Hday by (simpl; lia). vm_compute. reflexivity.
Defined.

(** ** Queries that end before a lag *)

Lemma reaches_dec (time : list Q) (lag : Q) :
  {reaches time lag} + {~ reaches time lag}.
Proof.
  apply Exists_dec. intros t.
  destruct (Qlt_le_dec t lag) as [H | H]; [ right | left; exact H ].
  intros C. exact (Qlt_not_le _ _ H C).
Qed.

Lemma not_reaches_shifted (time : list Q) (lag : Q) :
  ~ reaches time lag -> Forall (fun t => t < 0) (shifted time lag).
Proof.
  unfold reaches, shifted. intros H. apply Forall_Exists_neg in H.
  apply Forall_map. eapply Forall_impl; [ | exact H ].
  intros t Ht. cbn beta in *. apply Qnot_le_lt in Ht.
  apply Qlt_minus_iff.
  setoid_replace (0 + - (t - lag)) with (lag + - t) by ring.
  now apply (proj1 (Qlt_minus_iff t lag)).
Qed.

Section UnreachedQueries.

Variable self : SEIR.
Variable sol : Q -> list Q.
Variable y0 : list Q.
Variable time : list Q.
Variables lh li ld : Q.
Variables wh wi : list Q.
Let n := num_compartments self.

Hypothesis self_constructed : constructed self.
Hypothesis self_solution : solution self = Some sol.
Hypothesis self_Y0 : Y0 self = Some y0.
Hypothesis y0_length : length y0 = (4 * n)%nat.
Hypothesis sol_length : forall t, length (sol t) = (4 * n)%nat.
Hypothesis hospitalization_lag :
  np.scalar (hospitalization_lag_from_onset self) = Some lh.
Hypothesis icu_lag : np.scalar (icu_lag_from_onset self) = Some li.
Hypothesis death_lag : np.scalar (death_lag_from_onset self) = Some ld.
Hypothesis hospital_window : np.ones_of (hospitalization_duration self) = Ok wh.
Hypothesis hospital_window_nonempty : wh <> [].
Hypothesis icu_window : np.ones_of (icu_duration self) = Ok wi.

(** X18.  [evaluate_solution] returns only when each of its four queries
    (the times as given, and lagged by the hospitalization, ICU and death
    lags) has a time at or after 0: when one of them has none, the stored
    solution raises [ValueError] and so does [evaluate_solution], although
    the rows of that query would all be the initial state. *)
Theorem evaluate_solution_needs_a_time_after_every_lag :
  ~ Forall (reaches time) [0; lh; li; ld] ->
  evaluate_solution self time = Raise ValueError.
Proof.
  intros Hnot.
  destruct (constructed_shaped _ self_constructed) as (Hvec & _).
  rewrite Forall_forall in Hvec.
  assert (Hinc : length (incubation_period self) = n) by (apply Hvec; simpl; tauto).
  assert (Hhp : length (hospitalization_probability self) = n)
    by (apply Hvec; simpl; tauto).
  assert (Hip : length (icu_probability self) = n) by (apply Hvec; simpl; tauto).
  pose proof (fun time => rows_of_shape sol y0 time _ y0_length sol_length) as Hs.
  assert (Hlen : forall t, length (sol t) = length y0)
    by (intros t; rewrite y0_length; apply sol_length).
  assert (Qok : forall l, reaches time l ->
                  SEIR_solution self (shifted time l)
                  = Ok (rows_of sol y0 (shifted time l))).
  { intros l Hr. apply SEIR_solution_Ok; auto. now apply reaches_shifted. }
  assert (Qno : forall l, ~ reaches time l ->
                  SEIR_solution self (shifted time l) = Raise ValueError).
  { intros l Hr. apply (SEIR_solution_all_negative self sol y0); auto.
    now apply not_reaches_shifted. }
  unfold evaluate_solution.
  destruct (reaches_dec time 0) as [R0 | N0].
  2:{ rewrite (SEIR_solution_all_negative self sol y0 time); auto.
      now apply not_reaches_all_negative. }
  pose proof (reaches_nonempty _ _ R0) as Ht.
  rewrite (SEIR_solution_Ok self sol y0 time); auto. cbn [bind].
  rewrite (split4_rows_blocks n _ (Hs time)). cbn [bind].
  destruct (block_lengths n _ (Hs time)) as (HE0 & _).
  destruct (onset_series_Ok self (np.ones n) _ _ n Hinc (repeat_length _ _) HE0)
    as (E0 & _).
  rewrite E0. cbn [bind]. clear E0.
  rewrite (subtract_scalar _ _ _ hospitalization_lag). cbn [bind].
  destruct (reaches_dec time lh) as [Rh | Nh].
  2:{ rewrite (Qno lh Nh). reflexivity. }
  rewrite (Qok lh Rh). cbn [bind].
  rewrite (split4_rows_blocks n _ (Hs _)). cbn [bind].
  destruct (block_lengths n _ (Hs (shifted time lh))) as (HEh & _).
  destruct (onset_series_Ok self _ _ _ n Hinc Hhp HEh) as (E1 & E2 & F).
  rewrite E1. cbn [bind]. rewrite E2. cbn [bind].
  rewrite hospital_window. cbn [bind].
  fold n. rewrite active_cases_Ok; auto.
  2:{ apply onset_series_nonempty, rows_of_nonempty, shifted_nonempty, Ht. }
  cbn [bind]. clear E1 E2 F.
  rewrite (subtract_scalar _ _ _ icu_lag). cbn [bind].
  destruct (reaches_dec time li) as [Ri | Ni].
  2:{ rewrite (Qno li Ni). reflexivity. }
  rewrite (Qok li Ri). cbn [bind].
  rewrite (split4_rows_blocks n _ (Hs _)). cbn [bind].
  destruct (block_lengths n _ (Hs (shifted time li))) as (_ & HIi).
  destruct (onset_series_Ok self _ _ _ n Hinc Hip HIi) as (E1 & E2 & F).
  rewrite E1. cbn [bind]. rewrite E2. cbn [bind].
  rewrite icu_window. cbn [bind].
  rewrite active_cases_Ok; auto.
  2:{ apply onset_series_nonempty, rows_of_nonempty, shifted_nonempty, Ht. }
  cbn [bind]. clear E1 E2 F.
  rewrite (subtract_scalar _ _ _ death_lag). cbn [bind].
  destruct (reaches_dec time ld) as [Rd | Nd].
  2:{ rewrite (Qno ld Nd). reflexivity. }
  exfalso. apply Hnot. repeat constructor; assumption.
Qed.

End UnreachedQueries.

(** The example, simulated by a solver whose output drifts away from the
    initial state, asked for the days 0 to 20: the query lagged by the 21
    days of the ICU lag has negative times only, and the evaluation
    raises. *)
Lemma evaluate_solution_on_a_short_grid :
  exists self self',
    example_setup = Ok self
    /\ simulate drifting_solver self 200 = Ok self'
    /\ evaluate_solution self' (arange 21) = Raise ValueError.
Proof.
  destruct example_setup as [self | e] eqn:E;
    [ | vm_compute in E; discriminate ].
  destruct (simulate drifting_solver self 200) as [self' | e] eqn:Es.
  2:{ vm_compute in E. injection E as <-. discriminate. }
  assert (Hc : constructed self').
  { eapply by_simulate; [ apply example_setup_constructed; exact E | exact Es ]. }
  exists self, self'. split; [ reflexivity | ]. split; [ exact Es | ].
  vm_compute in E. injection E as <-. injection Es as <-.
  apply (evaluate_solution_needs_a_time_after_every_lag _ _ _ (arange 21)
           6 21 27 (np.ones 21) (np.ones 7) Hc eq_refl eq_refl eq_refl
           (fun _ => eq_refl) eq_refl eq_refl eq_refl eq_refl
           ltac:(discriminate) eq_refl).
  intros H. inversion H as [ | ? ? _ H1 ]; subst.
  inversion H1 as [ | ? ? _ H2 ]; subst.
  inversion H2 as [ | ? ? H3 _ ]; subst.
  apply Exists_exists in H3. destruct H3 as (t & Hin & Ht).
  unfold arange in Hin. apply in_map_iff in Hin.
  destruct Hin as (k & <- & Hk). apply in_seq in Hk.
  unfold Qle in Ht. simpl in Ht. lia.
Defined.
